(** * The DpuClusterConfig reconciler (controllers/config_controller.go)

    A shallow embedding of the reconciler of the DPU network operator and the
    properties of its four phases: validation, node-pool convergence,
    remote-sync lifecycle and rollout of the ovnkube-node daemon set.

    The reconciler talks to two clusters and to a handful of libraries.  All
    of them are collaborators of the code, so they appear here as interfaces
    ([Library] for pure helpers, [Cluster] for everything with an effect); the
    reconciler itself is written once, over any implementation of them, in a
    state monad that also keeps the log of the calls it made. *)

From Stdlib Require Import ZArith List String Ascii Bool Lia.
From stdpp Require Import base option list strings gmap.

Open Scope string_scope.

(** ** Strings: the two library functions [dbList] is made of *)

Module Strings.

(** [strings.Join(elems, sep)]. *)
Fixpoint Join (elems : list string) (sep : string) : string :=
  match elems with
  | [] => ""
  | [x] => x
  | x :: rest => x ++ sep ++ Join rest sep
  end.

(** [bytealg.IndexByteString(s, c) >= 0]. *)
Fixpoint hasByte (c : ascii) (s : string) : bool :=
  match s with
  | EmptyString => false
  | String a rest => if Ascii.eqb a c then true else hasByte c rest
  end.

(** [net.JoinHostPort]: a host with a colon in it is taken for a literal
    IPv6 address and put in brackets. *)
Definition JoinHostPort (host port : string) : string :=
  if hasByte ":"%char host then "[" ++ host ++ "]:" ++ port
  else host ++ ":" ++ port.

End Strings.

Definition OVN_NB_PORT : string := "9641".
Definition OVN_SB_PORT : string := "9642".
Definition dpuMcRole : string := "dpu-worker".

(** [for i, ip := range masterIPs { addrs[i] = ... }]: the loop of [dbList],
    started at index [i] on the not yet visited addresses. *)
Fixpoint dbList_loop (i : nat) (masterIPs : list string) (port : string)
    (addrs : list string) : list string :=
  match masterIPs with
  | [] => addrs
  | ip :: rest =>
      dbList_loop (S i) rest port
        (<[i := "ssl:" ++ Strings.JoinHostPort ip port]> addrs)
  end.

Definition dbList (masterIPs : list string) (port : string) : string :=
  let addrs := replicate (length masterIPs) "" in
  Strings.Join (dbList_loop 0 masterIPs port addrs) ",".

(** ** Errors

    A Go [error] is a message and, for the errors of the cluster API, the
    answer [errors.IsNotFound] gives on it.  [fmt.Errorf] without [%w] makes a
    fresh error that is never "not found".  A nil error is [None]. *)

Record error := mkError { IsNotFound : bool; Error : string }.

Definition Errorf (msg : string) : error :=
  {| IsNotFound := false; Error := msg |}.

#[export] Instance error_eq_dec : EqDecision error.
Proof. solve_decision. Defined.

(** [obj] and [err] after [err := r.Get(ctx, key, obj)] on an [obj] that held
    [zero]: a failed call leaves the object as it was passed in. *)
Definition err_of {T} (r : error + T) : option error :=
  match r with inl e => Some e | inr _ => None end.

Definition val_of {T} (zero : T) (r : error + T) : T :=
  match r with inl _ => zero | inr v => v end.

(** ** The objects of the cluster API *)

Definition bytes := string.

Record LabelSelectorRequirement := mkRequirement {
  req_Key : string;
  req_Operator : string;
  req_Values : list string
}.

#[export] Instance LabelSelectorRequirement_eq_dec :
  EqDecision LabelSelectorRequirement.
Proof. solve_decision. Defined.

(** [metav1.LabelSelector].  A nil and an empty map (or slice) are the same
    value here, which is how [equality.Semantic.DeepEqual] compares them. *)
Record LabelSelector := mkSelector {
  MatchLabels : gmap string string;
  MatchExpressions : list LabelSelectorRequirement
}.

#[export] Instance LabelSelector_eq_dec : EqDecision LabelSelector.
Proof. solve_decision. Defined.

(** [equality.Semantic.DeepEqual] on two [*metav1.LabelSelector]. *)
Definition Semantic_DeepEqual (a b : option LabelSelector) : bool :=
  bool_decide (a = b).

Record MachineConfigPoolSpec := mkPoolSpec {
  MachineConfigSelector : option LabelSelector;
  pool_NodeSelector : option LabelSelector
}.

Record MachineConfigPool := mkPool {
  mcp_Name : string;
  mcp_ResourceVersion : string;
  mcp_Spec : MachineConfigPoolSpec
}.

(** [mcfgv1.MachineConfig]: its name, its resource version and the ignition
    payload [Spec.Config.Raw]. *)
Record MachineConfig := mkMachineConfig {
  mc_Name : string;
  mc_ResourceVersion : string;
  mc_Raw : bytes
}.

Definition SetResourceVersion (rv : string) (mc : MachineConfig) : MachineConfig :=
  {| mc_Name := mc_Name mc; mc_ResourceVersion := rv; mc_Raw := mc_Raw mc |}.

Record Container := mkContainer { Image : string }.

(** [appsv1.DaemonSet]: [Spec.Template.Spec.NodeSelector] is a Go map, nil
    ([None]) unless the manifest gives one; the two status counters are
    int32. *)
Record DaemonSet := mkDaemonSet {
  ds_Containers : list Container;
  ds_NodeSelector : option (gmap string string);
  DesiredNumberScheduled : Z;
  NumberReady : Z
}.

Definition set_ds_NodeSelector (m : option (gmap string string)) (ds : DaemonSet)
    : DaemonSet :=
  {| ds_Containers := ds_Containers ds; ds_NodeSelector := m;
     DesiredNumberScheduled := DesiredNumberScheduled ds;
     NumberReady := NumberReady ds |}.

Record Secret := mkSecret { Data : gmap string bytes }.

Record ConfigMap := mkConfigMap { cm_Data : gmap string string }.

Record Pod := mkPod { PodIP : string }.

(** Zero values, what [&T{}] holds before a [Get] fills it. *)
Definition zeroPoolSpec : MachineConfigPoolSpec :=
  {| MachineConfigSelector := None; pool_NodeSelector := None |}.
Definition zeroPool : MachineConfigPool :=
  {| mcp_Name := ""; mcp_ResourceVersion := ""; mcp_Spec := zeroPoolSpec |}.
Definition zeroMachineConfig : MachineConfig :=
  {| mc_Name := ""; mc_ResourceVersion := ""; mc_Raw := "" |}.
Definition zeroDaemonSet : DaemonSet :=
  {| ds_Containers := []; ds_NodeSelector := None;
     DesiredNumberScheduled := 0; NumberReady := 0 |}.
Definition zeroSecret : Secret := {| Data := ∅ |}.
Definition zeroConfigMap : ConfigMap := {| cm_Data := ∅ |}.

(** ** The configuration object and its conditions *)

Record DpuClusterConfigSpec := mkSpec {
  PoolName : string;
  NodeSelector : option LabelSelector;
  KubeConfigFile : string
}.

Inductive ConditionType := McpReady | TenantObjsSynced | OvnKubeReady.
Inductive Reason :=
  ReasonCreated | ReasonFailedCreated | ReasonFailedStart | ReasonNotFound
| ReasonProgressing.

Record Condition := mkCondition {
  cond_Type : ConditionType;
  cond_Status : bool;
  cond_Reason : Reason;
  cond_Message : string
}.

#[export] Instance ConditionType_eq_dec : EqDecision ConditionType.
Proof. solve_decision. Defined.

Record DpuClusterConfig := mkConfig {
  cfg_Namespace : string;
  cfg_Name : string;
  cfg_Spec : DpuClusterConfigSpec;
  cfg_Conditions : list Condition
}.

(** Modelled from the spec: the [api] package (the condition builder and
    [SetStatus]) is not among the sources.  The status block is a mapping from
    phase to condition; setting a condition overwrites the entry of its own
    phase and leaves the other phases' last conditions alone. *)
Fixpoint setCondition (c : Condition) (cs : list Condition) : list Condition :=
  match cs with
  | [] => [c]
  | c' :: rest =>
      if decide (cond_Type c' = cond_Type c) then c :: rest
      else c' :: setCondition c rest
  end.

Definition SetStatus (c : Condition) (cfg : DpuClusterConfig) : DpuClusterConfig :=
  {| cfg_Namespace := cfg_Namespace cfg; cfg_Name := cfg_Name cfg;
     cfg_Spec := cfg_Spec cfg;
     cfg_Conditions := setCondition c (cfg_Conditions cfg) |}.

Definition zeroConfig : DpuClusterConfig :=
  {| cfg_Namespace := ""; cfg_Name := "";
     cfg_Spec := {| PoolName := ""; NodeSelector := None; KubeConfigFile := "" |};
     cfg_Conditions := [] |}.

(** [ctrl.Request] and [ctrl.Result]. *)
Record Request := mkRequest { req_Namespace : string; req_Name : string }.
Record Result := mkResult { Requeue : bool; RequeueAfter : Z }.
Definition Result0 : Result := {| Requeue := false; RequeueAfter := 0 |}.

(** [metav1.ParseToLabelSelector] on the constant
    ["machineconfiguration.openshift.io/role in (worker,dpu-worker)"]: one
    requirement, operator [In], the values in sorted order.  The string is a
    constant of the source and it parses, so the error branch that follows the
    call in [syncMachineConfigObjs] is never taken. *)
Definition MachineConfigRoleLabelKey : string :=
  "machineconfiguration.openshift.io/role".

Definition mcSelector : option LabelSelector :=
  Some {| MatchLabels := ∅;
          MatchExpressions :=
            [ {| req_Key := MachineConfigRoleLabelKey; req_Operator := "In";
                 req_Values := [dpuMcRole; "worker"] |} ] |}.

(** ** The collaborators

    [Library] gathers what the reconciler uses of its libraries and of the
    [utils] package without any effect: opaque types, pure functions and
    constants.  None of it is defined in the controller. *)

Class Library := {
  (** [*rest.Config], [*syncer.OvnkubeSyncer], [*unstructured.Unstructured]
      and the [client.Client] of the tenant cluster *)
  RestConfig : Type;
  OvnkubeSyncer : Type;
  OvnkubeSyncer_eq_dec :: EqDecision OvnkubeSyncer;
  Unstructured : Type;
  TenantClient : Type;
  GetKind : Unstructured -> string;
  (** [fmt]'s [%v] of a rendered object *)
  Sprint : Unstructured -> string;
  (** the [interface{}] tree [json.Unmarshal] leaves in a nil variable (still
      nil when the bytes do not parse: the source drops the error), compared by
      [reflect.DeepEqual] *)
  Ign : Type;
  Ign_eq_dec :: EqDecision Ign;
  json_Unmarshal : bytes -> Ign;
  (** the [String] method of a [metav1.LabelSelector] pointer *)
  Selector_String : option LabelSelector -> string;
  (** [clientcmd.RESTConfigFromKubeConfig] *)
  RESTConfigFromKubeConfig : bytes -> option RestConfig * option error;
  (** [scheme.Convert] between the rendered object and a typed daemon set,
      and [ctrl.SetControllerReference]; each gives the object it wrote *)
  Convert_to_DaemonSet : Unstructured -> error + DaemonSet;
  Convert_from_DaemonSet : DaemonSet -> Unstructured -> error + Unstructured;
  SetControllerReference : DpuClusterConfig -> Unstructured -> error + Unstructured;
  (** constants of [utils] *)
  utils_TenantNamespace : string;
  utils_OvnkubeNodeManifestPath : string;
  utils_LocalOvnkbueNamespace : string;
  utils_LocalOvnkbueNodeDsName : string;
  utils_CmNameOvnCa : string;
  utils_CmNameOvnkubeConfig : string;
  utils_SecretNameOvnCert : string
}.

Definition reflect_DeepEqual `{Library} (a b : Ign) : bool := bool_decide (a = b).

Record SyncerConfig `{Library} := mkSyncerConfig {
  LocalRestConfig : option RestConfig;
  LocalNamespace : string;
  sc_TenantRestConfig : option RestConfig;
  TenantNamespace : string
}.

(** [render.RenderData.Data], the context handed to the templates. *)
Definition RenderData := gmap string string.
Definition MakeRenderData : RenderData := ∅.

(** What the reconciler asked of the outside, and what it was answered. *)
Inductive Event `{Library} :=
| EList (ns : string) (r : error + list DpuClusterConfig)
| EGetPool (name : string) (r : error + MachineConfigPool)
| ECreatePool (obj : MachineConfigPool) (err : option error)
| EUpdatePool (obj : MachineConfigPool) (err : option error)
| EGetMachineConfig (name : string) (r : error + MachineConfig)
| ECreateMachineConfig (obj : MachineConfig) (err : option error)
| EUpdateMachineConfig (obj : MachineConfig) (err : option error)
| EGenerateMachineConfig (path name role : string) (ovs : bool) (data : RenderData)
    (r : error + MachineConfig)
| EGetDaemonSet (ns name : string) (r : error + DaemonSet)
| EGetSecret (ns name : string) (r : error + Secret)
| EGetConfigMap (ns name : string) (r : error + ConfigMap)
| EStatusUpdate (obj : DpuClusterConfig) (err : option error)
| EGetConfigOrDie (r : option RestConfig)
| ESyncerNew (sc : SyncerConfig) (obj : DpuClusterConfig)
    (r : option OvnkubeSyncer * option error)
| ESyncerStart (h : option OvnkubeSyncer) (err : option error)
| ESyncerStop (h : OvnkubeSyncer)
| EClientNew (rc : option RestConfig) (r : error + TenantClient)
| EListPods (c : TenantClient) (labels : gmap string string) (r : error + list Pod)
| EGetenv (key value : string)
| ERenderDir (path : string) (data : RenderData) (r : error + list Unstructured)
| EApplyObject (obj : Unstructured) (err : option error).

(** [Cluster W] is everything with an effect, over a world [W] the code never
    looks into: the client of the local cluster, the client of the tenant
    cluster, the syncer, the process environment and the two renderers (which
    read templates from disk).  Each call gives its answer and the world after
    it. *)
Class Cluster `{Library} (W : Type) := {
  client_List : string -> W -> (error + list DpuClusterConfig) * W;
  client_Get_MachineConfigPool : string -> W -> (error + MachineConfigPool) * W;
  client_Create_MachineConfigPool : MachineConfigPool -> W -> option error * W;
  client_Update_MachineConfigPool : MachineConfigPool -> W -> option error * W;
  client_Get_MachineConfig : string -> W -> (error + MachineConfig) * W;
  client_Create_MachineConfig : MachineConfig -> W -> option error * W;
  client_Update_MachineConfig : MachineConfig -> W -> option error * W;
  mcrender_GenerateMachineConfig :
    string -> string -> string -> bool -> RenderData -> W ->
    (error + MachineConfig) * W;
  client_Get_DaemonSet : string -> string -> W -> (error + DaemonSet) * W;
  client_Get_Secret : string -> string -> W -> (error + Secret) * W;
  client_Get_ConfigMap : string -> string -> W -> (error + ConfigMap) * W;
  client_Status_Update : DpuClusterConfig -> W -> option error * W;
  (** [None]: the process exits *)
  ctrl_GetConfigOrDie : W -> option RestConfig * W;
  syncer_New :
    SyncerConfig -> DpuClusterConfig -> W ->
    (option OvnkubeSyncer * option error) * W;
  (** [go func() { err = r.syncer.Start() ... }()]: the task is launched and
      runs on its own; the answer is what the launching function then reads
      in the variable [err] it shares with the task *)
  syncer_Start : option OvnkubeSyncer -> W -> option error * W;
  syncer_Stop : OvnkubeSyncer -> W -> unit * W;
  client_New : option RestConfig -> W -> (error + TenantClient) * W;
  tenant_List_Pods :
    TenantClient -> gmap string string -> W -> (error + list Pod) * W;
  os_Getenv : string -> W -> string * W;
  render_RenderDir : string -> RenderData -> W -> (error + list Unstructured) * W;
  apply_ApplyObject : Unstructured -> W -> option error * W
}.

(** ** The monad of the reconciler

    A pass either returns, panics or ends the process.  The state is the
    world, the log of the calls made so far and the three variables the code
    shares between calls: the field [r.syncer], the package variable
    [utils.TenantRestConfig], and the configuration object every phase of a
    pass receives a pointer to. *)

Inductive Abort := Panic (msg : string) | Exit.

Inductive Outcome (A : Type) :=
| Done (a : A)
| Aborted (k : Abort).
Arguments Done {A} a.
Arguments Aborted {A} k.

Section Reconciler.
Context `{Lib : Library} {W : Type} `{Cl : !Cluster W}.

Record St := mkSt {
  world : W;
  trace : list Event;
  syncer : option OvnkubeSyncer;
  TenantRestConfig : option RestConfig;
  config : DpuClusterConfig
}.

Definition M (A : Type) : Type := St -> Outcome A * St.

Definition ret {A} (a : A) : M A := fun s => (Done a, s).

Definition bind {A B} (m : M A) (f : A -> M B) : M B :=
  fun s =>
    match m s with
    | (Done a, s') => f a s'
    | (Aborted k, s') => (Aborted k, s')
    end.

Definition panic {A} (msg : string) : M A := fun s => (Aborted (Panic msg), s).
Definition exit {A} : M A := fun s => (Aborted Exit, s).

(** A call to a collaborator: the world moves on and the call is logged with
    its answer. *)
Definition call {R} (op : W -> R * W) (ev : R -> Event) : M R :=
  fun s =>
    let rw := op (world s) in
    (Done (fst rw),
     {| world := snd rw; trace := trace s ++ [ev (fst rw)];
        syncer := syncer s; TenantRestConfig := TenantRestConfig s;
        config := config s |}).

Definition get_syncer : M (option OvnkubeSyncer) := fun s => (Done (syncer s), s).
Definition set_syncer (h : option OvnkubeSyncer) : M unit :=
  fun s =>
    (Done tt,
     {| world := world s; trace := trace s; syncer := h;
        TenantRestConfig := TenantRestConfig s; config := config s |}).

Definition get_TenantRestConfig : M (option RestConfig) :=
  fun s => (Done (TenantRestConfig s), s).
Definition set_TenantRestConfig (rc : option RestConfig) : M unit :=
  fun s =>
    (Done tt,
     {| world := world s; trace := trace s; syncer := syncer s;
        TenantRestConfig := rc; config := config s |}).

Definition get_config : M DpuClusterConfig := fun s => (Done (config s), s).
Definition set_config (cfg : DpuClusterConfig) : M unit :=
  fun s =>
    (Done tt,
     {| world := world s; trace := trace s; syncer := syncer s;
        TenantRestConfig := TenantRestConfig s; config := cfg |}).

(** [defer d] in front of [body]: [d] runs when [body] returns and also
    while it panics; it does not run when the process exits. *)
Definition defer {A} (d : M unit) (body : M A) : M A :=
  fun s =>
    match body s with
    | (Done a, s1) =>
        match d s1 with
        | (Done _, s2) => (Done a, s2)
        | (Aborted k, s2) => (Aborted k, s2)
        end
    | (Aborted (Panic msg), s1) =>
        match d s1 with
        | (Aborted Exit, s2) => (Aborted Exit, s2)
        | (_, s2) => (Aborted (Panic msg), s2)
        end
    | (Aborted Exit, s1) => (Aborted Exit, s1)
    end.

#[global] Instance M_ret : MRet M := @ret.
#[global] Instance M_bind : MBind M := fun A B f m => bind m f.

(** *** The calls, as the source writes them

    The calls of [logger] only write to the log of the process and are left
    out. *)

Definition r_List (ns : string) := call (client_List ns) (EList ns).
Definition r_Get_MachineConfigPool (name : string) :=
  call (client_Get_MachineConfigPool name) (EGetPool name).
Definition r_Create_MachineConfigPool (obj : MachineConfigPool) :=
  call (client_Create_MachineConfigPool obj) (ECreatePool obj).
Definition r_Update_MachineConfigPool (obj : MachineConfigPool) :=
  call (client_Update_MachineConfigPool obj) (EUpdatePool obj).
Definition r_Get_MachineConfig (name : string) :=
  call (client_Get_MachineConfig name) (EGetMachineConfig name).
Definition r_Create_MachineConfig (obj : MachineConfig) :=
  call (client_Create_MachineConfig obj) (ECreateMachineConfig obj).
Definition r_Update_MachineConfig (obj : MachineConfig) :=
  call (client_Update_MachineConfig obj) (EUpdateMachineConfig obj).
Definition GenerateMachineConfig (path name role : string) (ovs : bool)
    (data : RenderData) :=
  call (mcrender_GenerateMachineConfig path name role ovs data)
       (EGenerateMachineConfig path name role ovs data).
Definition r_Get_DaemonSet (ns name : string) :=
  call (client_Get_DaemonSet ns name) (EGetDaemonSet ns name).
Definition r_Get_Secret (ns name : string) :=
  call (client_Get_Secret ns name) (EGetSecret ns name).
Definition r_Get_ConfigMap (ns name : string) :=
  call (client_Get_ConfigMap ns name) (EGetConfigMap ns name).
Definition r_Status_Update (obj : DpuClusterConfig) :=
  call (client_Status_Update obj) (EStatusUpdate obj).
Definition GetConfigOrDie : M (option RestConfig) :=
  r ← call ctrl_GetConfigOrDie EGetConfigOrDie;
  match r with
  | Some rc => mret (Some rc)
  | None => exit
  end.
Definition New (sc : SyncerConfig) (obj : DpuClusterConfig) :=
  call (syncer_New sc obj) (ESyncerNew sc obj).
Definition go_Start (h : option OvnkubeSyncer) :=
  call (syncer_Start h) (ESyncerStart h).
Definition Stop (h : OvnkubeSyncer) :=
  call (syncer_Stop h) (fun _ => ESyncerStop h).
Definition tenant_New (rc : option RestConfig) :=
  call (client_New rc) (EClientNew rc).
Definition c_List (c : TenantClient) (labels : gmap string string) :=
  call (tenant_List_Pods c labels) (EListPods c labels).
Definition Getenv (key : string) := call (os_Getenv key) (EGetenv key).
Definition RenderDir (path : string) (data : RenderData) :=
  call (render_RenderDir path data) (ERenderDir path data).
Definition ApplyObject (obj : Unstructured) :=
  call (apply_ApplyObject obj) (EApplyObject obj).

(** [dpuClusterConfig.SetStatus(cond)], through the pointer. *)
Definition config_SetStatus (c : Condition) : M unit :=
  cfg ← get_config; set_config (SetStatus c cfg).

(** *** Validation *)

Definition validateTenantKubeConfig (dpuClusterConfig : DpuClusterConfig)
    : option error :=
  if decide (KubeConfigFile (cfg_Spec dpuClusterConfig) = "") then
    Some (Errorf "No Kubeconfig provided for Tenant cluster")
  else None.

Definition validateDPUHostBootstrap (dpuClusterConfig : DpuClusterConfig)
    : option error :=
  if decide (PoolName (cfg_Spec dpuClusterConfig) = "") then
    Some (Errorf "PoolName not provided")
  else if decide (Selector_String (NodeSelector (cfg_Spec dpuClusterConfig)) = "")
  then Some (Errorf "Missing node selector")
  else None.

(** *** Node-pool convergence *)

(** [syncMachineConfigObjs].  A [Get] of the pool that fails with anything
    but "not found" is passed over, as in the source; the same failure on the
    machine config is returned. *)
Definition syncMachineConfigObjs (cs : DpuClusterConfigSpec) : M (option error) :=
  let mcp :=
    {| mcp_Name := PoolName cs; mcp_ResourceVersion := "";
       mcp_Spec := {| MachineConfigSelector := mcSelector;
                      pool_NodeSelector := NodeSelector cs |} |} in
  if decide (PoolName cs = "master" \/ PoolName cs = "worker") then
    mret (Some (Errorf (PoolName cs ++ " pools is not allowed")))
  else
    r ← r_Get_MachineConfigPool (PoolName cs);
    let foundMcp := val_of zeroPool r in
    err ← match err_of r with
          | Some err =>
              if IsNotFound err then
                err ← r_Create_MachineConfigPool mcp;
                match err with
                | Some err =>
                    mret (Some (Errorf ("couldn't create MachineConfigPool: "
                                        ++ Error err)))
                | None => mret None
                end
              else mret None
          | None =>
              if negb (Semantic_DeepEqual
                         (MachineConfigSelector (mcp_Spec foundMcp)) mcSelector
                       && Semantic_DeepEqual
                            (pool_NodeSelector (mcp_Spec foundMcp))
                            (NodeSelector cs))
              then
                let foundMcp :=
                  {| mcp_Name := mcp_Name foundMcp;
                     mcp_ResourceVersion := mcp_ResourceVersion foundMcp;
                     mcp_Spec := mcp_Spec mcp |} in
                err ← r_Update_MachineConfigPool foundMcp;
                match err with
                | Some err =>
                    mret (Some (Errorf ("couldn't update MachineConfigPool: "
                                        ++ Error err)))
                | None => mret None
                end
              else mret None
          end;
    match err with
    | Some err => mret (Some err)
    | None =>
        let mcName := "00-" ++ PoolName cs ++ "-" ++ "bluefield-switchdev" in
        let data := MakeRenderData in
        r ← GenerateMachineConfig "bindata/machine-config" mcName dpuMcRole
              true data;
        match r with
        | inl err => mret (Some err)
        | inr mc =>
            r ← r_Get_MachineConfig mcName;
            let foundMc := val_of zeroMachineConfig r in
            match err_of r with
            | Some err =>
                if IsNotFound err then
                  err ← r_Create_MachineConfig mc;
                  match err with
                  | Some err =>
                      mret (Some (Errorf ("couldn't create MachineConfig: "
                                          ++ Error err)))
                  | None => mret None
                  end
                else
                  mret (Some (Errorf ("failed to get MachineConfig: "
                                      ++ Error err)))
            | None =>
                let foundIgn := json_Unmarshal (mc_Raw foundMc) in
                let renderedIgn := json_Unmarshal (mc_Raw mc) in
                if negb (reflect_DeepEqual foundIgn renderedIgn) then
                  (* the payload of the local foundMc is overwritten here, and
                     foundMc is not used again *)
                  let mc := SetResourceVersion (mc_ResourceVersion foundMc) mc in
                  err ← r_Update_MachineConfig mc;
                  match err with
                  | Some err =>
                      mret (Some (Errorf ("couldn't update MachineConfig: "
                                          ++ Error err)))
                  | None => mret None
                  end
                else mret None
            end
        end
    end.

Definition ensureMcpReady : M (option error) :=
  dpuClusterConfig ← get_config;
  err ← syncMachineConfigObjs (cfg_Spec dpuClusterConfig);
  match err with
  | Some err =>
      config_SetStatus
        {| cond_Type := McpReady; cond_Status := false;
           cond_Reason := ReasonFailedCreated; cond_Message := Error err |};;
      mret (Some err)
  | None =>
      config_SetStatus
        {| cond_Type := McpReady; cond_Status := true;
           cond_Reason := ReasonCreated; cond_Message := "" |};;
      mret None
  end.

(** *** Remote-sync lifecycle *)

Definition startTenantSyncerIfNeeded (cfg : DpuClusterConfig) : M (option error) :=
  h ← get_syncer;
  match h with
  | Some _ => mret None
  | None =>
      r ← r_Get_Secret (cfg_Namespace cfg) (KubeConfigFile (cfg_Spec cfg));
      match r with
      | inl err => mret (Some err)
      | inr s =>
          match Data s !! "config" with
          | None =>
              mret (Some (Errorf ("key 'config' cannot be found in secret "
                                  ++ KubeConfigFile (cfg_Spec cfg))))
          | Some bytes =>
              let '(rc, err) := RESTConfigFromKubeConfig bytes in
              set_TenantRestConfig rc;;
              match err with
              | Some err => mret (Some err)
              | None =>
                  localRestConfig ← GetConfigOrDie;
                  tenantRestConfig ← get_TenantRestConfig;
                  '(h, err) ← New {| LocalRestConfig := localRestConfig;
                                     LocalNamespace := cfg_Namespace cfg;
                                     sc_TenantRestConfig := tenantRestConfig;
                                     TenantNamespace := utils_TenantNamespace |}
                                  cfg;
                  set_syncer h;;
                  match err with
                  | Some err => mret (Some err)
                  | None =>
                      h ← get_syncer;
                      err ← go_Start h;
                      match err with
                      | Some err => mret (Some err)
                      | None => mret None
                      end
                  end
              end
          end
      end
  end.

Definition isTenantObjsSynced (namespace : string) : M (option error) :=
  r ← r_Get_ConfigMap namespace utils_CmNameOvnCa;
  match r with
  | inl err => mret (Some err)
  | inr _ =>
      r ← r_Get_ConfigMap namespace utils_CmNameOvnkubeConfig;
      match r with
      | inl err => mret (Some err)
      | inr _ =>
          r ← r_Get_Secret namespace utils_SecretNameOvnCert;
          match r with
          | inl err => mret (Some err)
          | inr _ => mret None
          end
      end
  end.

Definition ensureTenantObjsSynced (req : Request) : M (option error) :=
  dpuClusterConfig ← get_config;
  err ← startTenantSyncerIfNeeded dpuClusterConfig;
  match err with
  | Some err =>
      config_SetStatus
        {| cond_Type := TenantObjsSynced; cond_Status := false;
           cond_Reason := ReasonFailedStart; cond_Message := Error err |};;
      mret (Some err)
  | None =>
      err ← isTenantObjsSynced (req_Namespace req);
      match err with
      | Some err =>
          config_SetStatus
            {| cond_Type := TenantObjsSynced; cond_Status := false;
               cond_Reason := ReasonNotFound; cond_Message := Error err |};;
          mret (Some err)
      | None =>
          config_SetStatus
            {| cond_Type := TenantObjsSynced; cond_Status := true;
               cond_Reason := ReasonCreated; cond_Message := "" |};;
          mret None
      end
  end.

(** *** Rollout of the ovnkube-node daemon set *)

Definition getTenantClusterMasterIPs : M (list string * option error) :=
  tenantRestConfig ← get_TenantRestConfig;
  r ← tenant_New tenantRestConfig;
  match r with
  | inl err => mret ([], Some err)
  | inr c =>
      let labelSelector : gmap string string := {[ "app" := "ovnkube-master" ]} in
      r ← c_List c labelSelector;
      match r with
      | inl err => mret ([], Some err)
      | inr ovnkubeMasterPods =>
          let masterIPs :=
            fold_left (fun (masterIPs : list string) pod =>
                         (masterIPs ++ [PodIP pod])%list)
                      ovnkubeMasterPods [] in
          mret (masterIPs, None)
      end
  end.

Definition getLocalOvnkubeImage : M (string * option error) :=
  r ← r_Get_DaemonSet utils_LocalOvnkbueNamespace utils_LocalOvnkbueNodeDsName;
  match r with
  | inl err => mret ("", Some err)
  | inr ds =>
      match ds_Containers ds with
      | c :: _ => mret (Image c, None)
      | [] => panic "index out of range [0] with length 0"
      end
  end.

(** [ds.Spec.Template.Spec.NodeSelector[k] = v]: an assignment into a nil
    map panics. *)
Definition assignEntry (k v : string) (m : option (gmap string string))
    : M (option (gmap string string)) :=
  match m with
  | Some m => mret (Some (<[k := v]> m))
  | None => panic "assignment to entry in nil map"
  end.

(** [for k, v := range labels { ...NodeSelector[k] = v }] *)
Fixpoint rangeAssign (labels : list (string * string))
    (m : option (gmap string string)) : M (option (gmap string string)) :=
  match labels with
  | [] => mret m
  | (k, v) :: rest => m ← assignEntry k v m; rangeAssign rest m
  end.

(** The merge of the pool's node selector into the daemon set: reading
    [mcp.Spec.NodeSelector.MatchLabels] dereferences the pool's selector. *)
Definition mergeNodeSelector (mcp : MachineConfigPool) (ds : DaemonSet)
    : M DaemonSet :=
  match pool_NodeSelector (mcp_Spec mcp) with
  | None => panic "invalid memory address or nil pointer dereference"
  | Some sel =>
      m ← rangeAssign (map_to_list (MatchLabels sel)) (ds_NodeSelector ds);
      mret (set_ds_NodeSelector m ds)
  end.

(** The body of [for _, obj := range objs]: the object with its owner set,
    or the error the pass returns. *)
Definition patchObj (cfg : DpuClusterConfig) (mcp : MachineConfigPool)
    (obj : Unstructured) : M (error + Unstructured) :=
  if decide (GetKind obj = "DaemonSet") then
    match Convert_to_DaemonSet obj with
    | inl err => mret (inl err)
    | inr ds =>
        ds ← mergeNodeSelector mcp ds;
        match Convert_from_DaemonSet ds obj with
        | inl err => mret (inl err)
        | inr obj => mret (SetControllerReference cfg obj)
        end
    end
  else mret (SetControllerReference cfg obj).

Fixpoint syncObjs (cfg : DpuClusterConfig) (mcp : MachineConfigPool)
    (objs : list Unstructured) : M (option error) :=
  match objs with
  | [] => mret None
  | obj :: rest =>
      r ← patchObj cfg mcp obj;
      match r with
      | inl err => mret (Some err)
      | inr obj =>
          err ← ApplyObject obj;
          match err with
          | Some err =>
              mret (Some (Errorf ("failed to apply object " ++ Sprint obj
                                  ++ " with err: " ++ Error err)))
          | None => syncObjs cfg mcp rest
          end
      end
  end.

Definition syncOvnkubeDaemonSet (cfg : DpuClusterConfig) : M (option error) :=
  r ← r_Get_MachineConfigPool (PoolName (cfg_Spec cfg));
  let mcp := val_of zeroPool r in
  notFound ← match err_of r with
             | Some err =>
                 if IsNotFound err then
                   mret (Some (Errorf ("MachineConfigPool "
                                       ++ PoolName (cfg_Spec cfg)
                                       ++ " not found: " ++ Error err)))
                 else mret None
             | None => mret None
             end;
  match notFound with
  | Some err => mret (Some err)
  | None =>
      '(masterIPs, err) ← getTenantClusterMasterIPs;
      match err with
      | Some err => mret None
      | None =>
          image ← Getenv "OVNKUBE_IMAGE";
          '(image, err) ← (if decide (image = "") then getLocalOvnkubeImage
                           else mret (image, None));
          match err with
          | Some err => mret (Some err)
          | None =>
              let data := MakeRenderData in
              let data := <["OvnKubeImage" := image]> data in
              let data := <["Namespace" := cfg_Namespace cfg]> data in
              let data :=
                <["TenantKubeconfig" := KubeConfigFile (cfg_Spec cfg)]> data in
              let data :=
                <["OVN_NB_DB_LIST" := dbList masterIPs OVN_NB_PORT]> data in
              let data :=
                <["OVN_SB_DB_LIST" := dbList masterIPs OVN_SB_PORT]> data in
              r ← RenderDir utils_OvnkubeNodeManifestPath data;
              match r with
              | inl err => mret (Some err)
              | inr objs => syncObjs cfg mcp objs
              end
          end
      end
  end.

Definition checkDeamonSetState (req : Request) (cfg : DpuClusterConfig)
    : M (option error) :=
  r ← r_Get_DaemonSet (req_Namespace req) "ovnkube-node";
  match r with
  | inl err => mret (Some err)
  | inr ds =>
      if decide (DesiredNumberScheduled ds ≠ NumberReady ds) then
        mret (Some (Errorf "DaemonSet 'ovnkube-node' is rolling out"))
      else mret None
  end.

Definition ensureDeamonSetRunning (req : Request) : M (option error) :=
  dpuClusterConfig ← get_config;
  err ← syncOvnkubeDaemonSet dpuClusterConfig;
  match err with
  | Some err =>
      config_SetStatus
        {| cond_Type := OvnKubeReady; cond_Status := false;
           cond_Reason := ReasonFailedCreated; cond_Message := Error err |};;
      mret (Some err)
  | None =>
      dpuClusterConfig ← get_config;
      err ← checkDeamonSetState req dpuClusterConfig;
      match err with
      | Some err =>
          config_SetStatus
            {| cond_Type := OvnKubeReady; cond_Status := false;
               cond_Reason := ReasonProgressing; cond_Message := Error err |};;
          mret (Some err)
      | None =>
          config_SetStatus
            {| cond_Type := OvnKubeReady; cond_Status := true;
               cond_Reason := ReasonCreated; cond_Message := "" |};;
          mret None
      end
  end.

(** *** The phase sequencer *)

(** The pass on the one object of the namespace.  [dpuClusterConfig] is a
    pointer: the object it points to is the [config] of the state, which the
    phases update and the deferred status flush writes back. *)
Definition ReconcileDpuClusterConfig (req : Request)
    (dpuClusterConfig : DpuClusterConfig) : M (Result * option error) :=
  set_config dpuClusterConfig;;
  defer (cfg ← get_config; _ ← r_Status_Update cfg; mret tt)
    (cfg ← get_config;
     match validateDPUHostBootstrap cfg with
     | Some err => mret (Result0, Some err)
     | None =>
         err ← ensureMcpReady;
         match err with
         | Some err => mret (Result0, Some err)
         | None =>
             cfg ← get_config;
             match validateTenantKubeConfig cfg with
             | Some err => mret (Result0, Some err)
             | None =>
                 err ← ensureTenantObjsSynced req;
                 match err with
                 | Some err => mret (Result0, Some err)
                 | None =>
                     err ← ensureDeamonSetRunning req;
                     match err with
                     | Some err => mret (Result0, Some err)
                     | None => mret (Result0, None)
                     end
                 end
             end
         end
     end).

(** [Reconcile].  [err] is the one variable of the source: the listing
    assigns it, and every return of this function that names it gives what it
    holds then.  [cfgList.Items[0]] is the object the pass gets a pointer to. *)
Definition Reconcile (req : Request) : M (Result * option error) :=
  r ← r_List (req_Namespace req);
  let err := err_of r in
  let cfgList := val_of [] r in
  match err with
  | Some _ => mret (Result0, err)
  | None =>
      if decide (1 < length cfgList) then
        mret (Result0, err)
      else if decide (length cfgList = 1) then
        match cfgList with
        | item :: _ => ReconcileDpuClusterConfig req item
        | [] => panic "index out of range [0] with length 0"
        end
      else
        (if decide (length cfgList = 0) then
           h ← get_syncer;
           match h with
           | Some h => Stop h;; set_syncer None
           | None => mret tt
           end
         else mret tt);;
        mret (Result0, None)
  end.

End Reconciler.

Arguments St {Lib} W.
Arguments M {Lib} W A.

(** ** An in-memory cluster

    A cluster that stores what it is given and answers from what it stores,
    in the manner of the fake client of controller-runtime: [Get] finds the
    stored object or answers "not found", [Create] refuses a name that is
    taken, [Update] refuses a stale resource version and bumps it otherwise.
    What lies outside the local cluster (the tenant cluster, the templates on
    disk, the environment, the syncer) is a fixed answer per world.  Nothing
    changes in it but through the calls of the reconciler. *)

Section InMemory.
Context `{Lib : Library}.

Record Fake := mkFake {
  f_configs : list DpuClusterConfig;
  (** pools and machine configs by name: resource version and content *)
  f_pools : gmap string (string * MachineConfigPoolSpec);
  (** a failure every [Get] of a pool answers with, when set *)
  f_poolGetError : option error;
  f_machineConfigs : gmap string (string * bytes);
  (** the ignition payload the machine-config template renders to *)
  f_template : error + bytes;
  f_daemonSets : gmap (string * string) DaemonSet;
  f_secrets : gmap (string * string) Secret;
  f_configMaps : gmap (string * string) ConfigMap;
  f_localConfig : option RestConfig;
  f_tenantClient : error + TenantClient;
  f_tenantPods : error + list Pod;
  f_env : gmap string string;
  f_manifests : RenderData -> error + list Unstructured;
  f_applied : list Unstructured;
  f_syncerNew : option OvnkubeSyncer * option error;
  f_running : list OvnkubeSyncer
}.

Definition with_pools (m : gmap string (string * MachineConfigPoolSpec)) (w : Fake) : Fake :=
  mkFake (f_configs w) m (f_poolGetError w) (f_machineConfigs w) (f_template w)
    (f_daemonSets w) (f_secrets w) (f_configMaps w) (f_localConfig w)
    (f_tenantClient w) (f_tenantPods w) (f_env w) (f_manifests w) (f_applied w)
    (f_syncerNew w) (f_running w).

Definition with_machineConfigs (m : gmap string (string * bytes)) (w : Fake) : Fake :=
  mkFake (f_configs w) (f_pools w) (f_poolGetError w) m (f_template w)
    (f_daemonSets w) (f_secrets w) (f_configMaps w) (f_localConfig w)
    (f_tenantClient w) (f_tenantPods w) (f_env w) (f_manifests w) (f_applied w)
    (f_syncerNew w) (f_running w).

Definition with_configs (l : list DpuClusterConfig) (w : Fake) : Fake :=
  mkFake l (f_pools w) (f_poolGetError w) (f_machineConfigs w) (f_template w)
    (f_daemonSets w) (f_secrets w) (f_configMaps w) (f_localConfig w)
    (f_tenantClient w) (f_tenantPods w) (f_env w) (f_manifests w) (f_applied w)
    (f_syncerNew w) (f_running w).

Definition with_applied (l : list Unstructured) (w : Fake) : Fake :=
  mkFake (f_configs w) (f_pools w) (f_poolGetError w) (f_machineConfigs w)
    (f_template w) (f_daemonSets w) (f_secrets w) (f_configMaps w)
    (f_localConfig w) (f_tenantClient w) (f_tenantPods w) (f_env w)
    (f_manifests w) l (f_syncerNew w) (f_running w).

Definition with_running (l : list OvnkubeSyncer) (w : Fake) : Fake :=
  mkFake (f_configs w) (f_pools w) (f_poolGetError w) (f_machineConfigs w)
    (f_template w) (f_daemonSets w) (f_secrets w) (f_configMaps w)
    (f_localConfig w) (f_tenantClient w) (f_tenantPods w) (f_env w)
    (f_manifests w) (f_applied w) (f_syncerNew w) l.

Definition with_poolGetError (err : option error) (w : Fake) : Fake :=
  mkFake (f_configs w) (f_pools w) err (f_machineConfigs w) (f_template w)
    (f_daemonSets w) (f_secrets w) (f_configMaps w) (f_localConfig w)
    (f_tenantClient w) (f_tenantPods w) (f_env w) (f_manifests w) (f_applied w)
    (f_syncerNew w) (f_running w).

Definition with_daemonSets (m : gmap (string * string) DaemonSet) (w : Fake) : Fake :=
  mkFake (f_configs w) (f_pools w) (f_poolGetError w) (f_machineConfigs w)
    (f_template w) m (f_secrets w) (f_configMaps w) (f_localConfig w)
    (f_tenantClient w) (f_tenantPods w) (f_env w) (f_manifests w) (f_applied w)
    (f_syncerNew w) (f_running w).

Definition with_configMaps (m : gmap (string * string) ConfigMap) (w : Fake) : Fake :=
  mkFake (f_configs w) (f_pools w) (f_poolGetError w) (f_machineConfigs w)
    (f_template w) (f_daemonSets w) (f_secrets w) m (f_localConfig w)
    (f_tenantClient w) (f_tenantPods w) (f_env w) (f_manifests w) (f_applied w)
    (f_syncerNew w) (f_running w).

Definition with_secrets (m : gmap (string * string) Secret) (w : Fake) : Fake :=
  mkFake (f_configs w) (f_pools w) (f_poolGetError w) (f_machineConfigs w)
    (f_template w) (f_daemonSets w) m (f_configMaps w) (f_localConfig w)
    (f_tenantClient w) (f_tenantPods w) (f_env w) (f_manifests w) (f_applied w)
    (f_syncerNew w) (f_running w).

Definition with_tenantPods (r : error + list Pod) (w : Fake) : Fake :=
  mkFake (f_configs w) (f_pools w) (f_poolGetError w) (f_machineConfigs w)
    (f_template w) (f_daemonSets w) (f_secrets w) (f_configMaps w)
    (f_localConfig w) (f_tenantClient w) r (f_env w) (f_manifests w)
    (f_applied w) (f_syncerNew w) (f_running w).

Definition with_manifests (r : RenderData -> error + list Unstructured) (w : Fake)
    : Fake :=
  mkFake (f_configs w) (f_pools w) (f_poolGetError w) (f_machineConfigs w)
    (f_template w) (f_daemonSets w) (f_secrets w) (f_configMaps w)
    (f_localConfig w) (f_tenantClient w) (f_tenantPods w) (f_env w) r
    (f_applied w) (f_syncerNew w) (f_running w).

Definition notFound (what : string) : error :=
  {| IsNotFound := true; Error := what ++ " not found" |}.

Definition found {K V} `{Countable K} (what : string) (m : gmap K V) (k : K)
    : error + V :=
  match m !! k with
  | Some v => inr v
  | None => inl (notFound what)
  end.

Definition fake_List (ns : string) (w : Fake) :=
  (inr (filter (fun c => cfg_Namespace c = ns) (f_configs w))
     : error + list DpuClusterConfig, w).

Definition fake_Get_Pool (name : string) (w : Fake) :=
  (match f_poolGetError w with
   | Some err => inl err
   | None =>
       match f_pools w !! name with
       | Some (rv, spec) =>
           inr {| mcp_Name := name; mcp_ResourceVersion := rv; mcp_Spec := spec |}
       | None => inl (notFound "machineconfigpool")
       end
   end, w).

Definition fake_Create_Pool (obj : MachineConfigPool) (w : Fake) :=
  match f_pools w !! mcp_Name obj with
  | Some _ => (Some (Errorf "machineconfigpool already exists"), w)
  | None =>
      (None, with_pools (<[mcp_Name obj := ("1", mcp_Spec obj)]> (f_pools w)) w)
  end.

Definition fake_Update_Pool (obj : MachineConfigPool) (w : Fake) :=
  match f_pools w !! mcp_Name obj with
  | None => (Some (notFound "machineconfigpool"), w)
  | Some (rv, _) =>
      if decide (rv = mcp_ResourceVersion obj) then
        (None,
         with_pools (<[mcp_Name obj := (rv ++ "+", mcp_Spec obj)]> (f_pools w)) w)
      else (Some (Errorf "the object has been modified"), w)
  end.

Definition fake_Get_MachineConfig (name : string) (w : Fake) :=
  (match f_machineConfigs w !! name with
   | Some (rv, raw) =>
       inr {| mc_Name := name; mc_ResourceVersion := rv; mc_Raw := raw |}
   | None => inl (notFound "machineconfig")
   end, w).

Definition fake_Create_MachineConfig (obj : MachineConfig) (w : Fake) :=
  match f_machineConfigs w !! mc_Name obj with
  | Some _ => (Some (Errorf "machineconfig already exists"), w)
  | None =>
      (None,
       with_machineConfigs
         (<[mc_Name obj := ("1", mc_Raw obj)]> (f_machineConfigs w)) w)
  end.

Definition fake_Update_MachineConfig (obj : MachineConfig) (w : Fake) :=
  match f_machineConfigs w !! mc_Name obj with
  | None => (Some (notFound "machineconfig"), w)
  | Some (rv, _) =>
      if decide (rv = mc_ResourceVersion obj) then
        (None,
         with_machineConfigs
           (<[mc_Name obj := (rv ++ "+", mc_Raw obj)]> (f_machineConfigs w)) w)
      else (Some (Errorf "the object has been modified"), w)
  end.

Definition fake_GenerateMachineConfig (path name role : string) (ovs : bool)
    (data : RenderData) (w : Fake) :=
  (match f_template w with
   | inl err => inl err
   | inr raw =>
       inr {| mc_Name := name; mc_ResourceVersion := ""; mc_Raw := raw |}
   end, w).

Definition fake_Status_Update (obj : DpuClusterConfig) (w : Fake) :=
  let same c :=
    bool_decide (cfg_Namespace c = cfg_Namespace obj /\ cfg_Name c = cfg_Name obj) in
  if existsb same (f_configs w) then
    (None,
     with_configs (map (fun c => if same c then obj else c) (f_configs w)) w)
  else (Some (notFound "dpuclusterconfig"), w).

Definition fake_Start (h : option OvnkubeSyncer) (w : Fake) :=
  match h with
  | Some h => (None : option error, with_running (h :: f_running w) w)
  | None => (None, w)
  end.

Fixpoint remove_one (h : OvnkubeSyncer) (l : list OvnkubeSyncer)
    : list OvnkubeSyncer :=
  match l with
  | [] => []
  | x :: rest => if decide (x = h) then rest else x :: remove_one h rest
  end.

Definition fake_Stop (h : OvnkubeSyncer) (w : Fake) :=
  (tt, with_running (remove_one h (f_running w)) w).

Definition fake_client_New (rc : option RestConfig) (w : Fake) :=
  (match rc with
   | None => inl (Errorf "must provide non-nil rest.Config to client.New")
   | Some _ => f_tenantClient w
   end, w).

#[export] Instance fake_cluster : Cluster Fake := {|
  client_List := fake_List;
  client_Get_MachineConfigPool := fake_Get_Pool;
  client_Create_MachineConfigPool := fake_Create_Pool;
  client_Update_MachineConfigPool := fake_Update_Pool;
  client_Get_MachineConfig := fake_Get_MachineConfig;
  client_Create_MachineConfig := fake_Create_MachineConfig;
  client_Update_MachineConfig := fake_Update_MachineConfig;
  mcrender_GenerateMachineConfig := fake_GenerateMachineConfig;
  client_Get_DaemonSet := fun ns name w =>
    (found "daemonset" (f_daemonSets w) (ns, name), w);
  client_Get_Secret := fun ns name w =>
    (found "secret" (f_secrets w) (ns, name), w);
  client_Get_ConfigMap := fun ns name w =>
    (found "configmap" (f_configMaps w) (ns, name), w);
  client_Status_Update := fake_Status_Update;
  ctrl_GetConfigOrDie := fun w => (f_localConfig w, w);
  syncer_New := fun _ _ w => (f_syncerNew w, w);
  syncer_Start := fake_Start;
  syncer_Stop := fake_Stop;
  client_New := fake_client_New;
  tenant_List_Pods := fun _ _ w => (f_tenantPods w, w);
  os_Getenv := fun key w => (default "" (f_env w !! key), w);
  render_RenderDir := fun _ data w => (f_manifests w data, w);
  apply_ApplyObject := fun obj w =>
    (None, with_applied (f_applied w ++ [obj])%list w)
|}.

End InMemory.

(** ** A concrete library, for the scenarios

    Rendered objects are records with the few fields the reconciler touches,
    handles are numbers, and the ignition payload is decoded by a reader of
    flat JSON objects: a member list between braces, keys and values quoted,
    no blanks and no escapes.  Decoding gives the finite map of the members
    ([None] for bytes that do not parse, the nil the source compares), so two
    payloads that list the same members in another order decode alike. *)

Module Flat.

Definition quote : ascii := ascii_of_nat 34.
Definition q : string := String quote EmptyString.

(** The characters up to the closing quote, and what follows it. *)
Fixpoint readString (s : string) : option (string * string) :=
  match s with
  | EmptyString => None
  | String c rest =>
      if Ascii.eqb c quote then Some (EmptyString, rest)
      else match readString rest with
           | Some (str, rest') => Some (String c str, rest')
           | None => None
           end
  end.

Definition readQuoted (s : string) : option (string * string) :=
  match s with
  | String c rest => if Ascii.eqb c quote then readString rest else None
  | EmptyString => None
  end.

Fixpoint readMembers (fuel : nat) (s : string) (acc : gmap string string)
    : option (gmap string string) :=
  match fuel with
  | O => None
  | S fuel =>
      match readQuoted s with
      | Some (k, String ":" rest) =>
          match readQuoted rest with
          | Some (v, String "," rest') => readMembers fuel rest' (<[k := v]> acc)
          | Some (v, String "}" EmptyString) => Some (<[k := v]> acc)
          | _ => None
          end
      | _ => None
      end
  end.

Definition Unmarshal (raw : bytes) : option (gmap string string) :=
  match raw with
  | String "{" (String "}" EmptyString) => Some ∅
  | String "{" rest => readMembers (String.length rest) rest ∅
  | _ => None
  end.

Definition member (k v : string) : string := q ++ k ++ q ++ ":" ++ q ++ v ++ q.
Definition object (members : list string) : bytes :=
  "{" ++ Strings.Join members "," ++ "}".

End Flat.

Record Manifest := mkManifest {
  u_Kind : string;
  u_Name : string;
  u_NodeSelector : option (gmap string string);
  u_Owner : option string
}.

Definition test_library : Library := {|
  RestConfig := bytes;
  OvnkubeSyncer := nat;
  Unstructured := Manifest;
  TenantClient := bytes;
  GetKind := u_Kind;
  Sprint := u_Name;
  Ign := option (gmap string string);
  json_Unmarshal := Flat.Unmarshal;
  Selector_String := fun sel =>
    match sel with
    | None => "nil"
    | Some _ => "&LabelSelector{}"
    end;
  RESTConfigFromKubeConfig := fun raw =>
    if decide (raw = "") then (None, Some (Errorf "invalid configuration"))
    else (Some raw, None);
  Convert_to_DaemonSet := fun u =>
    inr {| ds_Containers := []; ds_NodeSelector := u_NodeSelector u;
           DesiredNumberScheduled := 0; NumberReady := 0 |};
  Convert_from_DaemonSet := fun ds u =>
    inr {| u_Kind := u_Kind u; u_Name := u_Name u;
           u_NodeSelector := ds_NodeSelector ds; u_Owner := u_Owner u |};
  SetControllerReference := fun cfg u =>
    inr {| u_Kind := u_Kind u; u_Name := u_Name u;
           u_NodeSelector := u_NodeSelector u; u_Owner := Some (cfg_Name cfg) |};
  utils_TenantNamespace := "openshift-ovn-kubernetes";
  utils_OvnkubeNodeManifestPath := "./bindata/manifests/ovnkube-node";
  utils_LocalOvnkbueNamespace := "openshift-ovn-kubernetes";
  utils_LocalOvnkbueNodeDsName := "ovnkube-node";
  utils_CmNameOvnCa := "ovn-ca";
  utils_CmNameOvnkubeConfig := "ovnkube-config";
  utils_SecretNameOvnCert := "ovn-cert"
|}.

Module Scenario.

#[local] Existing Instance test_library.

Definition dpuSelector : option LabelSelector :=
  Some {| MatchLabels := {[ "node-role.kubernetes.io/dpu-worker" := "" ]};
          MatchExpressions := [] |}.

Definition cfg1 : DpuClusterConfig :=
  {| cfg_Namespace := "dpu"; cfg_Name := "one";
     cfg_Spec := {| PoolName := "dpu"; NodeSelector := dpuSelector;
                    KubeConfigFile := "tenant-kubeconfig" |};
     cfg_Conditions := [] |}.

Definition cfg2 : DpuClusterConfig :=
  {| cfg_Namespace := "dpu"; cfg_Name := "two";
     cfg_Spec := {| PoolName := "dpu2"; NodeSelector := dpuSelector;
                    KubeConfigFile := "tenant-kubeconfig" |};
     cfg_Conditions := [] |}.

(** A configuration with no kubeconfig: the third validation check fails. *)
Definition cfgNoKubeconfig : DpuClusterConfig :=
  {| cfg_Namespace := "dpu"; cfg_Name := "one";
     cfg_Spec := {| PoolName := "dpu"; NodeSelector := dpuSelector;
                    KubeConfigFile := "" |};
     cfg_Conditions := [] |}.

Definition cfgNoPool : DpuClusterConfig :=
  {| cfg_Namespace := "dpu"; cfg_Name := "one";
     cfg_Spec := {| PoolName := ""; NodeSelector := dpuSelector;
                    KubeConfigFile := "tenant-kubeconfig" |};
     cfg_Conditions := [] |}.

Definition cfgMaster : DpuClusterConfig :=
  {| cfg_Namespace := "dpu"; cfg_Name := "one";
     cfg_Spec := {| PoolName := "master"; NodeSelector := dpuSelector;
                    KubeConfigFile := "tenant-kubeconfig" |};
     cfg_Conditions := [] |}.

Definition req1 : Request := {| req_Namespace := "dpu"; req_Name := "one" |}.

(** The ignition payload as the template renders it, and the same members as
    the API server gave them back, in the other order. *)
Definition rendered : bytes :=
  Flat.object [Flat.member "contents" "switchdev"; Flat.member "path" "/etc/dpu"].
Definition stored : bytes :=
  Flat.object [Flat.member "path" "/etc/dpu"; Flat.member "contents" "switchdev"].

Definition dsManifest : Manifest :=
  {| u_Kind := "DaemonSet"; u_Name := "ovnkube-node";
     u_NodeSelector := Some {[ "beta.kubernetes.io/os" := "linux" ]};
     u_Owner := None |}.

(** A daemon set manifest that gives no node selector. *)
Definition dsManifestNoSelector : Manifest :=
  {| u_Kind := "DaemonSet"; u_Name := "ovnkube-node";
     u_NodeSelector := None; u_Owner := None |}.

Definition saManifest : Manifest :=
  {| u_Kind := "ServiceAccount"; u_Name := "ovnkube-node";
     u_NodeSelector := None; u_Owner := None |}.

Definition tenantSecret : Secret := {| Data := {[ "config" := "kubeconfig" ]} |}.

(** An empty local cluster next to a tenant cluster with two master pods. *)
Definition world0 : Fake :=
  {| f_configs := [];
     f_pools := ∅;
     f_poolGetError := None;
     f_machineConfigs := ∅;
     f_template := inr rendered;
     f_daemonSets := ∅;
     f_secrets := {[ ("dpu", "tenant-kubeconfig") := tenantSecret ]};
     f_configMaps := ∅;
     f_localConfig := Some "in-cluster";
     f_tenantClient := inr "tenant";
     f_tenantPods := inr [ {| PodIP := "10.0.0.1" |}; {| PodIP := "10.0.0.2" |} ];
     f_env := {[ "OVNKUBE_IMAGE" := "quay.io/ovnkube:latest" ]};
     f_manifests := fun _ => inr [saManifest; dsManifest];
     f_applied := [];
     f_syncerNew := (Some 7, None);
     f_running := [] |}.

(** The state of a reconciler on [w] that holds the handle [h] and has read
    the tenant connection [rc]. *)
Definition start (w : Fake) (h : option nat) (rc : option bytes) : St Fake :=
  {| world := w; trace := []; syncer := h; TenantRestConfig := rc;
     config := zeroConfig |}.

Definition desiredPool : MachineConfigPoolSpec :=
  {| MachineConfigSelector := mcSelector; pool_NodeSelector := dpuSelector |}.

(** The cluster once [cfg1] has converged, the machine config as the API
    server stores it. *)
Definition worldConverged : Fake :=
  with_machineConfigs {[ "00-dpu-bluefield-switchdev" := ("3", stored) ]}
    (with_pools {[ "dpu" := ("7", desiredPool) ]}
       (with_configs [cfg1] world0)).

(** Two configuration objects in one namespace. *)
Definition worldTwo : Fake := with_configs [cfg1; cfg2] world0.

(** The tenant cluster does not answer; the daemon set of an earlier rollout
    and the mirrored objects are there. *)
Definition readyDaemonSet : DaemonSet :=
  {| ds_Containers := [ {| Image := "quay.io/ovnkube:latest" |} ];
     ds_NodeSelector := Some ∅; DesiredNumberScheduled := 3; NumberReady := 3 |}.

Definition rollingDaemonSet : DaemonSet :=
  {| ds_Containers := [ {| Image := "quay.io/ovnkube:latest" |} ];
     ds_NodeSelector := Some ∅; DesiredNumberScheduled := 3; NumberReady := 2 |}.

Definition mirrored (w : Fake) : Fake :=
  with_secrets (<[ ("dpu", "ovn-cert") := zeroSecret ]> (f_secrets w))
    (with_configMaps {[ ("dpu", "ovn-ca") := zeroConfigMap;
                        ("dpu", "ovnkube-config") := zeroConfigMap ]} w).

Definition worldTenantDown : Fake :=
  with_tenantPods (inl (Errorf "connection refused"))
    (with_daemonSets {[ ("dpu", "ovnkube-node") := readyDaemonSet ]}
       (mirrored worldConverged)).

Definition worldRolling : Fake :=
  with_daemonSets {[ ("dpu", "ovnkube-node") := rollingDaemonSet ]} world0.

Definition worldReady : Fake :=
  with_daemonSets {[ ("dpu", "ovnkube-node") := readyDaemonSet ]} world0.

(** Every [Get] of a pool times out. *)
Definition worldPoolTimeout : Fake :=
  with_poolGetError (Some (Errorf "etcdserver: request timed out"))
    (with_manifests (fun _ => inr [dsManifest]) (mirrored worldConverged)).

(** The pool has labels to merge and the manifest gives no node selector. *)
Definition worldNoSelector : Fake :=
  with_manifests (fun _ => inr [dsManifestNoSelector]) (mirrored worldConverged).

End Scenario.

(** ** The vocabulary of the properties *)

Section Vocabulary.
Context `{Lib : Library}.

(** A short name for each call, to read a log at a glance. *)
Definition verb (e : Event) : string :=
  match e with
  | EList _ _ => "List DpuClusterConfig"
  | EGetPool _ _ => "Get MachineConfigPool"
  | ECreatePool _ _ => "Create MachineConfigPool"
  | EUpdatePool _ _ => "Update MachineConfigPool"
  | EGetMachineConfig _ _ => "Get MachineConfig"
  | ECreateMachineConfig _ _ => "Create MachineConfig"
  | EUpdateMachineConfig _ _ => "Update MachineConfig"
  | EGenerateMachineConfig _ _ _ _ _ _ => "GenerateMachineConfig"
  | EGetDaemonSet _ _ _ => "Get DaemonSet"
  | EGetSecret _ _ _ => "Get Secret"
  | EGetConfigMap _ _ _ => "Get ConfigMap"
  | EStatusUpdate _ _ => "Status Update"
  | EGetConfigOrDie _ => "GetConfigOrDie"
  | ESyncerNew _ _ _ => "syncer.New"
  | ESyncerStart _ _ => "syncer.Start"
  | ESyncerStop _ => "syncer.Stop"
  | EClientNew _ _ => "client.New"
  | EListPods _ _ _ => "List Pod"
  | EGetenv _ _ => "Getenv"
  | ERenderDir _ _ _ => "RenderDir"
  | EApplyObject _ _ => "ApplyObject"
  end.

(** The writes of node-pool convergence: every [Create] and every [Update] of
    a pool or of a machine config. *)
Definition isWrite (e : Event) : bool :=
  match e with
  | ECreatePool _ _ | EUpdatePool _ _
  | ECreateMachineConfig _ _ | EUpdateMachineConfig _ _ => true
  | _ => false
  end.

(** The calls node-pool convergence makes. *)
Definition isPoolPhase (e : Event) : bool :=
  match e with
  | EGetPool _ _ | ECreatePool _ _ | EUpdatePool _ _
  | EGetMachineConfig _ _ | ECreateMachineConfig _ _ | EUpdateMachineConfig _ _
  | EGenerateMachineConfig _ _ _ _ _ _ => true
  | _ => false
  end.

Definition isStatusUpdate (e : Event) : bool :=
  match e with
  | EStatusUpdate _ _ => true
  | _ => false
  end.

(** The syncer tasks a log leaves running: launched and not stopped since. *)
Definition launch (running : list OvnkubeSyncer) (e : Event) : list OvnkubeSyncer :=
  match e with
  | ESyncerStart (Some h) _ => h :: running
  | ESyncerStop h => remove_one h running
  | _ => running
  end.

Definition launched (tr : list Event) : list OvnkubeSyncer :=
  fold_left launch tr [].

End Vocabulary.

Section Runs.
Context `{Lib : Library} {W : Type} `{Cl : !Cluster W}.

(** The state after some calls were logged and the world moved to [w']. *)
Definition logged (s : St W) (w' : W) (evs : list Event) : St W :=
  {| world := w'; trace := (trace s ++ evs)%list; syncer := syncer s;
     TenantRestConfig := TenantRestConfig s; config := config s |}.

(** The calls a run from [s] adds to the log. *)
Definition emitted {A} (m : M W A) (s : St W) : list Event :=
  drop (length (trace s)) (trace (snd (m s))).

(** The states of a reconciler: it starts with no handle and an empty log,
    passes run one after the other, and between two passes the world may
    change in any way. *)
Inductive reachable : St W -> Prop :=
| reach_init (w : W) (rc : option RestConfig) (cfg : DpuClusterConfig) :
    reachable {| world := w; trace := []; syncer := None;
                 TenantRestConfig := rc; config := cfg |}
| reach_pass (s : St W) (req : Request) :
    reachable s -> reachable (snd (Reconcile req s))
| reach_world (s : St W) (w' : W) :
    reachable s -> reachable (logged s w' []).

(** [always R m]: every run of [m] relates the state before to the state
    after, also when it aborts. *)
Definition always (R : relation (St W)) {A} (m : M W A) : Prop :=
  forall s, R s (snd (m s)).

(** The log grew by calls that satisfy [P] only. *)
Definition grows (P : Event -> bool) : relation (St W) :=
  fun s s' => exists evs, trace s' = (trace s ++ evs)%list /\ forallb P evs = true.

(** The three shared variables are as they were. *)
Definition same_vars : relation (St W) :=
  fun s s' =>
    syncer s' = syncer s /\ TenantRestConfig s' = TenantRestConfig s
    /\ config s' = config s.

(** At most one task runs, and it is the one the reconciler holds. *)
Definition one_syncer (s : St W) : Prop :=
  match syncer s with
  | Some h => launched (trace s) = [h] \/ launched (trace s) = []
  | None => launched (trace s) = []
  end.

End Runs.

Section StoredCluster.
Context `{Lib : Library}.

(** The in-memory cluster holds what [cs] asks for: the pool with the desired
    selectors and, when the template renders, a machine config whose payload
    decodes like the rendered one. *)
Definition converged (cs : DpuClusterConfigSpec) (w : Fake) : Prop :=
  f_poolGetError w = None
  /\ (exists rv,
        f_pools w !! PoolName cs
        = Some (rv, {| MachineConfigSelector := mcSelector;
                       pool_NodeSelector := NodeSelector cs |}))
  /\ match f_template w with
     | inl _ => True
     | inr raw =>
         exists rv stored,
           f_machineConfigs w !! ("00-" ++ PoolName cs ++ "-" ++ "bluefield-switchdev")
           = Some (rv, stored)
           /\ json_Unmarshal stored = json_Unmarshal raw
     end.

End StoredCluster.

Section Footprints.
Context `{Lib : Library} {W : Type} `{Cl : !Cluster W}.

Definition isSyncerEvent (e : Event) : bool :=
  match e with
  | ESyncerStart _ _ | ESyncerStop _ => true
  | _ => false
  end.

(** The calls that neither write a pool or a machine config nor start or stop
    the syncer. *)
Definition calm (e : Event) : bool := negb (isWrite e) && negb (isSyncerEvent e).

(** [steps G op]: the call [op] moves the world along [G]. *)
Definition steps (G : relation W) {X} (op : W -> X * W) : Prop :=
  forall w, G w (snd (op w)).

(** The calls that are not writes of node-pool convergence and do not start
    or stop the syncer all move the world along [G]. *)
Record Reads (G : relation W) : Prop := {
  reads_List : forall ns, steps G (client_List ns);
  reads_Get_MachineConfigPool : forall name, steps G (client_Get_MachineConfigPool name);
  reads_Get_MachineConfig : forall name, steps G (client_Get_MachineConfig name);
  reads_GenerateMachineConfig : forall path name role ovs data,
    steps G (mcrender_GenerateMachineConfig path name role ovs data);
  reads_Get_DaemonSet : forall ns name, steps G (client_Get_DaemonSet ns name);
  reads_Get_Secret : forall ns name, steps G (client_Get_Secret ns name);
  reads_Get_ConfigMap : forall ns name, steps G (client_Get_ConfigMap ns name);
  reads_Status_Update : forall obj, steps G (client_Status_Update obj);
  reads_GetConfigOrDie : steps G ctrl_GetConfigOrDie;
  reads_syncer_New : forall sc obj, steps G (syncer_New sc obj);
  reads_client_New : forall rc, steps G (client_New rc);
  reads_List_Pods : forall c labels, steps G (tenant_List_Pods c labels);
  reads_Getenv : forall key, steps G (os_Getenv key);
  reads_RenderDir : forall path data, steps G (render_RenderDir path data);
  reads_ApplyObject : forall obj, steps G (apply_ApplyObject obj)
}.

(** So do the four writes of node-pool convergence. *)
Record Writes (G : relation W) : Prop := {
  writes_Create_MachineConfigPool : forall obj, steps G (client_Create_MachineConfigPool obj);
  writes_Update_MachineConfigPool : forall obj, steps G (client_Update_MachineConfigPool obj);
  writes_Create_MachineConfig : forall obj, steps G (client_Create_MachineConfig obj);
  writes_Update_MachineConfig : forall obj, steps G (client_Update_MachineConfig obj)
}.

(** A relation between states that is kept by every call in [P] that moves
    the world along [G], and by the updates of the configuration object and
    of the tenant connection. *)
Record Tolerates (P : Event -> bool) (G : relation W) (R : relation (St W))
    : Prop := {
  tol_preorder : PreOrder R;
  tol_call : forall s w' e, P e = true -> G (world s) w' -> R s (logged s w' [e]);
  tol_config : forall s c, R s (snd (set_config c s));
  tol_restconfig : forall s rc, R s (snd (set_TenantRestConfig rc s))
}.

(** Any move of the world. *)
Definition anyhow : relation W := fun _ _ => True.

(** [one_syncer] is kept. *)
Definition keeps_one_syncer : relation (St W) :=
  fun s s' => one_syncer s -> one_syncer s'.

(** The rest of a pass once node-pool convergence has returned [err]. *)
Definition afterMcpReady (req : Request) (err : option error)
    : M W (Result * option error) :=
  match err with
  | Some err => mret (Result0, Some err)
  | None =>
      cfg ← get_config;
      match validateTenantKubeConfig cfg with
      | Some err => mret (Result0, Some err)
      | None =>
          err ← ensureTenantObjsSynced req;
          match err with
          | Some err => mret (Result0, Some err)
          | None =>
              err ← ensureDeamonSetRunning req;
              match err with
              | Some err => mret (Result0, Some err)
              | None => mret (Result0, None)
              end
          end
      end
  end.

(** The deferred status flush. *)
Definition statusFlush : M W unit :=
  cfg ← get_config; _ ← r_Status_Update cfg; mret tt.

(** What the deferred status flush adds to a state. *)
Definition flushed (s : St W) : St W :=
  logged s (snd (client_Status_Update (config s) (world s)))
    [EStatusUpdate (config s) (fst (client_Status_Update (config s) (world s)))].

End Footprints.

Section StoredRelations.
Context `{Lib : Library}.

(** The pools, the machine configs and what renders or fails around them are
    as they were. *)
Definition stores_kept : relation Fake :=
  fun w w' =>
    f_pools w' = f_pools w /\ f_machineConfigs w' = f_machineConfigs w
    /\ f_template w' = f_template w /\ f_poolGetError w' = f_poolGetError w.

Definition keeps_stores : relation (St Fake) :=
  fun s s' => stores_kept (world s) (world s').

End StoredRelations.

(** ** The calls of each phase *)

Section PhaseCalls.
Context `{Lib : Library} {W : Type} `{Cl : !Cluster W}.

(** What constructs, starts or stops a syncer. *)
Definition isSyncerCall (e : Event) : bool :=
  match e with
  | ESyncerNew _ _ _ | ESyncerStart _ _ | ESyncerStop _ => true
  | _ => false
  end.

Definition isStop (e : Event) : bool :=
  match e with
  | ESyncerStop _ => true
  | _ => false
  end.

(** The calls of [startTenantSyncerIfNeeded]. *)
Definition isStartCall (e : Event) : bool :=
  match e with
  | EGetSecret _ _ _ | EGetConfigOrDie _ | ESyncerNew _ _ _ | ESyncerStart _ _ => true
  | _ => false
  end.

(** The reads of [isTenantObjsSynced]. *)
Definition isMirrorGet (e : Event) : bool :=
  match e with
  | EGetConfigMap _ _ _ | EGetSecret _ _ _ => true
  | _ => false
  end.

(** The calls only the rollout phase makes, and all the calls it makes. *)
Definition isRolloutCall (e : Event) : bool :=
  match e with
  | EClientNew _ _ | EListPods _ _ _ | EGetenv _ _ | ERenderDir _ _ _
  | EApplyObject _ _ | EGetDaemonSet _ _ _ => true
  | _ => false
  end.

Definition isRolloutPhase (e : Event) : bool :=
  isRolloutCall e || match e with EGetPool _ _ => true | _ => false end.

Definition isApply (e : Event) : bool :=
  match e with
  | EApplyObject _ _ => true
  | _ => false
  end.

Definition isRender (e : Event) : bool :=
  match e with
  | ERenderDir _ _ _ => true
  | _ => false
  end.

(** The calls of a pass outside [startTenantSyncerIfNeeded], without and with
    the deferred status flush. *)
Definition isBodyCall (e : Event) : bool :=
  isPoolPhase e || isMirrorGet e || isRolloutPhase e.

Definition isPassCall (e : Event) : bool := isBodyCall e || isStatusUpdate e.

(** The error node-pool convergence returns for a write that failed. *)
Definition write_error (e : Event) : option string :=
  match e with
  | ECreatePool _ (Some err) =>
      Some ("couldn't create MachineConfigPool: " ++ Error err)
  | EUpdatePool _ (Some err) =>
      Some ("couldn't update MachineConfigPool: " ++ Error err)
  | ECreateMachineConfig _ (Some err) =>
      Some ("couldn't create MachineConfig: " ++ Error err)
  | EUpdateMachineConfig _ (Some err) =>
      Some ("couldn't update MachineConfig: " ++ Error err)
  | _ => None
  end.

(** The body of a pass, which the status flush is deferred around. *)
Definition passBody (req : Request) : M W (Result * option error) :=
  cfg ← get_config;
  match validateDPUHostBootstrap cfg with
  | Some err => mret (Result0, Some err)
  | None => err ← ensureMcpReady; afterMcpReady req err
  end.

(** A handle that is held stays, and no syncer is constructed, started or
    stopped. *)
Definition keeps_held : relation (St W) :=
  fun s s' =>
    forall h, syncer s = Some h ->
      syncer s' = Some h /\ grows (fun e => negb (isSyncerCall e)) s s'.

(** The three mirrored objects were found. *)
Definition mirrored_found (ns : string) (evs : list Event) : Prop :=
  exists (ca cm : ConfigMap) (cert : Secret),
    EGetConfigMap ns utils_CmNameOvnCa (inr ca) ∈ evs
    /\ EGetConfigMap ns utils_CmNameOvnkubeConfig (inr cm) ∈ evs
    /\ EGetSecret ns utils_SecretNameOvnCert (inr cert) ∈ evs.

(** The context the rollout hands to the templates. *)
Definition rolloutData (cfg : DpuClusterConfig) (image : string)
    (masterIPs : list string) : RenderData :=
  <["OVN_SB_DB_LIST" := dbList masterIPs OVN_SB_PORT]>
    (<["OVN_NB_DB_LIST" := dbList masterIPs OVN_NB_PORT]>
       (<["TenantKubeconfig" := KubeConfigFile (cfg_Spec cfg)]>
          (<["Namespace" := cfg_Namespace cfg]>
             (<["OvnKubeImage" := image]> MakeRenderData)))).

End PhaseCalls.

Section Connection.
Context `{Lib : Library} {W : Type} `{Cl : !Cluster W}.

(** A connection that a kubeconfig decoded to without error. *)
Definition decoded (rc : option RestConfig) : Prop :=
  exists raw, RESTConfigFromKubeConfig raw = (rc, None).

(** While a handle is held, [utils.TenantRestConfig] is a decoded
    connection. *)
Definition held_decoded (s : St W) : Prop :=
  syncer s ≠ None -> decoded (TenantRestConfig s).

(** Every client of the tenant cluster in the log was built from a decoded
    connection. *)
Definition clients_decoded (evs : list Event) : Prop :=
  forall rc r, EClientNew rc r ∈ evs -> decoded rc.

End Connection.

(** ** A cluster with faults

    The in-memory cluster with failures injected: a call whose name (as [verb]
    gives it) is listed answers the listed error and changes nothing, and
    every other call goes to the in-memory cluster.  The environment and the
    stop of the syncer have no way to fail. *)

Section Faults.
Context `{Lib : Library}.

Record Faulty := mkFaulty { faults : gmap string error; inner : Fake }.

Definition failing {R} (what : string) (bad : error -> R) (op : Fake -> R * Fake)
    (w : Faulty) : R * Faulty :=
  match faults w !! what with
  | Some err => (bad err, w)
  | None => (fst (op (inner w)), mkFaulty (faults w) (snd (op (inner w))))
  end.

Definition passing {R} (op : Fake -> R * Fake) (w : Faulty) : R * Faulty :=
  (fst (op (inner w)), mkFaulty (faults w) (snd (op (inner w)))).

#[export] Instance faulty_cluster : Cluster Faulty := {|
  client_List := fun ns =>
    failing "List DpuClusterConfig" inl (client_List (W := Fake) ns);
  client_Get_MachineConfigPool := fun name =>
    failing "Get MachineConfigPool" inl
      (client_Get_MachineConfigPool (W := Fake) name);
  client_Create_MachineConfigPool := fun obj =>
    failing "Create MachineConfigPool" Some
      (client_Create_MachineConfigPool (W := Fake) obj);
  client_Update_MachineConfigPool := fun obj =>
    failing "Update MachineConfigPool" Some
      (client_Update_MachineConfigPool (W := Fake) obj);
  client_Get_MachineConfig := fun name =>
    failing "Get MachineConfig" inl (client_Get_MachineConfig (W := Fake) name);
  client_Create_MachineConfig := fun obj =>
    failing "Create MachineConfig" Some
      (client_Create_MachineConfig (W := Fake) obj);
  client_Update_MachineConfig := fun obj =>
    failing "Update MachineConfig" Some
      (client_Update_MachineConfig (W := Fake) obj);
  mcrender_GenerateMachineConfig := fun path name role ovs data =>
    failing "GenerateMachineConfig" inl
      (mcrender_GenerateMachineConfig (W := Fake) path name role ovs data);
  client_Get_DaemonSet := fun ns name =>
    failing "Get DaemonSet" inl (client_Get_DaemonSet (W := Fake) ns name);
  client_Get_Secret := fun ns name =>
    failing "Get Secret" inl (client_Get_Secret (W := Fake) ns name);
  client_Get_ConfigMap := fun ns name =>
    failing "Get ConfigMap" inl (client_Get_ConfigMap (W := Fake) ns name);
  client_Status_Update := fun obj =>
    failing "Status Update" Some (client_Status_Update (W := Fake) obj);
  ctrl_GetConfigOrDie :=
    failing "GetConfigOrDie" (fun _ => None) (ctrl_GetConfigOrDie (W := Fake));
  syncer_New := fun sc obj =>
    failing "syncer.New" (fun err => (None, Some err))
      (syncer_New (W := Fake) sc obj);
  syncer_Start := fun h =>
    failing "syncer.Start" Some (syncer_Start (W := Fake) h);
  syncer_Stop := fun h => passing (syncer_Stop (W := Fake) h);
  client_New := fun rc => failing "client.New" inl (client_New (W := Fake) rc);
  tenant_List_Pods := fun c labels =>
    failing "List Pod" inl (tenant_List_Pods (W := Fake) c labels);
  os_Getenv := fun key => passing (os_Getenv (W := Fake) key);
  render_RenderDir := fun path data =>
    failing "RenderDir" inl (render_RenderDir (W := Fake) path data);
  apply_ApplyObject := fun obj =>
    failing "ApplyObject" Some (apply_ApplyObject (W := Fake) obj)
|}.

End Faults.

Module MoreScenario.

Import Scenario.
#[local] Existing Instance test_library.

(** The API server does not answer the listing. *)
Definition worldListDown : Faulty :=
  mkFaulty {[ "List DpuClusterConfig" := Errorf "connection refused" ]} world0.

Definition startFaulty (w : Faulty) (h : option nat) (rc : option bytes)
    : St Faulty :=
  {| world := w; trace := []; syncer := h; TenantRestConfig := rc;
     config := zeroConfig |}.

(** The kubeconfig secret is there and has no key "config". *)
Definition worldNoKey : Fake :=
  with_secrets {[ ("dpu", "tenant-kubeconfig") := zeroSecret ]} world0.

(** The cache says the pool is missing while the API server has it. *)
Definition worldStaleCache : Fake :=
  with_poolGetError (Some (notFound "machineconfigpool")) worldConverged.

(** Everything is in place: the pool and the machine config as desired, the
    mirrored objects, the tenant cluster up and the daemon set ready. *)
Definition worldDone : Fake :=
  with_daemonSets {[ ("dpu", "ovnkube-node") := readyDaemonSet ]}
    (mirrored worldConverged).

(** The object of the namespace is there and nothing has converged yet. *)
Definition worldFresh : Fake := with_configs [cfg1] world0.

(** The syncer cannot be constructed. *)
Definition worldNoSyncer : Faulty :=
  mkFaulty {[ "syncer.New" := Errorf "no route to the tenant" ]} world0.

(** Reads of a machine config time out on the converged cluster. *)
Definition worldMcDown : Faulty :=
  mkFaulty {[ "Get MachineConfig" := Errorf "etcdserver: request timed out" ]}
    worldConverged.


(** Every [Get] of a pool times out; the manifests are the service account
    and then the daemon set. *)
Definition worldPoolTimeoutSecond : Fake :=
  with_poolGetError (Some (Errorf "etcdserver: request timed out"))
    (mirrored worldConverged).

(** OVNKUBE_IMAGE is not set and the local ovnkube daemon set gives the
    image; the daemon set comes second among the manifests and gives no node
    selector. *)
Definition worldLocalImage : Fake :=
  let w :=
    with_manifests (fun _ => inr [saManifest; dsManifestNoSelector])
      (with_daemonSets
         {[ ("openshift-ovn-kubernetes", "ovnkube-node") := readyDaemonSet ]}
         (mirrored worldConverged)) in
  mkFake (f_configs w) (f_pools w) (f_poolGetError w) (f_machineConfigs w)
    (f_template w) (f_daemonSets w) (f_secrets w) (f_configMaps w)
    (f_localConfig w) (f_tenantClient w) (f_tenantPods w) ∅ (f_manifests w)
    (f_applied w) (f_syncerNew w) (f_running w).

(** No node selector at all. *)
Definition cfgNoSelector : DpuClusterConfig :=
  {| cfg_Namespace := "dpu"; cfg_Name := "one";
     cfg_Spec := {| PoolName := "dpu"; NodeSelector := None;
                    KubeConfigFile := "tenant-kubeconfig" |};
     cfg_Conditions := [] |}.

(** A reserved pool name and no kubeconfig. *)
Definition cfgMasterNoKubeconfig : DpuClusterConfig :=
  {| cfg_Namespace := "dpu"; cfg_Name := "one";
     cfg_Spec := {| PoolName := "master"; NodeSelector := dpuSelector;
                    KubeConfigFile := "" |};
     cfg_Conditions := [] |}.

Definition reqOther : Request := {| req_Namespace := "dpu"; req_Name := "other" |}.

End MoreScenario.

(** * Properties *)

(** ** Runs of the monad *)

(** Unfolds the monad, leaving the calls to the collaborators. *)
Ltac run :=
  unfold config_SetStatus, GetConfigOrDie,
    r_List, r_Get_MachineConfigPool, r_Create_MachineConfigPool,
    r_Update_MachineConfigPool, r_Get_MachineConfig, r_Create_MachineConfig,
    r_Update_MachineConfig, GenerateMachineConfig, r_Get_DaemonSet, r_Get_Secret,
    r_Get_ConfigMap, r_Status_Update, New, go_Start, Stop, tenant_New, c_List,
    Getenv, RenderDir, ApplyObject in *;
  unfold mbind, M_bind, mret, M_ret, bind, ret, panic, exit, call, get_syncer,
    set_syncer, get_config, set_config, get_TenantRestConfig,
    set_TenantRestConfig, logged in *;
  cbn in *.

(** Case analysis on the answers of the collaborators, innermost first. *)
Ltac answers :=
  repeat (match goal with
          | |- context [match ?x with _ => _ end] =>
              lazymatch x with
              | context [match _ with _ => _ end] => fail
              | _ => destruct x eqn:?
              end
          end; cbn in *).

Section Laws.
Context `{Lib : Library} {W : Type} `{Cl : !Cluster W}.

Lemma bind_done {A B} (m : M W A) (f : A -> M W B) (s s' : St W) (a : A) :
  m s = (Done a, s') -> (m ≫= f) s = f a s'.
Proof. intros H. unfold mbind, M_bind, bind. now rewrite H. Qed.

Lemma bind_aborted {A B} (m : M W A) (f : A -> M W B) (s s' : St W) (k : Abort) :
  m s = (Aborted k, s') -> (m ≫= f) s = (Aborted k, s').
Proof. intros H. unfold mbind, M_bind, bind. now rewrite H. Qed.

Lemma call_run {R} (op : W -> R * W) (ev : R -> Event) (s : St W) (r : R) (w' : W) :
  op (world s) = (r, w') -> call op ev s = (Done r, logged s w' [ev r]).
Proof. intros H. unfold call, logged. now rewrite H. Qed.

Lemma emitted_logged {A} (m : M W A) (s : St W) (o : Outcome A) (w' : W)
    (evs : list Event) :
  m s = (o, logged s w' evs) -> emitted m s = evs.
Proof.
  intros H. unfold emitted. rewrite H. cbn. now rewrite drop_app_length.
Qed.

Lemma forallb_weaken {X} (P Q : X -> bool) (l : list X) :
  (forall x, P x = true -> Q x = true) -> forallb P l = true -> forallb Q l = true.
Proof.
  intros H. induction l as [|x l IH]; cbn; [reflexivity|].
  intros [Hx Hl]%andb_true_iff. now rewrite (H x Hx), IH.
Qed.

#[export] Instance grows_preorder (P : Event -> bool) : PreOrder (grows (W := W) P).
Proof.
  split.
  - intros s. exists []. now rewrite app_nil_r.
  - intros s1 s2 s3 (e1 & H1 & F1) (e2 & H2 & F2). exists (e1 ++ e2)%list. split.
    + now rewrite H2, H1, app_assoc.
    + now rewrite forallb_app, F1, F2.
Qed.

Lemma grows_intro (P : Event -> bool) (s : St W) w' h rc c (evs : list Event) :
  forallb P evs = true ->
  grows P s {| world := w'; trace := (trace s ++ evs)%list; syncer := h;
               TenantRestConfig := rc; config := c |}.
Proof. intros H. now exists evs. Qed.

Lemma grows_emitted (P : Event -> bool) {A} (m : M W A) (s : St W) :
  grows P s (snd (m s)) -> forallb P (emitted m s) = true.
Proof.
  intros (evs & Htr & Hevs). unfold emitted. now rewrite Htr, drop_app_length.
Qed.

#[export] Instance same_vars_preorder : PreOrder (same_vars (W := W)).
Proof.
  split.
  - now intros s.
  - intros s1 s2 s3 (a1 & b1 & c1) (a2 & b2 & c2).
    repeat split; congruence.
Qed.

Lemma always_bind (R : relation (St W)) `{!PreOrder R} {A B} (m : M W A)
    (f : A -> M W B) :
  always R m -> (forall a, always R (f a)) -> always R (m ≫= f).
Proof.
  intros Hm Hf s. unfold mbind, M_bind, bind.
  specialize (Hm s). destruct (m s) as [[a|k] s1]; cbn in *.
  - etransitivity; [exact Hm | apply Hf].
  - exact Hm.
Qed.

Lemma always_defer (R : relation (St W)) `{!PreOrder R} {A} (d : M W unit)
    (body : M W A) :
  always R d -> always R body -> always R (defer d body).
Proof.
  intros Hd Hb s. unfold defer.
  specialize (Hb s). destruct (body s) as [[a|[msg|]] s1]; cbn in *.
  - specialize (Hd s1). destruct (d s1) as [[[]|k] s2]; cbn in *;
      etransitivity; eauto.
  - specialize (Hd s1). destruct (d s1) as [[[]|[?|]] s2]; cbn in *;
      etransitivity; eauto.
  - exact Hb.
Qed.

End Laws.

(** ** Programs as sequences of calls

    A relation between states that every call of a program keeps is kept by
    the program: the lemmas below split the phases into their calls once, for
    any such relation. *)

Ltac unfold_calls :=
  unfold config_SetStatus, GetConfigOrDie,
    r_List, r_Get_MachineConfigPool, r_Create_MachineConfigPool,
    r_Update_MachineConfigPool, r_Get_MachineConfig, r_Create_MachineConfig,
    r_Update_MachineConfig, GenerateMachineConfig, r_Get_DaemonSet, r_Get_Secret,
    r_Get_ConfigMap, r_Status_Update, New, go_Start, Stop, tenant_New, c_List,
    Getenv, RenderDir, ApplyObject.

Section Tolerance.
Context `{Lib : Library} {W : Type} `{Cl : !Cluster W}.
Context (P : Event -> bool) (G : relation W) (R : relation (St W)).

Lemma Tolerates_weaken (Q : Event -> bool) :
  (forall e, Q e = true -> P e = true) -> Tolerates P G R -> Tolerates Q G R.
Proof. intros H [? ? ? ?]. split; auto. Qed.

Lemma always_tol_call {X} (op : W -> X * W) (ev : X -> Event) :
  Tolerates P G R -> (forall r, P (ev r) = true) -> steps G op ->
  always R (call op ev).
Proof.
  intros HT H Hop s. unfold call. cbn.
  apply (tol_call _ _ _ HT); [apply H | apply Hop].
Qed.

Lemma always_tol_config c : Tolerates P G R -> always R (set_config c).
Proof. intros HT s. apply (tol_config _ _ _ HT). Qed.

Lemma always_tol_restconfig rc :
  Tolerates P G R -> always R (set_TenantRestConfig rc).
Proof. intros HT s. apply (tol_restconfig _ _ _ HT). Qed.

Lemma always_tol_ret {A} (a : A) : Tolerates P G R -> always R (mret a : M W A).
Proof. intros HT s. apply HT. Qed.

Lemma always_tol_panic {A} msg : Tolerates P G R -> always R (panic msg : M W A).
Proof. intros HT s. apply HT. Qed.

Lemma always_tol_exit {A} : Tolerates P G R -> always R (exit : M W A).
Proof. intros HT s. apply HT. Qed.

Lemma always_tol_get_syncer : Tolerates P G R -> always R get_syncer.
Proof. intros HT s. apply HT. Qed.

Lemma always_tol_get_config : Tolerates P G R -> always R get_config.
Proof. intros HT s. apply HT. Qed.

Lemma always_tol_get_TenantRestConfig :
  Tolerates P G R -> always R get_TenantRestConfig.
Proof. intros HT s. apply HT. Qed.

Lemma always_tol_bind {A B} (m : M W A) (f : A -> M W B) :
  Tolerates P G R -> always R m -> (forall a, always R (f a)) -> always R (m ≫= f).
Proof. intros HT. pose proof (tol_preorder _ _ _ HT). now apply always_bind. Qed.

Lemma always_tol_defer {A} (d : M W unit) (body : M W A) :
  Tolerates P G R -> always R d -> always R body -> always R (defer d body).
Proof. intros HT. pose proof (tol_preorder _ _ _ HT). now apply always_defer. Qed.

End Tolerance.

(** Splits a program into its calls; [HT] is the tolerance of the relation,
    and the context tells how the calls move the world. *)
Ltac calls HT :=
  unfold_calls;
  repeat first
    [ solve [auto]
    | apply (always_tol_ret _ _ _ _ HT)
    | apply (always_tol_panic _ _ _ _ HT)
    | apply (always_tol_exit _ _ _ HT)
    | apply (always_tol_get_syncer _ _ _ HT)
    | apply (always_tol_get_config _ _ _ HT)
    | apply (always_tol_get_TenantRestConfig _ _ _ HT)
    | apply (always_tol_config _ _ _ _ HT)
    | apply (always_tol_restconfig _ _ _ _ HT)
    | apply (always_tol_call _ _ _ _ _ HT); [intros; reflexivity | solve [auto]]
    | apply (always_tol_bind _ _ _ _ _ HT); [|intros ?]
    | apply (always_tol_defer _ _ _ _ _ HT)
    | match goal with
      | |- always _ (match ?x with _ => _ end) => destruct x
      end ].

Section Phases.
Context `{Lib : Library} {W : Type} `{Cl : !Cluster W}.
Context (G : relation W) (R : relation (St W)).

Lemma always_syncMachineConfigObjs cs :
  Tolerates isPoolPhase G R -> Reads G -> Writes G ->
  always R (syncMachineConfigObjs cs).
Proof. intros HT [] []. unfold syncMachineConfigObjs. calls HT. Qed.

Lemma always_ensureMcpReady :
  Tolerates isPoolPhase G R -> Reads G -> Writes G -> always R ensureMcpReady.
Proof.
  intros HT HR HW.
  pose proof (fun cs => always_syncMachineConfigObjs cs HT HR HW).
  unfold ensureMcpReady. calls HT.
Qed.

Lemma always_statusFlush : Tolerates calm G R -> Reads G -> always R statusFlush.
Proof. intros HT []. unfold statusFlush. calls HT. Qed.

Lemma always_isTenantObjsSynced ns :
  Tolerates calm G R -> Reads G -> always R (isTenantObjsSynced ns).
Proof. intros HT []. unfold isTenantObjsSynced. calls HT. Qed.

Lemma always_getTenantClusterMasterIPs :
  Tolerates calm G R -> Reads G -> always R getTenantClusterMasterIPs.
Proof. intros HT []. unfold getTenantClusterMasterIPs. calls HT. Qed.

Lemma always_getLocalOvnkubeImage :
  Tolerates calm G R -> Reads G -> always R getLocalOvnkubeImage.
Proof. intros HT []. unfold getLocalOvnkubeImage. calls HT. Qed.

Lemma always_rangeAssign labels :
  Tolerates calm G R -> forall m, always R (rangeAssign labels m).
Proof.
  intros HT.
  induction labels as [|[k v] rest IH]; intros m; cbn [rangeAssign].
  - calls HT.
  - unfold assignEntry. calls HT.
Qed.

Lemma always_patchObj cfg mcp obj :
  Tolerates calm G R -> always R (patchObj cfg mcp obj).
Proof.
  intros HT.
  pose proof (fun l m => always_rangeAssign l HT m).
  unfold patchObj, mergeNodeSelector. calls HT.
Qed.

Lemma always_syncObjs cfg mcp objs :
  Tolerates calm G R -> Reads G -> always R (syncObjs cfg mcp objs).
Proof.
  intros HT [].
  pose proof (fun obj => always_patchObj cfg mcp obj HT).
  induction objs as [|obj rest IH]; cbn [syncObjs]; calls HT.
Qed.

Lemma always_syncOvnkubeDaemonSet cfg :
  Tolerates calm G R -> Reads G -> always R (syncOvnkubeDaemonSet cfg).
Proof.
  intros HT HR.
  pose proof (always_getTenantClusterMasterIPs HT HR).
  pose proof (always_getLocalOvnkubeImage HT HR).
  pose proof (fun mcp objs => always_syncObjs cfg mcp objs HT HR).
  destruct HR. unfold syncOvnkubeDaemonSet. calls HT.
Qed.

Lemma always_checkDeamonSetState req cfg :
  Tolerates calm G R -> Reads G -> always R (checkDeamonSetState req cfg).
Proof. intros HT []. unfold checkDeamonSetState. calls HT. Qed.

Lemma always_ensureDeamonSetRunning req :
  Tolerates calm G R -> Reads G -> always R (ensureDeamonSetRunning req).
Proof.
  intros HT HR.
  pose proof (fun cfg => always_syncOvnkubeDaemonSet cfg HT HR).
  pose proof (fun cfg => always_checkDeamonSetState req cfg HT HR).
  unfold ensureDeamonSetRunning. calls HT.
Qed.

Lemma always_ensureTenantObjsSynced req :
  Tolerates calm G R -> Reads G ->
  (forall cfg, always R (startTenantSyncerIfNeeded cfg)) ->
  always R (ensureTenantObjsSynced req).
Proof.
  intros HT HR Hstart.
  pose proof (fun ns => always_isTenantObjsSynced ns HT HR).
  unfold ensureTenantObjsSynced. calls HT.
Qed.

(** Once node-pool convergence has returned, the rest of a pass is calm
    calls and the start of the syncer. *)
Lemma always_afterMcpReady req err :
  Tolerates calm G R -> Reads G ->
  (forall cfg, always R (startTenantSyncerIfNeeded cfg)) ->
  always R (afterMcpReady req err).
Proof.
  intros HT HR Hstart.
  pose proof (always_ensureTenantObjsSynced req HT HR Hstart).
  pose proof (always_ensureDeamonSetRunning req HT HR).
  unfold afterMcpReady. calls HT.
Qed.

Lemma ReconcileDpuClusterConfig_shape req cfg :
  ReconcileDpuClusterConfig req cfg
  = (set_config cfg;;
     defer statusFlush
       (cfg ← get_config;
        match validateDPUHostBootstrap cfg with
        | Some err => mret (Result0, Some err)
        | None => err ← ensureMcpReady; afterMcpReady req err
        end)).
Proof. reflexivity. Qed.

Lemma always_ReconcileDpuClusterConfig req cfg :
  Tolerates calm G R -> Reads G ->
  always R ensureMcpReady ->
  (forall cfg, always R (startTenantSyncerIfNeeded cfg)) ->
  always R (ReconcileDpuClusterConfig req cfg).
Proof.
  intros HT HR Hpool Hstart.
  pose proof (fun err => always_afterMcpReady req err HT HR Hstart).
  pose proof (always_statusFlush HT HR).
  rewrite ReconcileDpuClusterConfig_shape. calls HT.
Qed.

End Phases.

Section Anyhow.
Context `{Lib : Library} {W : Type} `{Cl : !Cluster W}.

Lemma anyhow_reads : Reads (anyhow (W := W)).
Proof. now split. Qed.

Lemma anyhow_writes : Writes (anyhow (W := W)).
Proof. now split. Qed.

Lemma grows_tolerates (P : Event -> bool) :
  Tolerates P anyhow (grows (W := W) P).
Proof.
  split.
  - apply _.
  - intros s w' e He _. exists [e]. split; [reflexivity|]. cbn. now rewrite He.
  - intros s c. exists []. cbn. now rewrite app_nil_r.
  - intros s rc. exists []. cbn. now rewrite app_nil_r.
Qed.

Lemma grows_not_write_calm :
  Tolerates calm anyhow (grows (W := W) (fun e => negb (isWrite e))).
Proof.
  apply Tolerates_weaken with (P := fun e => negb (isWrite e));
    [|apply grows_tolerates].
  now intros e [H _]%andb_true_iff.
Qed.

End Anyhow.

(** ** The endpoint lists *)

Lemma dbList_loop_spec (port : string) (masterIPs : list string) :
  forall (i : nat) (addrs : list string),
    i + length masterIPs <= length addrs ->
    dbList_loop i masterIPs port addrs
    = (take i addrs
       ++ map (fun ip => ("ssl:" ++ Strings.JoinHostPort ip port)%string) masterIPs
       ++ drop (i + length masterIPs) addrs)%list.
Proof.
  induction masterIPs as [|ip rest IH]; intros i addrs Hlen; cbn [dbList_loop].
  - cbn. rewrite Nat.add_0_r. now rewrite take_drop.
  - cbn [List.length] in Hlen. rewrite IH by (rewrite length_insert; lia).
    rewrite (take_S_r _ i ("ssl:" ++ Strings.JoinHostPort ip port))
      by (apply list_lookup_insert_eq; lia).
    rewrite take_insert_ge by lia.
    rewrite drop_insert_lt by lia.
    cbn [map List.length]. rewrite <- app_assoc. cbn [app].
    replace (S i + length rest) with (i + S (length rest)) by lia.
    reflexivity.
Qed.

(** C9: [dbList] gives the addresses in order, each as "ssl:" followed by the
    host-port join of the address and the port, joined by commas; the two
    addresses of the scenario give the expected string, and no address gives
    the empty string. *)
Theorem dbList_joins_endpoints :
  (forall (masterIPs : list string) (port : string),
     dbList masterIPs port
     = Strings.Join
         (map (fun ip => "ssl:" ++ Strings.JoinHostPort ip port) masterIPs) ",")
  /\ dbList ["10.0.0.1"; "10.0.0.2"] "9641" = "ssl:10.0.0.1:9641,ssl:10.0.0.2:9641"
  /\ (forall port : string, dbList [] port = "").
Proof.
  split; [|split; [reflexivity | reflexivity]].
  intros masterIPs port. unfold dbList.
  rewrite dbList_loop_spec by (rewrite length_replicate; lia).
  rewrite take_0, drop_ge by (rewrite length_replicate; lia).
  now rewrite app_nil_r.
Qed.

(** ** The phase sequencer: which object a pass works on *)

Section Selection.
Context `{Lib : Library} {W : Type} `{Cl : !Cluster W}.

(** C4: when the namespace holds no configuration object, [Reconcile]
    returns success with the handle cleared; a task that was held has been
    stopped (the one call made after the listing), and with no task held
    nothing is called but the listing. *)
Theorem Reconcile_no_config_stops_syncer (req : Request) (s : St W) (w' : W) :
  client_List (req_Namespace req) (world s) = (inr [], w') ->
  Reconcile req s
  = (Done (Result0, None),
     match syncer s with
     | Some h =>
         {| world := snd (syncer_Stop h w');
            trace := (trace s
                      ++ [EList (req_Namespace req) (inr []); ESyncerStop h])%list;
            syncer := None; TenantRestConfig := TenantRestConfig s;
            config := config s |}
     | None =>
         {| world := w';
            trace := (trace s ++ [EList (req_Namespace req) (inr [])])%list;
            syncer := None; TenantRestConfig := TenantRestConfig s;
            config := config s |}
     end).
Proof.
  intros H. unfold Reconcile, r_List.
  rewrite (bind_done _ _ _ _ _ (call_run _ _ _ _ _ H)). cbn.
  repeat (destruct (decide _); try lia).
  destruct s as [w tr [h|] rc cfg]; cbn.
  - run. now rewrite <- app_assoc.
  - reflexivity.
Qed.

(** C1 (what the code does): when the listing succeeds with more than one
    object, [Reconcile] stops after it, selects no object and runs no phase,
    and the error it returns is the one of the listing, which is nil. *)
Theorem Reconcile_many_configs_returns_nil (req : Request) (s : St W)
    (items : list DpuClusterConfig) (w' : W) :
  client_List (req_Namespace req) (world s) = (inr items, w') ->
  1 < length items ->
  Reconcile req s
  = (Done (Result0, None), logged s w' [EList (req_Namespace req) (inr items)]).
Proof.
  intros H Hlen. unfold Reconcile, r_List.
  rewrite (bind_done _ _ _ _ _ (call_run _ _ _ _ _ H)). cbn.
  destruct (decide _) as [_|n]; [reflexivity | contradiction].
Qed.

End Selection.

(** ** Node-pool convergence *)

Section NodePool.
Context `{Lib : Library} {W : Type} `{Cl : !Cluster W}.

Lemma syncMachineConfigObjs_reserved (cs : DpuClusterConfigSpec) (s : St W) :
  PoolName cs = "master" \/ PoolName cs = "worker" ->
  syncMachineConfigObjs cs s
  = (Done (Some (Errorf (PoolName cs ++ " pools is not allowed"))), s).
Proof.
  intros H. unfold syncMachineConfigObjs.
  destruct (decide _) as [_|n]; [reflexivity | contradiction].
Qed.

(** C6: for the reserved pool names "master" and "worker" node-pool
    convergence returns its validation error at once: the state it returns in
    is the state it was called in, so the log holds no new call (no Get, no
    Create, no Update) and the world has not moved. *)
Theorem syncMachineConfigObjs_rejects_reserved (cs : DpuClusterConfigSpec)
    (s : St W) :
  PoolName cs = "master" \/ PoolName cs = "worker" ->
  syncMachineConfigObjs cs s
  = (Done (Some (Errorf (PoolName cs ++ " pools is not allowed"))), s)
  /\ emitted (syncMachineConfigObjs cs) s = []
  /\ world (snd (syncMachineConfigObjs cs s)) = world s.
Proof.
  intros H. unfold emitted. rewrite (syncMachineConfigObjs_reserved cs s H). cbn.
  now rewrite drop_all.
Qed.

(** Node-pool convergence always returns, touches none of the shared
    variables and makes node-pool calls only. *)
Lemma syncMachineConfigObjs_footprint (cs : DpuClusterConfigSpec) (s : St W) :
  exists err s1,
    syncMachineConfigObjs cs s = (Done err, s1)
    /\ same_vars s s1 /\ grows isPoolPhase s s1.
Proof.
  unfold syncMachineConfigObjs. run. answers;
    eexists _, _; (split; [reflexivity|]); (split; [now repeat split|]);
    rewrite <- ?app_assoc; cbn.
  all: first [ apply grows_intro; reflexivity | apply reflexivity ].
Qed.

Lemma ensureMcpReady_footprint (s : St W) :
  exists err s1,
    ensureMcpReady s = (Done err, s1)
    /\ syncer s1 = syncer s /\ TenantRestConfig s1 = TenantRestConfig s
    /\ cfg_Spec (config s1) = cfg_Spec (config s)
    /\ grows isPoolPhase s s1.
Proof.
  destruct (syncMachineConfigObjs_footprint (cfg_Spec (config s)) s)
    as (err & s1 & Hrun & (Hs & Hrc & Hc) & Hg).
  unfold ensureMcpReady. run. rewrite Hrun.
  destruct err as [e|]; cbn; eexists _, _; (split; [reflexivity|]); cbn;
    rewrite Hc; repeat split; try assumption;
    destruct Hg as (evs & -> & Hevs); now exists evs.
Qed.

(** With the stored pool and the stored payload as desired, node-pool
    convergence reads twice, renders once and writes nothing. *)
Lemma syncMachineConfigObjs_no_update (cs : DpuClusterConfigSpec) (s : St W)
    (foundMcp : MachineConfigPool) (mc foundMc : MachineConfig) (w1 w2 w3 : W) :
  let mcName := "00-" ++ PoolName cs ++ "-" ++ "bluefield-switchdev" in
  ~ (PoolName cs = "master" \/ PoolName cs = "worker") ->
  client_Get_MachineConfigPool (PoolName cs) (world s) = (inr foundMcp, w1) ->
  MachineConfigSelector (mcp_Spec foundMcp) = mcSelector ->
  pool_NodeSelector (mcp_Spec foundMcp) = NodeSelector cs ->
  mcrender_GenerateMachineConfig "bindata/machine-config" mcName dpuMcRole true
    MakeRenderData w1 = (inr mc, w2) ->
  client_Get_MachineConfig mcName w2 = (inr foundMc, w3) ->
  json_Unmarshal (mc_Raw foundMc) = json_Unmarshal (mc_Raw mc) ->
  syncMachineConfigObjs cs s
  = (Done None,
     logged s w3
       [EGetPool (PoolName cs) (inr foundMcp);
        EGenerateMachineConfig "bindata/machine-config" mcName dpuMcRole true
          MakeRenderData (inr mc);
        EGetMachineConfig mcName (inr foundMc)]).
Proof.
  intros mcName Hres Hpool Hsel Hnode Hgen Hmc Hign.
  unfold syncMachineConfigObjs. run.
  destruct (decide _) as [o|_]; [contradiction|].
  rewrite Hpool. cbn. unfold Semantic_DeepEqual, reflect_DeepEqual.
  rewrite Hsel, Hnode, !bool_decide_eq_true_2 by reflexivity. cbn.
  fold mcName. rewrite Hgen. cbn. rewrite Hmc. cbn.
  rewrite Hign, bool_decide_eq_true_2 by reflexivity. cbn.
  now rewrite <- !app_assoc.
Qed.

(** Every [Update] node-pool convergence issues answers a mismatch it has just
    read, and goes out with the resource version that was read. *)
Lemma syncMachineConfigObjs_update_on_mismatch (cs : DpuClusterConfigSpec)
    (s : St W) :
  let evs := emitted (syncMachineConfigObjs cs) s in
  let mcName := "00-" ++ PoolName cs ++ "-" ++ "bluefield-switchdev" in
  (forall mc' err,
     EUpdateMachineConfig mc' err ∈ evs ->
     exists mc foundMc,
       EGenerateMachineConfig "bindata/machine-config" mcName dpuMcRole true
         MakeRenderData (inr mc) ∈ evs
       /\ EGetMachineConfig mcName (inr foundMc) ∈ evs
       /\ json_Unmarshal (mc_Raw foundMc) ≠ json_Unmarshal (mc_Raw mc)
       /\ mc' = SetResourceVersion (mc_ResourceVersion foundMc) mc)
  /\ (forall p err,
        EUpdatePool p err ∈ evs ->
        exists foundMcp,
          EGetPool (PoolName cs) (inr foundMcp) ∈ evs
          /\ ~ (MachineConfigSelector (mcp_Spec foundMcp) = mcSelector
                /\ pool_NodeSelector (mcp_Spec foundMcp) = NodeSelector cs)
          /\ p = {| mcp_Name := mcp_Name foundMcp;
                    mcp_ResourceVersion := mcp_ResourceVersion foundMcp;
                    mcp_Spec := {| MachineConfigSelector := mcSelector;
                                   pool_NodeSelector := NodeSelector cs |} |}).
Proof.
  cbn zeta. unfold emitted, syncMachineConfigObjs. run.
  unfold Semantic_DeepEqual, reflect_DeepEqual, bool_decide, err_of, val_of.
  answers.
  all: rewrite <- ?app_assoc; rewrite ?drop_app_length; rewrite ?drop_all; cbn.
  all: split; intros x err Hin.
  all: repeat (apply elem_of_cons in Hin as [Hin|Hin]; [try discriminate Hin|]).
  all: try (apply elem_of_nil in Hin; contradiction).
  all: inversion Hin; subst; clear Hin.
  all: repeat match goal with |- exists _, _ => eexists end.
  all: repeat (split; [solve [repeat first [apply list_elem_of_here
                                           | apply list_elem_of_further]]|]).
  all: first [ split; [assumption | reflexivity]
             | split; [| reflexivity]; intros [? ?]; cbn in *; congruence ].
Qed.

End NodePool.

(** ** The order of the checks *)

Section Checks.
Context `{Lib : Library} {W : Type} `{Cl : !Cluster W}.

(** A pass that fails the first validation only flushes the status. *)
Lemma ReconcileDpuClusterConfig_invalid (req : Request) (cfg : DpuClusterConfig)
    (s : St W) (err : error) :
  validateDPUHostBootstrap cfg = Some err ->
  ReconcileDpuClusterConfig req cfg s
  = (Done (Result0, Some err), flushed (snd (set_config cfg s))).
Proof.
  intros Hv. unfold ReconcileDpuClusterConfig, defer, flushed. run.
  now rewrite Hv.
Qed.

(** From the state node-pool convergence returned in to the end of the pass,
    a relation that the rest of the pass keeps holds. *)
Lemma ReconcileDpuClusterConfig_after_pool (R : relation (St W)) `{!PreOrder R}
    (req : Request) (cfg : DpuClusterConfig) (s sA : St W) (err : option error) :
  validateDPUHostBootstrap cfg = None ->
  ensureMcpReady (snd (set_config cfg s)) = (Done err, sA) ->
  always R (afterMcpReady req err) ->
  always R statusFlush ->
  R sA (snd (ReconcileDpuClusterConfig req cfg s)).
Proof.
  intros Hv Hrun Hrest Hflush. rewrite ReconcileDpuClusterConfig_shape.
  unfold mbind at 1. unfold M_bind, bind. cbn [set_config snd] in *.
  transitivity
    (snd ((cfg ← get_config;
           match validateDPUHostBootstrap cfg with
           | Some err => mret (Result0, Some err)
           | None => err ← ensureMcpReady; afterMcpReady req err
           end)
            {| world := world s; trace := trace s; syncer := syncer s;
               TenantRestConfig := TenantRestConfig s; config := cfg |})).
  - unfold mbind at 1. unfold M_bind, bind, get_config. cbn [config].
    rewrite Hv. rewrite (bind_done _ _ _ _ _ Hrun). apply Hrest.
  - unfold defer.
    destruct ((cfg ← get_config;
           match validateDPUHostBootstrap cfg with
           | Some err => mret (Result0, Some err)
           | None => err ← ensureMcpReady; afterMcpReady req err
           end)
            {| world := world s; trace := trace s; syncer := syncer s;
               TenantRestConfig := TenantRestConfig s; config := cfg |})
      as [[a|[msg|]] s1]; cbn [snd].
    + specialize (Hflush s1). destruct (statusFlush s1) as [[[]|k] s2]; exact Hflush.
    + specialize (Hflush s1). destruct (statusFlush s1) as [[[]|[?|]] s2]; exact Hflush.
    + reflexivity.
Qed.

(** Node-pool convergence on a pool name that is not reserved begins with
    the [Get] of the pool. *)
Lemma ensureMcpReady_gets_pool (s : St W) :
  ~ (PoolName (cfg_Spec (config s)) = "master"
     \/ PoolName (cfg_Spec (config s)) = "worker") ->
  exists r evs,
    trace (snd (ensureMcpReady s))
    = (trace s ++ EGetPool (PoolName (cfg_Spec (config s))) r :: evs)%list.
Proof.
  intros Hres. unfold ensureMcpReady, syncMachineConfigObjs. run.
  destruct (decide _) as [Hyes|_]; [contradiction|]. run.
  answers; rewrite <- ?app_assoc; cbn; eexists _, _; reflexivity.
Qed.

(** C5 (amended): the pool-name check and the node-selector check come
    before node-pool convergence, and a pass that fails one of them returns
    its error having called nothing but the deferred status update; with a
    [String()] that never gives the empty string only the pool-name check can
    fail.  The kubeconfig check comes after node-pool convergence: a pass on
    an object with no kubeconfig runs convergence all the same (its first call
    is the [Get] of the pool), ends in the state convergence left, with the
    status update as the only call after it, and returns the error of
    convergence when it failed and the kubeconfig error only when it
    succeeded. *)
Theorem validation_order (req : Request) (cfg : DpuClusterConfig) (s : St W) :
  (PoolName (cfg_Spec cfg) = ""
   \/ Selector_String (NodeSelector (cfg_Spec cfg)) = "" ->
   exists err,
     validateDPUHostBootstrap cfg = Some err
     /\ ReconcileDpuClusterConfig req cfg s
        = (Done (Result0, Some err), flushed (snd (set_config cfg s))))
  /\ ((forall sel, Selector_String sel ≠ "") ->
      (validateDPUHostBootstrap cfg = None <-> PoolName (cfg_Spec cfg) ≠ ""))
  /\ (PoolName (cfg_Spec cfg) ≠ "" ->
      Selector_String (NodeSelector (cfg_Spec cfg)) ≠ "" ->
      KubeConfigFile (cfg_Spec cfg) = "" ->
      exists err1 s1,
        ensureMcpReady (snd (set_config cfg s)) = (Done err1, s1)
        /\ ReconcileDpuClusterConfig req cfg s
           = (Done (Result0,
                    Some (default
                            (Errorf "No Kubeconfig provided for Tenant cluster")
                            err1)),
              flushed s1)
        /\ (PoolName (cfg_Spec cfg) ≠ "master" ->
            PoolName (cfg_Spec cfg) ≠ "worker" ->
            exists r evs,
              emitted (ReconcileDpuClusterConfig req cfg) s
              = EGetPool (PoolName (cfg_Spec cfg)) r :: evs)).
Proof.
  split; [|split].
  - intros Hbad.
    assert (Hv : exists err, validateDPUHostBootstrap cfg = Some err).
    { unfold validateDPUHostBootstrap.
      destruct (decide (PoolName (cfg_Spec cfg) = "")); [eauto|].
      destruct (decide (Selector_String (NodeSelector (cfg_Spec cfg)) = ""));
        [eauto|]. tauto. }
    destruct Hv as (err & Hv). exists err. split; [exact Hv|].
    now apply ReconcileDpuClusterConfig_invalid.
  - intros Hstr. unfold validateDPUHostBootstrap.
    destruct (decide (PoolName (cfg_Spec cfg) = "")) as [Hp|Hp].
    + split; [discriminate | contradiction].
    + destruct (decide (Selector_String (NodeSelector (cfg_Spec cfg)) = ""))
        as [Hs|Hs]; [now apply Hstr in Hs|]. split; [auto | reflexivity].
  - intros Hp Hs Hk.
    assert (Hv : validateDPUHostBootstrap cfg = None).
    { unfold validateDPUHostBootstrap.
      destruct (decide (PoolName (cfg_Spec cfg) = "")); [contradiction|].
      now destruct (decide (Selector_String (NodeSelector (cfg_Spec cfg)) = "")). }
    destruct (ensureMcpReady_footprint (snd (set_config cfg s)))
      as (err & s1 & Hrun & _ & _ & Hc & _).
    exists err, s1. split; [exact Hrun|].
    assert (Hpass : ReconcileDpuClusterConfig req cfg s
                    = (Done (Result0,
                             Some (default
                                     (Errorf "No Kubeconfig provided for Tenant cluster")
                                     err)),
                       flushed s1)).
    { unfold ReconcileDpuClusterConfig, defer, flushed. run.
      rewrite Hv. cbn. cbn in Hrun. rewrite Hrun.
      destruct err as [e|]; cbn; [reflexivity|].
      unfold validateTenantKubeConfig. cbn in Hc. rewrite Hc, Hk.
      destruct (decide ("" = "")) as [_|n]; [reflexivity | congruence]. }
    split; [exact Hpass|].
    intros Hm Hw.
    destruct (ensureMcpReady_gets_pool (snd (set_config cfg s)))
      as (r & evs & Htr); [cbn; tauto|].
    rewrite Hrun in Htr. cbn in Htr.
    unfold emitted. rewrite Hpass. unfold flushed, logged. cbn [snd trace].
    rewrite Htr, <- app_assoc, drop_app_length. cbn. eauto.
Qed.

End Checks.

(** ** The remote-sync task *)

Section Syncer.
Context `{Lib : Library} {W : Type} `{Cl : !Cluster W}.

Lemma launched_snoc (tr : list Event) (e : Event) :
  launched (tr ++ [e]) = launch (launched tr) e.
Proof. unfold launched. now rewrite fold_left_app. Qed.

Lemma launch_quiet (running : list OvnkubeSyncer) (e : Event) :
  isSyncerEvent e = false -> launch running e = running.
Proof. now destruct e. Qed.

Lemma remove_one_head (h : OvnkubeSyncer) (l : list OvnkubeSyncer) :
  remove_one h (h :: l) = l.
Proof. cbn. now destruct (decide (h = h)). Qed.

#[export] Instance keeps_one_syncer_preorder : PreOrder (keeps_one_syncer (W := W)).
Proof. split; unfold keeps_one_syncer; [intros s|intros s1 s2 s3]; auto. Qed.

Lemma keeps_one_syncer_tolerates :
  Tolerates (fun e => negb (isSyncerEvent e)) anyhow (keeps_one_syncer (W := W)).
Proof.
  split.
  - apply _.
  - intros s w' e He _ Hs. unfold one_syncer, logged in *. cbn [syncer trace].
    rewrite launched_snoc, launch_quiet; [exact Hs|].
    now destruct (isSyncerEvent e).
  - intros s c Hs. exact Hs.
  - intros s rc Hs. exact Hs.
Qed.

Lemma keeps_one_syncer_calm : Tolerates calm anyhow (keeps_one_syncer (W := W)).
Proof.
  apply Tolerates_weaken with (P := fun e => negb (isSyncerEvent e));
    [|apply keeps_one_syncer_tolerates].
  intros e [_ H]%andb_true_iff. exact H.
Qed.

Lemma keeps_one_syncer_pool :
  Tolerates isPoolPhase anyhow (keeps_one_syncer (W := W)).
Proof.
  apply Tolerates_weaken with (P := fun e => negb (isSyncerEvent e));
    [|apply keeps_one_syncer_tolerates].
  now intros [].
Qed.

(** With a handle held, [startTenantSyncerIfNeeded] does nothing. *)
Lemma startTenantSyncerIfNeeded_held (cfg : DpuClusterConfig) (s : St W)
    (h : OvnkubeSyncer) :
  syncer s = Some h -> startTenantSyncerIfNeeded cfg s = (Done None, s).
Proof. intros H. unfold startTenantSyncerIfNeeded. run. now rewrite H. Qed.

Lemma startTenantSyncerIfNeeded_keeps (cfg : DpuClusterConfig) :
  always keeps_one_syncer (startTenantSyncerIfNeeded (W := W) cfg).
Proof.
  intros s Hs. destruct (syncer s) as [h|] eqn:Hh.
  { now rewrite (startTenantSyncerIfNeeded_held cfg s h Hh). }
  unfold one_syncer in Hs. rewrite Hh in Hs.
  unfold startTenantSyncerIfNeeded. run. rewrite Hh. cbn.
  answers; unfold one_syncer; cbn [syncer trace snd];
    rewrite ?launched_snoc, ?Hs, ?Hh; cbn [launch];
    repeat match goal with
           | |- context [match ?o with _ => _ end] => destruct o
           end; auto.
Qed.

Lemma startTenantSyncerIfNeeded_writes_nothing (cfg : DpuClusterConfig) :
  always (grows (fun e => negb (isWrite e))) (startTenantSyncerIfNeeded (W := W) cfg).
Proof.
  intros s. unfold startTenantSyncerIfNeeded. run.
  answers; rewrite <- ?app_assoc; cbn;
    first [ apply grows_intro; reflexivity | apply reflexivity ].
Qed.

End Syncer.

Section AtMostOnce.
Context `{Lib : Library} {W : Type} `{Cl : !Cluster W}.

Lemma Reconcile_keeps_one_syncer (req : Request) :
  always keeps_one_syncer (Reconcile (W := W) req).
Proof.
  pose proof (keeps_one_syncer_calm (W := W)) as HT.
  assert (Hstop : always keeps_one_syncer
            (h ← get_syncer (W := W);
             match h with
             | Some h => Stop h;; set_syncer None
             | None => mret tt
             end)).
  { intros s Hs. unfold one_syncer in Hs. run.
    destruct (syncer s) as [h|] eqn:Hh; unfold one_syncer; cbn [syncer trace snd].
    - rewrite launched_snoc. cbn [launch].
      destruct Hs as [-> | ->]; [apply remove_one_head | reflexivity].
    - now rewrite Hh. }
  pose proof (fun cfg =>
    always_ReconcileDpuClusterConfig anyhow keeps_one_syncer req cfg HT
      anyhow_reads
      (always_ensureMcpReady _ _ keeps_one_syncer_pool anyhow_reads anyhow_writes)
      startTenantSyncerIfNeeded_keeps).
  destruct (anyhow_reads (W := W)).
  unfold Reconcile. calls HT.
Qed.

(** C7: the remote-sync task is started at most once.  With a handle held
    [startTenantSyncerIfNeeded] returns success in the state it was called in
    (no secret read, no construction, no launch); it changes the handle only
    when there was none; and in every state the reconciler can reach at most
    one task has been launched and not stopped, the one whose handle is
    held. *)
Theorem syncer_started_at_most_once :
  (forall (cfg : DpuClusterConfig) (s : St W) (h : OvnkubeSyncer),
     syncer s = Some h -> startTenantSyncerIfNeeded cfg s = (Done None, s))
  /\ (forall (cfg : DpuClusterConfig) (s : St W),
        syncer (snd (startTenantSyncerIfNeeded cfg s)) <> syncer s ->
        syncer s = None)
  /\ (forall s : St W,
        reachable s ->
        length (launched (trace s)) <= 1
        /\ forall h, h ∈ launched (trace s) -> syncer s = Some h).
Proof.
  split; [exact startTenantSyncerIfNeeded_held|]. split.
  - intros cfg s Hne. destruct (syncer s) as [h|] eqn:Hh; [|reflexivity].
    rewrite (startTenantSyncerIfNeeded_held cfg s h Hh) in Hne. cbn in Hne.
    congruence.
  - intros s Hreach.
    assert (Hs : one_syncer s).
    { induction Hreach as [w rc cfg | s req _ IH | s w' _ IH].
      - reflexivity.
      - now apply Reconcile_keeps_one_syncer.
      - unfold one_syncer, logged in *. cbn [syncer trace].
        now rewrite app_nil_r. }
    unfold one_syncer in Hs.
    destruct (syncer s) as [h|]; [destruct Hs as [Hs|Hs]|]; rewrite Hs; cbn.
    + split; [lia|]. now intros h' ->%list_elem_of_singleton.
    + split; [lia|]. now intros h' ?%elem_of_nil.
    + split; [lia|]. now intros h' ?%elem_of_nil.
Qed.

End AtMostOnce.

(** ** Rollout of the daemon set *)

Section Rollout.
Context `{Lib : Library} {W : Type} `{Cl : !Cluster W}.

(** C3 (what the code does): when the pool is there (or its [Get] failed
    with anything but "not found") and listing the pods of the tenant cluster
    fails, [syncOvnkubeDaemonSet] returns nil: the failure is logged and
    dropped, and nothing is rendered or applied. *)
Theorem syncOvnkubeDaemonSet_drops_lookup_failure (cfg : DpuClusterConfig)
    (s : St W) (r : error + MachineConfigPool) (c : TenantClient) (err : error)
    (w1 w2 w3 : W) :
  client_Get_MachineConfigPool (PoolName (cfg_Spec cfg)) (world s) = (r, w1) ->
  (forall e, r = inl e -> IsNotFound e = false) ->
  client_New (TenantRestConfig s) w1 = (inr c, w2) ->
  tenant_List_Pods c {[ "app" := "ovnkube-master" ]} w2 = (inl err, w3) ->
  syncOvnkubeDaemonSet cfg s
  = (Done None,
     logged s w3 [EGetPool (PoolName (cfg_Spec cfg)) r;
                  EClientNew (TenantRestConfig s) (inr c);
                  EListPods c {[ "app" := "ovnkube-master" ]} (inl err)]).
Proof.
  intros H0 Hnf H1 H2. unfold syncOvnkubeDaemonSet, getTenantClusterMasterIPs. run.
  rewrite H0. cbn.
  destruct r as [e|p]; cbn.
  - rewrite (Hnf e eq_refl). cbn. rewrite H1. cbn. rewrite H2. cbn.
    now rewrite <- !app_assoc.
  - rewrite H1. cbn. rewrite H2. cbn. now rewrite <- !app_assoc.
Qed.

Lemma rangeAssign_some (labels : list (string * string)) :
  forall (m : gmap string string) (s : St W),
    rangeAssign labels (Some m) s
    = (Done (Some (foldl (fun acc kv => <[kv.1 := kv.2]> acc) m labels)), s).
Proof.
  induction labels as [|[k v] rest IH]; intros m s; cbn [rangeAssign foldl].
  - reflexivity.
  - unfold assignEntry. run. apply IH.
Qed.

Lemma rangeAssign_nil_map (labels : list (string * string)) (s : St W) :
  labels ≠ [] ->
  rangeAssign labels None s = (Aborted (Panic "assignment to entry in nil map"), s).
Proof. destruct labels as [|[k v] rest]; [congruence | reflexivity]. Qed.

Lemma foldl_insert_union (labels : list (string * string)) :
  forall m : gmap string string,
    NoDup labels.*1 ->
    foldl (fun acc kv => <[kv.1 := kv.2]> acc) m labels
    = list_to_map labels ∪ m.
Proof.
  induction labels as [|[k v] rest IH]; intros m Hnd; cbn.
  - now rewrite (left_id_L ∅ (∪)).
  - apply NoDup_cons in Hnd as [Hk Hnd]. rewrite IH by exact Hnd.
    rewrite <- insert_union_l. rewrite insert_union_r; [reflexivity|].
    now apply not_elem_of_list_to_map_1.
Qed.

Lemma mergeNodeSelector_nil_selector (mcp : MachineConfigPool) (ds : DaemonSet)
    (s : St W) :
  pool_NodeSelector (mcp_Spec mcp) = None ->
  mergeNodeSelector mcp ds s
  = (Aborted (Panic "invalid memory address or nil pointer dereference"), s).
Proof. intros H. unfold mergeNodeSelector. now rewrite H. Qed.

Lemma mergeNodeSelector_nil_map (mcp : MachineConfigPool) (ds : DaemonSet)
    (sel : LabelSelector) (s : St W) :
  pool_NodeSelector (mcp_Spec mcp) = Some sel ->
  MatchLabels sel ≠ ∅ ->
  ds_NodeSelector ds = None ->
  mergeNodeSelector mcp ds s
  = (Aborted (Panic "assignment to entry in nil map"), s).
Proof.
  intros H Hne Hds. unfold mergeNodeSelector. rewrite H, Hds.
  apply bind_aborted, rangeAssign_nil_map.
  intros Hnil. apply Hne. now apply map_to_list_empty_iff.
Qed.

Lemma mergeNodeSelector_union (mcp : MachineConfigPool) (ds : DaemonSet)
    (sel : LabelSelector) (m : gmap string string) (s : St W) :
  pool_NodeSelector (mcp_Spec mcp) = Some sel ->
  ds_NodeSelector ds = Some m ->
  mergeNodeSelector mcp ds s
  = (Done (set_ds_NodeSelector (Some (MatchLabels sel ∪ m)) ds), s).
Proof.
  intros H Hds. unfold mergeNodeSelector. rewrite H, Hds.
  rewrite (bind_done _ _ _ _ _ (rangeAssign_some _ _ _)).
  rewrite foldl_insert_union by apply NoDup_fst_map_to_list.
  now rewrite list_to_map_to_list.
Qed.

Lemma mergeNodeSelector_no_labels (mcp : MachineConfigPool) (ds : DaemonSet)
    (sel : LabelSelector) (s : St W) :
  pool_NodeSelector (mcp_Spec mcp) = Some sel ->
  MatchLabels sel = ∅ ->
  mergeNodeSelector mcp ds s = (Done ds, s).
Proof.
  intros H He. unfold mergeNodeSelector. rewrite H, He, map_to_list_empty.
  cbn. now destruct ds.
Qed.

Lemma syncObjs_merge_aborts (cfg : DpuClusterConfig) (mcp : MachineConfigPool)
    (obj : Unstructured) (rest : list Unstructured) (ds : DaemonSet) (k : Abort)
    (s : St W) :
  GetKind obj = "DaemonSet" ->
  Convert_to_DaemonSet obj = inr ds ->
  mergeNodeSelector mcp ds s = (Aborted k, s) ->
  syncObjs cfg mcp (obj :: rest) s = (Aborted k, s).
Proof.
  intros Hk Hc Hm. cbn [syncObjs]. apply bind_aborted. unfold patchObj.
  destruct (decide _) as [_|n]; [|contradiction]. rewrite Hc.
  now apply bind_aborted.
Qed.

(** C8: once the daemon set is fetched, the readiness check succeeds exactly
    when the desired-scheduled count equals the ready count, and returns the
    "rolling out" error when they differ. *)
Theorem checkDeamonSetState_ready_iff (req : Request) (cfg : DpuClusterConfig)
    (s : St W) (ds : DaemonSet) (w' : W) :
  client_Get_DaemonSet (req_Namespace req) "ovnkube-node" (world s) = (inr ds, w') ->
  (fst (checkDeamonSetState req cfg s) = Done None
   <-> DesiredNumberScheduled ds = NumberReady ds)
  /\ (DesiredNumberScheduled ds ≠ NumberReady ds ->
      fst (checkDeamonSetState req cfg s)
      = Done (Some (Errorf "DaemonSet 'ovnkube-node' is rolling out"))).
Proof.
  intros H. unfold checkDeamonSetState, r_Get_DaemonSet.
  rewrite (bind_done _ _ _ _ _ (call_run _ _ _ _ _ H)).
  destruct (decide _) as [n|e]; cbn.
  - split; [split; [discriminate | contradiction] | reflexivity].
  - apply dec_stable in e. split; [split; auto | contradiction].
Qed.

End Rollout.

(** ** Two passes in a row

    On the in-memory cluster nothing changes between two passes but what the
    first pass wrote. *)

Section InARow.
Context `{Lib : Library}.

#[export] Instance stores_kept_preorder : PreOrder stores_kept.
Proof.
  split.
  - now intros w.
  - intros w1 w2 w3 (a1 & b1 & c1 & d1) (a2 & b2 & c2 & d2).
    repeat split; congruence.
Qed.

#[export] Instance keeps_stores_preorder : PreOrder keeps_stores.
Proof.
  split.
  - intros s. unfold keeps_stores. reflexivity.
  - intros s1 s2 s3 H1 H2. unfold keeps_stores in *. now transitivity (world s2).
Qed.

Lemma keeps_stores_tolerates (P : Event -> bool) :
  Tolerates P stores_kept keeps_stores.
Proof.
  split.
  - apply _.
  - intros s w' e _ H. exact H.
  - intros s c. unfold keeps_stores. reflexivity.
  - intros s rc. unfold keeps_stores. reflexivity.
Qed.

(** The calls that are no write of node-pool convergence leave the stores of
    the in-memory cluster alone. *)
Lemma fake_reads : Reads stores_kept.
Proof.
  split; intros; intros w; cbn;
    unfold fake_List, fake_Get_Pool, fake_Get_MachineConfig,
      fake_GenerateMachineConfig, fake_Status_Update, fake_client_New;
    repeat match goal with
           | |- context [match ?x with _ => _ end] => destruct x
           end;
    cbn; repeat split.
Qed.

Lemma converged_stores_kept (cs : DpuClusterConfigSpec) (w w' : Fake) :
  stores_kept w w' -> converged cs w -> converged cs w'.
Proof.
  intros (Hp & Hm & Ht & Hf) H. unfold converged in *.
  now rewrite Hp, Hm, Ht, Hf.
Qed.

Lemma startTenantSyncerIfNeeded_keeps_stores (cfg : DpuClusterConfig) :
  always keeps_stores (startTenantSyncerIfNeeded cfg).
Proof.
  intros s. unfold startTenantSyncerIfNeeded, keeps_stores. run.
  unfold fake_Start. answers; repeat split.
Qed.

Lemma validateDPUHostBootstrap_spec (cfg cfg2 : DpuClusterConfig) :
  cfg_Spec cfg2 = cfg_Spec cfg ->
  validateDPUHostBootstrap cfg2 = validateDPUHostBootstrap cfg.
Proof. intros H. unfold validateDPUHostBootstrap. now rewrite H. Qed.

(** On the in-memory cluster node-pool convergence leaves the cluster
    converged. *)
Lemma syncMachineConfigObjs_converges (cs : DpuClusterConfigSpec) (s : St Fake) :
  f_poolGetError (world s) = None ->
  ~ (PoolName cs = "master" \/ PoolName cs = "worker") ->
  converged cs (world (snd (syncMachineConfigObjs cs s))).
Proof.
  intros Hf Hres. unfold converged, syncMachineConfigObjs.
  destruct (decide _) as [o|_]; [contradiction|]. run.
  unfold fake_Get_Pool, fake_Create_Pool, fake_Update_Pool, fake_Get_MachineConfig,
    fake_Create_MachineConfig, fake_Update_MachineConfig,
    fake_GenerateMachineConfig, Semantic_DeepEqual, reflect_DeepEqual, bool_decide,
    err_of, val_of.
  rewrite Hf. cbn.
  answers.
  all: try contradiction; try congruence.
  all: repeat match goal with m : MachineConfigPoolSpec |- _ => destruct m end.
  all: simplify_eq/=.
  all: (split; [first [reflexivity | assumption]|]); split.
  all: rewrite ?lookup_insert_eq; eauto 10.
Qed.

(** On a converged cluster node-pool convergence reads and renders, writes
    nothing and leaves the cluster as it is. *)
Lemma syncMachineConfigObjs_converged_reads (cs : DpuClusterConfigSpec)
    (s : St Fake) :
  converged cs (world s) ->
  exists err evs,
    syncMachineConfigObjs cs s = (Done err, logged s (world s) evs)
    /\ forallb (fun e => negb (isWrite e)) evs = true.
Proof.
  intros (Hf & (rv & Hp) & Ht). unfold syncMachineConfigObjs.
  destruct (decide _) as [o|_].
  { eexists _, []. split; [|reflexivity]. unfold logged.
    rewrite app_nil_r. now destruct s. }
  run.
  unfold fake_Get_Pool, fake_Get_MachineConfig, fake_GenerateMachineConfig,
    Semantic_DeepEqual, reflect_DeepEqual.
  rewrite Hf, Hp. cbn. rewrite !bool_decide_eq_true_2 by reflexivity. cbn.
  destruct (f_template (world s)) as [e|raw]; cbn.
  - eexists _, [_; _]. rewrite <- app_assoc. cbn. now destruct s.
  - destruct Ht as (rv' & stored & Hm & Hj). rewrite Hm. cbn.
    rewrite bool_decide_eq_true_2 by exact Hj. cbn.
    eexists _, [_; _; _]. rewrite <- !app_assoc. cbn. now destruct s.
Qed.

(** Run twice on the in-memory cluster, node-pool convergence writes nothing
    the second time. *)
Lemma syncMachineConfigObjs_twice (cs : DpuClusterConfigSpec) (s : St Fake) :
  f_poolGetError (world s) = None ->
  let s1 := snd (syncMachineConfigObjs cs s) in
  forallb (fun e => negb (isWrite e)) (emitted (syncMachineConfigObjs cs) s1) = true
  /\ world (snd (syncMachineConfigObjs cs s1)) = world s1.
Proof.
  intros Hf s1.
  destruct (decide (PoolName cs = "master" \/ PoolName cs = "worker")) as [Hres|Hres].
  - unfold emitted.
    rewrite (syncMachineConfigObjs_reserved cs s1 Hres). cbn.
    now rewrite drop_all.
  - destruct (syncMachineConfigObjs_converged_reads cs s1) as (err & evs & Hrun & Hevs).
    { now apply syncMachineConfigObjs_converges. }
    rewrite (emitted_logged _ _ _ _ _ Hrun), Hrun. now split.
Qed.

(** Node-pool convergence as a phase, on the in-memory cluster: it leaves the
    cluster converged, and on a converged cluster, or for a reserved pool
    name, it writes nothing. *)
Lemma ensureMcpReady_converges (s : St Fake) :
  f_poolGetError (world s) = None ->
  ~ (PoolName (cfg_Spec (config s)) = "master"
     \/ PoolName (cfg_Spec (config s)) = "worker") ->
  exists err sA,
    ensureMcpReady s = (Done err, sA)
    /\ converged (cfg_Spec (config s)) (world sA).
Proof.
  intros Hf Hres.
  pose proof (syncMachineConfigObjs_converges (cfg_Spec (config s)) s Hf Hres) as Hc.
  destruct (syncMachineConfigObjs_footprint (cfg_Spec (config s)) s)
    as (err & s1 & Hrun & _ & _).
  rewrite Hrun in Hc. cbn in Hc.
  unfold ensureMcpReady. run. rewrite Hrun.
  destruct err as [e|]; cbn; eexists _, _; (split; [reflexivity|]); exact Hc.
Qed.

Lemma ensureMcpReady_writes_nothing (s : St Fake) :
  (PoolName (cfg_Spec (config s)) = "master"
   \/ PoolName (cfg_Spec (config s)) = "worker")
  \/ converged (cfg_Spec (config s)) (world s) ->
  exists err sB,
    ensureMcpReady s = (Done err, sB)
    /\ grows (fun e => negb (isWrite e)) s sB.
Proof.
  intros H.
  assert (Hsync : exists err evs,
             syncMachineConfigObjs (cfg_Spec (config s)) s
             = (Done err, logged s (world s) evs)
             /\ forallb (fun e => negb (isWrite e)) evs = true).
  { destruct H as [Hres|Hc].
    - rewrite (syncMachineConfigObjs_reserved _ s Hres).
      eexists _, []. split; [|reflexivity]. unfold logged.
      rewrite app_nil_r. now destruct s.
    - now apply syncMachineConfigObjs_converged_reads. }
  destruct Hsync as (err & evs & Hrun & Hevs).
  unfold ensureMcpReady. run. rewrite Hrun.
  destruct err as [e|]; cbn; eexists _, _; (split; [reflexivity|]);
    now exists evs.
Qed.

(** Two passes in a row on the in-memory cluster, on a configuration object
    with the same spec: the second pass issues no write of a pool or of a
    machine config. *)
Lemma ReconcileDpuClusterConfig_twice (req : Request) (cfg cfg2 : DpuClusterConfig)
    (s : St Fake) :
  f_poolGetError (world s) = None ->
  cfg_Spec cfg2 = cfg_Spec cfg ->
  forallb (fun e => negb (isWrite e))
    (emitted (ReconcileDpuClusterConfig req cfg2)
       (snd (ReconcileDpuClusterConfig req cfg s))) = true.
Proof.
  intros Hf Hspec.
  pose proof (validateDPUHostBootstrap_spec cfg cfg2 Hspec) as Hv2.
  set (s1 := snd (ReconcileDpuClusterConfig req cfg s)).
  destruct (validateDPUHostBootstrap cfg) as [e|] eqn:Hv.
  { apply grows_emitted.
    rewrite (ReconcileDpuClusterConfig_invalid req cfg2 s1 e Hv2).
    eexists [_]. split; reflexivity. }
  apply grows_emitted.
  assert (Hready : (PoolName (cfg_Spec cfg2) = "master"
                    \/ PoolName (cfg_Spec cfg2) = "worker")
                   \/ converged (cfg_Spec cfg2) (world s1)).
  { destruct (decide (PoolName (cfg_Spec cfg) = "master"
                      \/ PoolName (cfg_Spec cfg) = "worker")) as [Hres|Hres].
    { left. now rewrite Hspec. }
    right. rewrite Hspec.
    destruct (ensureMcpReady_converges (snd (set_config cfg s)) Hf Hres)
      as (err & sA & Hrun & Hc).
    apply (converged_stores_kept _ (world sA)); [|exact Hc].
    apply (ReconcileDpuClusterConfig_after_pool keeps_stores req cfg s sA err Hv Hrun).
    - apply always_afterMcpReady with (G := stores_kept);
        [apply keeps_stores_tolerates | apply fake_reads
        | apply startTenantSyncerIfNeeded_keeps_stores].
    - apply always_statusFlush with (G := stores_kept);
        [apply keeps_stores_tolerates | apply fake_reads]. }
  destruct (ensureMcpReady_writes_nothing (snd (set_config cfg2 s1)) Hready)
    as (err & sB & Hrun & Hg).
  transitivity sB.
  { destruct Hg as (evs & Htr & Hevs). now exists evs. }
  apply (ReconcileDpuClusterConfig_after_pool _ req cfg2 s1 sB err Hv2 Hrun).
  - apply always_afterMcpReady with (G := anyhow);
      [apply grows_not_write_calm | apply anyhow_reads
      | apply startTenantSyncerIfNeeded_writes_nothing].
  - apply always_statusFlush with (G := anyhow);
      [apply grows_not_write_calm | apply anyhow_reads].
Qed.

(** C2: node-pool convergence writes on mismatch only.  With the stored pool
    carrying the desired selectors and the stored payload decoding like the
    rendered one (whatever the bytes), it reads twice, renders once and issues
    no [Update]; every [Update] it issues answers a mismatch it has just
    read and carries the resource version that was read; and on a cluster
    that changes through the reconciler only, a second run of the phase, and a
    second pass as a whole, issue no [Create] and no [Update] of a pool or of
    a machine config. *)
Theorem node_pool_convergence_writes_on_mismatch_only :
  (forall (W : Type) (Cl : Cluster W) (cs : DpuClusterConfigSpec) (s : St W)
          (foundMcp : MachineConfigPool) (mc foundMc : MachineConfig)
          (w1 w2 w3 : W),
     let mcName := "00-" ++ PoolName cs ++ "-" ++ "bluefield-switchdev" in
     ~ (PoolName cs = "master" \/ PoolName cs = "worker") ->
     client_Get_MachineConfigPool (PoolName cs) (world s) = (inr foundMcp, w1) ->
     MachineConfigSelector (mcp_Spec foundMcp) = mcSelector ->
     pool_NodeSelector (mcp_Spec foundMcp) = NodeSelector cs ->
     mcrender_GenerateMachineConfig "bindata/machine-config" mcName dpuMcRole true
       MakeRenderData w1 = (inr mc, w2) ->
     client_Get_MachineConfig mcName w2 = (inr foundMc, w3) ->
     json_Unmarshal (mc_Raw foundMc) = json_Unmarshal (mc_Raw mc) ->
     syncMachineConfigObjs cs s
     = (Done None,
        logged s w3
          [EGetPool (PoolName cs) (inr foundMcp);
           EGenerateMachineConfig "bindata/machine-config" mcName dpuMcRole true
             MakeRenderData (inr mc);
           EGetMachineConfig mcName (inr foundMc)]))
  /\ (forall (W : Type) (Cl : Cluster W) (cs : DpuClusterConfigSpec) (s : St W),
        let evs := emitted (syncMachineConfigObjs cs) s in
        let mcName := "00-" ++ PoolName cs ++ "-" ++ "bluefield-switchdev" in
        (forall mc' err,
           EUpdateMachineConfig mc' err ∈ evs ->
           exists mc foundMc,
             EGenerateMachineConfig "bindata/machine-config" mcName dpuMcRole true
               MakeRenderData (inr mc) ∈ evs
             /\ EGetMachineConfig mcName (inr foundMc) ∈ evs
             /\ json_Unmarshal (mc_Raw foundMc) ≠ json_Unmarshal (mc_Raw mc)
             /\ mc' = SetResourceVersion (mc_ResourceVersion foundMc) mc)
        /\ (forall p err,
              EUpdatePool p err ∈ evs ->
              exists foundMcp,
                EGetPool (PoolName cs) (inr foundMcp) ∈ evs
                /\ ~ (MachineConfigSelector (mcp_Spec foundMcp) = mcSelector
                      /\ pool_NodeSelector (mcp_Spec foundMcp) = NodeSelector cs)
                /\ p = {| mcp_Name := mcp_Name foundMcp;
                          mcp_ResourceVersion := mcp_ResourceVersion foundMcp;
                          mcp_Spec := {| MachineConfigSelector := mcSelector;
                                         pool_NodeSelector := NodeSelector cs |} |}))
  /\ (forall (cs : DpuClusterConfigSpec) (s : St Fake),
        f_poolGetError (world s) = None ->
        forallb (fun e => negb (isWrite e))
          (emitted (syncMachineConfigObjs cs) (snd (syncMachineConfigObjs cs s)))
        = true)
  /\ (forall (req : Request) (cfg cfg2 : DpuClusterConfig) (s : St Fake),
        f_poolGetError (world s) = None ->
        cfg_Spec cfg2 = cfg_Spec cfg ->
        forallb (fun e => negb (isWrite e))
          (emitted (ReconcileDpuClusterConfig req cfg2)
             (snd (ReconcileDpuClusterConfig req cfg s))) = true).
Proof.
  split; [|split; [|split]].
  - intros W Cl. apply syncMachineConfigObjs_no_update.
  - intros W Cl. apply syncMachineConfigObjs_update_on_mismatch.
  - intros cs s Hf. now apply syncMachineConfigObjs_twice.
  - apply ReconcileDpuClusterConfig_twice.
Qed.

End InARow.

Section MoreSelection.
Context `{Lib : Library} {W : Type} `{Cl : !Cluster W}.

(** X1: when the listing of the configuration objects fails, [Reconcile]
    returns that error as it is; the listing is its only call, and the handle
    of the syncer, held or not, is left as it was. *)
Theorem Reconcile_list_error (req : Request) (s : St W) (e : error) (w' : W) :
  client_List (req_Namespace req) (world s) = (inl e, w') ->
  Reconcile req s
  = (Done (Result0, Some e), logged s w' [EList (req_Namespace req) (inl e)]).
Proof.
  intros H. unfold Reconcile, r_List.
  now rewrite (bind_done _ _ _ _ _ (call_run _ _ _ _ _ H)).
Qed.

End MoreSelection.

Section Lookups.
Context `{Lib : Library} {W : Type} `{Cl : !Cluster W}.

Lemma fold_left_snoc_map {X Y} (f : X -> Y) (l : list X) :
  forall acc : list Y,
    fold_left (fun (acc : list Y) x => (acc ++ [f x])%list) l acc
    = (acc ++ map f l)%list.
Proof.
  induction l as [|x l IH]; intros acc; cbn.
  - now rewrite app_nil_r.
  - now rewrite IH, <- app_assoc.
Qed.

(** X2: [getTenantClusterMasterIPs] always returns, and leaves the shared
    variables alone.  It builds a client from [utils.TenantRestConfig] and
    lists the pods labelled app=ovnkube-master; on success the addresses are
    the pod IPs of the pods listed, one for each pod and in the order of the
    listing (an empty pod IP is not filtered out); when the client cannot be
    built or the listing fails, it returns that error with no address, and a
    client that cannot be built means no listing is tried. *)
Theorem getTenantClusterMasterIPs_lists_pod_ips (s : St W) :
  exists (ips : list string) (err : option error) (s' : St W),
    getTenantClusterMasterIPs s = (Done (ips, err), s')
    /\ same_vars s s'
    /\ match err with
       | None =>
           exists c pods,
             emitted getTenantClusterMasterIPs s
             = [EClientNew (TenantRestConfig s) (inr c);
                EListPods c {[ "app" := "ovnkube-master" ]} (inr pods)]
             /\ ips = map PodIP pods
       | Some e =>
           ips = []
           /\ (emitted getTenantClusterMasterIPs s
               = [EClientNew (TenantRestConfig s) (inl e)]
               \/ exists c,
                    emitted getTenantClusterMasterIPs s
                    = [EClientNew (TenantRestConfig s) (inr c);
                       EListPods c {[ "app" := "ovnkube-master" ]} (inl e)])
       end.
Proof.
  unfold emitted, getTenantClusterMasterIPs. run. answers.
  all: eexists _, _, _; (split; [reflexivity|]); (split; [now repeat split|]).
  all: cbn; rewrite <- ?app_assoc, ?drop_app_length; cbn.
  all: first [ split; [reflexivity|]; first [now left | right; eexists; reflexivity]
             | eexists _, _; split; [reflexivity|]; now rewrite fold_left_snoc_map ].
Qed.

(** X3: [isTenantObjsSynced] always returns and leaves the shared variables
    alone.  It asks for the CA config map, the ovnkube config map and the
    certificate secret of the namespace, in this order, and stops at the first
    that is missing: it returns nil exactly when the three were found, and
    otherwise the error of the [Get] that failed, which is then its last
    call. *)
Theorem isTenantObjsSynced_stops_at_first_missing (ns : string) (s : St W) :
  exists (err : option error) (s' : St W),
    isTenantObjsSynced ns s = (Done err, s')
    /\ same_vars s s'
    /\ match err with
       | None =>
           exists ca cm cert,
             emitted (isTenantObjsSynced ns) s
             = [EGetConfigMap ns utils_CmNameOvnCa (inr ca);
                EGetConfigMap ns utils_CmNameOvnkubeConfig (inr cm);
                EGetSecret ns utils_SecretNameOvnCert (inr cert)]
       | Some e =>
           emitted (isTenantObjsSynced ns) s
           = [EGetConfigMap ns utils_CmNameOvnCa (inl e)]
           \/ (exists ca,
                 emitted (isTenantObjsSynced ns) s
                 = [EGetConfigMap ns utils_CmNameOvnCa (inr ca);
                    EGetConfigMap ns utils_CmNameOvnkubeConfig (inl e)])
           \/ (exists ca cm,
                 emitted (isTenantObjsSynced ns) s
                 = [EGetConfigMap ns utils_CmNameOvnCa (inr ca);
                    EGetConfigMap ns utils_CmNameOvnkubeConfig (inr cm);
                    EGetSecret ns utils_SecretNameOvnCert (inl e)])
       end.
Proof.
  unfold emitted, isTenantObjsSynced. run. answers.
  all: eexists _, _; (split; [reflexivity|]); (split; [now repeat split|]).
  all: cbn; rewrite <- ?app_assoc, ?drop_app_length; cbn.
  all: first [ now left
             | right; left; eexists; reflexivity
             | right; right; eexists _, _; reflexivity
             | eexists _, _, _; reflexivity ].
Qed.

(** X4: [getLocalOvnkubeImage] reads the daemon set of the local ovnkube
    and gives the image of its first container, whatever other containers
    there are; a failed [Get] gives the error with an empty image; and it
    panics exactly when the daemon set was found with no container at
    all. *)
Theorem getLocalOvnkubeImage_first_container (s : St W) :
  let r := fst (client_Get_DaemonSet utils_LocalOvnkbueNamespace
                  utils_LocalOvnkbueNodeDsName (world s)) in
  emitted getLocalOvnkubeImage s
  = [EGetDaemonSet utils_LocalOvnkbueNamespace utils_LocalOvnkbueNodeDsName r]
  /\ same_vars s (snd (getLocalOvnkubeImage s))
  /\ (forall k, fst (getLocalOvnkubeImage s) = Aborted k <->
                k = Panic "index out of range [0] with length 0"
                /\ exists ds, r = inr ds /\ ds_Containers ds = [])
  /\ (forall image err, fst (getLocalOvnkubeImage s) = Done (image, err) <->
         (image = "" /\ exists e, err = Some e /\ r = inl e)
         \/ (err = None
             /\ exists ds c rest,
                  r = inr ds /\ ds_Containers ds = c :: rest /\ image = Image c)).
Proof.
  unfold emitted, getLocalOvnkubeImage. run. answers.
  all: rewrite ?drop_app_length.
  all: (split; [reflexivity|]); (split; [now repeat split|]).
  all: split; [intros k | intros image err].
  all: split; intros H.
  all: repeat match goal with
              | H : _ /\ _ |- _ => destruct H
              | H : _ \/ _ |- _ => destruct H
              | H : exists _, _ |- _ => destruct H
              end.
  all: simplify_eq.
  all: try reflexivity.
  all: try congruence.
  all: first [ left; split; [reflexivity|]; eexists; split; reflexivity
             | right; split; [reflexivity|]; eexists _, _, _;
               split; [reflexivity|]; split; [eassumption | reflexivity]
             | split; [reflexivity|]; eexists; split; [reflexivity | assumption] ].
Qed.

End Lookups.

(** Membership in a log that is given call by call. *)
Ltac in_log :=
  solve [repeat first [apply list_elem_of_here | apply list_elem_of_further]].

Ltac split_log H :=
  repeat (apply elem_of_cons in H as [H|H]; [try discriminate H|]);
  try (apply elem_of_nil in H; contradiction).

Section MoreSyncer.
Context `{Lib : Library} {W : Type} `{Cl : !Cluster W}.

(** X5: the one way [startTenantSyncerIfNeeded] succeeds when no handle is
    held.  It has read the secret named by the kubeconfig field in the
    namespace of the configuration object, found the key "config" in it and
    decoded it without error; it has taken the configuration of the local
    cluster, constructed the syncer for the namespace of the object and the
    tenant namespace, and launched it; these are its four calls, in this
    order.  It leaves the decoded connection in [utils.TenantRestConfig] and
    the handle the constructor returned in [r.syncer]. *)
Theorem startTenantSyncerIfNeeded_started (cfg : DpuClusterConfig) (s : St W) :
  syncer s = None ->
  fst (startTenantSyncerIfNeeded cfg s) = Done None ->
  let s' := snd (startTenantSyncerIfNeeded cfg s) in
  exists sec raw loc,
    Data sec !! "config" = Some raw
    /\ RESTConfigFromKubeConfig raw = (TenantRestConfig s', None)
    /\ emitted (startTenantSyncerIfNeeded cfg) s
       = [EGetSecret (cfg_Namespace cfg) (KubeConfigFile (cfg_Spec cfg)) (inr sec);
          EGetConfigOrDie (Some loc);
          ESyncerNew {| LocalRestConfig := Some loc;
                        LocalNamespace := cfg_Namespace cfg;
                        sc_TenantRestConfig := TenantRestConfig s';
                        TenantNamespace := utils_TenantNamespace |}
            cfg (syncer s', None);
          ESyncerStart (syncer s') None]
    /\ config s' = config s.
Proof.
  intros Hs. cbn zeta. unfold emitted, startTenantSyncerIfNeeded. run.
  rewrite Hs. cbn.
  answers; intros H; try discriminate H; cbn.
  rewrite <- ?app_assoc, ?drop_app_length. cbn.
  eexists _, _, _. split; [eassumption|]. split; [eassumption|].
  split; [|reflexivity].
  repeat match goal with H : _ = _ |- _ => rewrite H end. reflexivity.
Qed.

(** X6: the constructor and the launch in a run of
    [startTenantSyncerIfNeeded], however it ends.  The syncer is constructed
    only when no handle was held, for this configuration object, its namespace
    and the tenant namespace, with the local configuration just taken and the
    tenant connection just decoded; what the constructor returned is stored in
    the handle, with or without an error.  The task is launched only on the
    handle of a construction that gave no error, and what the launch reports
    is what the function returns; after a construction that gave an error
    nothing is launched and the error is returned. *)
Theorem syncer_launched_after_construction (cfg : DpuClusterConfig) (s : St W) :
  let s' := snd (startTenantSyncerIfNeeded cfg s) in
  let evs := emitted (startTenantSyncerIfNeeded cfg) s in
  (forall sc obj h err,
     ESyncerNew sc obj (h, err) ∈ evs ->
     syncer s = None /\ syncer s' = h /\ obj = cfg
     /\ LocalNamespace sc = cfg_Namespace cfg
     /\ TenantNamespace sc = utils_TenantNamespace
     /\ sc_TenantRestConfig sc = TenantRestConfig s'
     /\ exists loc, LocalRestConfig sc = Some loc /\ EGetConfigOrDie (Some loc) ∈ evs)
  /\ (forall h r,
        ESyncerStart h r ∈ evs ->
        (exists sc, ESyncerNew sc cfg (h, None) ∈ evs)
        /\ fst (startTenantSyncerIfNeeded cfg s) = Done r)
  /\ (forall sc obj h e,
        ESyncerNew sc obj (h, Some e) ∈ evs ->
        fst (startTenantSyncerIfNeeded cfg s) = Done (Some e)
        /\ forall h' r, ESyncerStart h' r ∉ evs).
Proof.
  cbn zeta. unfold emitted, startTenantSyncerIfNeeded. run.
  destruct (syncer s) as [h0|] eqn:Hs; cbn.
  { rewrite drop_all. repeat split; intros; exfalso; eapply not_elem_of_nil; eauto. }
  answers.
  all: rewrite <- ?app_assoc, ?drop_app_length, ?drop_all; cbn.
  all: split; [|split].
  all: first [intros ? ? ? ? Hin | intros ? ? Hin].
  all: split_log Hin.
  all: inversion Hin; subst; clear Hin.
  all: repeat match goal with H : _ = _ |- _ => rewrite H in * end; cbn.
  all: try (split; [eexists; in_log | reflexivity]).
  all: try (repeat split; try reflexivity; eexists; split; [reflexivity | in_log]).
  all: try (split; [reflexivity|]; intros ? ? Hin'; split_log Hin').
Qed.

(** X7: a secret that cannot be used.  With no handle held and the secret
    found: when it has no key "config", the function returns an error that
    names the key and the secret, having called nothing else and changed
    nothing; when the key is there and does not decode, it returns the error
    of the decoder, and [utils.TenantRestConfig] has been overwritten with what
    the decoder returned beside its error.  Neither way is the local
    configuration taken or a syncer constructed, and the handle stays nil. *)
Theorem startTenantSyncerIfNeeded_unusable_secret (cfg : DpuClusterConfig)
    (s : St W) (sec : Secret) (w' : W) :
  syncer s = None ->
  client_Get_Secret (cfg_Namespace cfg) (KubeConfigFile (cfg_Spec cfg)) (world s)
  = (inr sec, w') ->
  let s1 :=
    logged s w'
      [EGetSecret (cfg_Namespace cfg) (KubeConfigFile (cfg_Spec cfg)) (inr sec)] in
  (Data sec !! "config" = None ->
   startTenantSyncerIfNeeded cfg s
   = (Done (Some (Errorf ("key 'config' cannot be found in secret "
                          ++ KubeConfigFile (cfg_Spec cfg)))), s1))
  /\ (forall raw rc e,
        Data sec !! "config" = Some raw ->
        RESTConfigFromKubeConfig raw = (rc, Some e) ->
        startTenantSyncerIfNeeded cfg s
        = (Done (Some e), snd (set_TenantRestConfig rc s1))).
Proof.
  intros Hs Hget. cbn zeta. unfold startTenantSyncerIfNeeded.
  destruct s as [w tr h rc0 c]. cbn in Hs, Hget. subst h. run.
  rewrite Hget. cbn. split.
  - intros ->. reflexivity.
  - intros raw rc e -> ->. reflexivity.
Qed.

End MoreSyncer.

Section MoreNodePool.
Context `{Lib : Library} {W : Type} `{Cl : !Cluster W}.

(** X8: node-pool convergence creates only what a [Get] has just reported
    missing.  A pool is created only after the [Get] of the pool answered
    "not found", and it is the pool named by the configuration with the role
    selector of the pool and the node selector of the configuration; a machine
    config is created only after the [Get] of "00-<pool>-bluefield-switchdev"
    answered "not found", and it is the object the template has just
    rendered. *)
Theorem syncMachineConfigObjs_creates_what_is_missing (cs : DpuClusterConfigSpec)
    (s : St W) :
  let evs := emitted (syncMachineConfigObjs cs) s in
  let mcName := "00-" ++ PoolName cs ++ "-" ++ "bluefield-switchdev" in
  (forall p err,
     ECreatePool p err ∈ evs ->
     (exists e, EGetPool (PoolName cs) (inl e) ∈ evs /\ IsNotFound e = true)
     /\ p = {| mcp_Name := PoolName cs; mcp_ResourceVersion := "";
               mcp_Spec := {| MachineConfigSelector := mcSelector;
                              pool_NodeSelector := NodeSelector cs |} |})
  /\ (forall mc err,
        ECreateMachineConfig mc err ∈ evs ->
        (exists e, EGetMachineConfig mcName (inl e) ∈ evs /\ IsNotFound e = true)
        /\ EGenerateMachineConfig "bindata/machine-config" mcName dpuMcRole true
             MakeRenderData (inr mc) ∈ evs).
Proof.
  cbn zeta. unfold emitted, syncMachineConfigObjs. run.
  unfold Semantic_DeepEqual, reflect_DeepEqual, bool_decide, err_of, val_of.
  answers.
  all: rewrite <- ?app_assoc; rewrite ?drop_app_length; rewrite ?drop_all; cbn.
  all: split; intros x err Hin.
  all: split_log Hin.
  all: inversion Hin; subst; clear Hin.
  all: (split; [eexists; split; [in_log | assumption] | first [reflexivity | in_log]]).
Qed.

(** X9: a write that fails ends node-pool convergence.  When a [Create] or an
    [Update] of the pool or of the machine config answers an error, that call
    is the last one of the phase (after a failed write of the pool the
    machine config is not even rendered), and the phase returns an error that
    says which write failed, followed by the text of the error. *)
Theorem syncMachineConfigObjs_failed_write_is_last (cs : DpuClusterConfigSpec)
    (s : St W) :
  forall e msg,
    e ∈ emitted (syncMachineConfigObjs cs) s ->
    write_error e = Some msg ->
    fst (syncMachineConfigObjs cs s) = Done (Some (Errorf msg))
    /\ last (emitted (syncMachineConfigObjs cs) s) = Some e.
Proof.
  unfold emitted, syncMachineConfigObjs. run.
  unfold Semantic_DeepEqual, reflect_DeepEqual, bool_decide, err_of, val_of.
  answers.
  all: rewrite <- ?app_assoc; rewrite ?drop_app_length; rewrite ?drop_all; cbn.
  all: intros x msg Hin Hw.
  all: split_log Hin.
  all: subst x; cbn in Hw; try discriminate Hw.
  all: injection Hw as <-; split; reflexivity.
Qed.

(** X10: how node-pool convergence treats a read that fails with anything
    but "not found".  Such a failure of the [Get] of the pool is passed over:
    the next call renders the machine config, and no pool is created or
    updated.  The same failure of the [Get] of the machine config ends the
    phase with the error "failed to get MachineConfig: " followed by its text,
    and a template that does not render ends it with the error of the
    renderer; either is then the last call of the phase. *)
Theorem syncMachineConfigObjs_failed_reads (cs : DpuClusterConfigSpec) (s : St W) :
  let evs := emitted (syncMachineConfigObjs cs) s in
  let mcName := "00-" ++ PoolName cs ++ "-" ++ "bluefield-switchdev" in
  (forall e,
     EGetPool (PoolName cs) (inl e) ∈ evs /\ IsNotFound e = false ->
     exists r rest,
       evs = EGetPool (PoolName cs) (inl e)
             :: EGenerateMachineConfig "bindata/machine-config" mcName dpuMcRole
                  true MakeRenderData r
             :: rest
       /\ forall p err, (ECreatePool p err ∉ evs) /\ (EUpdatePool p err ∉ evs))
  /\ (forall e,
        EGetMachineConfig mcName (inl e) ∈ evs /\ IsNotFound e = false ->
        fst (syncMachineConfigObjs cs s)
        = Done (Some (Errorf ("failed to get MachineConfig: " ++ Error e)))
        /\ last evs = Some (EGetMachineConfig mcName (inl e)))
  /\ (forall path name role ovs data e,
        EGenerateMachineConfig path name role ovs data (inl e) ∈ evs ->
        fst (syncMachineConfigObjs cs s) = Done (Some e)
        /\ last evs
           = Some (EGenerateMachineConfig path name role ovs data (inl e))).
Proof.
  cbn zeta. unfold emitted, syncMachineConfigObjs. run.
  unfold Semantic_DeepEqual, reflect_DeepEqual, bool_decide, err_of, val_of.
  answers.
  all: rewrite <- ?app_assoc; rewrite ?drop_app_length; rewrite ?drop_all; cbn.
  all: split; [|split].
  all: first [ intros x [Hin Hnf] | intros ? ? ? ? ? x Hin ].
  all: split_log Hin.
  all: inversion Hin; subst; clear Hin; try congruence.
  all: try (split; reflexivity).
  all: eexists _, _; split; [reflexivity|].
  all: intros p err'; split; intros Hin; split_log Hin.
Qed.

End MoreNodePool.

(** ** The calls each phase makes *)

Section PhaseFootprints.
Context `{Lib : Library} {W : Type} `{Cl : !Cluster W}.
Context (G : relation W) (R : relation (St W)).

Lemma mirror_isTenantObjsSynced ns :
  Tolerates isMirrorGet G R -> Reads G -> always R (isTenantObjsSynced ns).
Proof. intros HT []. unfold isTenantObjsSynced. calls HT. Qed.

Lemma flush_statusFlush :
  Tolerates isStatusUpdate G R -> Reads G -> always R statusFlush.
Proof. intros HT []. unfold statusFlush. calls HT. Qed.

Lemma rollout_getTenantClusterMasterIPs :
  Tolerates isRolloutPhase G R -> Reads G -> always R getTenantClusterMasterIPs.
Proof. intros HT []. unfold getTenantClusterMasterIPs. calls HT. Qed.

Lemma rollout_getLocalOvnkubeImage :
  Tolerates isRolloutPhase G R -> Reads G -> always R getLocalOvnkubeImage.
Proof. intros HT []. unfold getLocalOvnkubeImage. calls HT. Qed.

Lemma rollout_rangeAssign labels :
  Tolerates isRolloutPhase G R -> forall m, always R (rangeAssign labels m).
Proof.
  intros HT.
  induction labels as [|[k v] rest IH]; intros m; cbn [rangeAssign].
  - calls HT.
  - unfold assignEntry. calls HT.
Qed.

Lemma rollout_patchObj cfg mcp obj :
  Tolerates isRolloutPhase G R -> always R (patchObj cfg mcp obj).
Proof.
  intros HT.
  pose proof (fun l m => rollout_rangeAssign l HT m).
  unfold patchObj, mergeNodeSelector. calls HT.
Qed.

Lemma rollout_syncObjs cfg mcp objs :
  Tolerates isRolloutPhase G R -> Reads G -> always R (syncObjs cfg mcp objs).
Proof.
  intros HT [].
  pose proof (fun obj => rollout_patchObj cfg mcp obj HT).
  induction objs as [|obj rest IH]; cbn [syncObjs]; calls HT.
Qed.

Lemma rollout_syncOvnkubeDaemonSet cfg :
  Tolerates isRolloutPhase G R -> Reads G -> always R (syncOvnkubeDaemonSet cfg).
Proof.
  intros HT HR.
  pose proof (rollout_getTenantClusterMasterIPs HT HR).
  pose proof (rollout_getLocalOvnkubeImage HT HR).
  pose proof (fun mcp objs => rollout_syncObjs cfg mcp objs HT HR).
  destruct HR. unfold syncOvnkubeDaemonSet. calls HT.
Qed.

Lemma rollout_checkDeamonSetState req cfg :
  Tolerates isRolloutPhase G R -> Reads G -> always R (checkDeamonSetState req cfg).
Proof. intros HT []. unfold checkDeamonSetState. calls HT. Qed.

Lemma rollout_ensureDeamonSetRunning req :
  Tolerates isRolloutPhase G R -> Reads G -> always R (ensureDeamonSetRunning req).
Proof.
  intros HT HR.
  pose proof (fun cfg => rollout_syncOvnkubeDaemonSet cfg HT HR).
  pose proof (fun cfg => rollout_checkDeamonSetState req cfg HT HR).
  unfold ensureDeamonSetRunning. calls HT.
Qed.

Lemma body_passBody req :
  Tolerates isBodyCall G R -> Reads G -> Writes G ->
  (forall cfg, always R (startTenantSyncerIfNeeded cfg)) ->
  always R (passBody req).
Proof.
  intros HT HR HW Hstart.
  assert (HTp : Tolerates isPoolPhase G R).
  { apply (Tolerates_weaken isBodyCall); [|exact HT].
    intros e He. unfold isBodyCall. now rewrite He. }
  assert (HTm : Tolerates isMirrorGet G R).
  { apply (Tolerates_weaken isBodyCall); [|exact HT].
    intros e He. unfold isBodyCall. rewrite He. now rewrite orb_true_r. }
  assert (HTr : Tolerates isRolloutPhase G R).
  { apply (Tolerates_weaken isBodyCall); [|exact HT].
    intros e He. unfold isBodyCall. rewrite He. now rewrite orb_true_r. }
  pose proof (always_ensureMcpReady G R HTp HR HW).
  pose proof (fun ns => mirror_isTenantObjsSynced ns HTm HR).
  pose proof (rollout_ensureDeamonSetRunning req HTr HR).
  unfold passBody, afterMcpReady, ensureTenantObjsSynced. calls HT.
Qed.

Lemma ReconcileDpuClusterConfig_passBody req cfg :
  ReconcileDpuClusterConfig req cfg
  = (set_config cfg;; defer statusFlush (passBody (W := W) req)).
Proof. reflexivity. Qed.

Lemma pass_ReconcileDpuClusterConfig req cfg :
  Tolerates isPassCall G R -> Reads G -> Writes G ->
  (forall cfg, always R (startTenantSyncerIfNeeded cfg)) ->
  always R (ReconcileDpuClusterConfig req cfg).
Proof.
  intros HT HR HW Hstart.
  assert (HTb : Tolerates isBodyCall G R).
  { apply (Tolerates_weaken isPassCall); [|exact HT].
    intros e He. unfold isPassCall. now rewrite He. }
  assert (HTf : Tolerates isStatusUpdate G R).
  { apply (Tolerates_weaken isPassCall); [|exact HT].
    intros e He. unfold isPassCall. rewrite He. now rewrite orb_true_r. }
  pose proof (body_passBody req HTb HR HW Hstart).
  pose proof (flush_statusFlush HTf HR).
  rewrite ReconcileDpuClusterConfig_passBody. calls HT.
Qed.

End PhaseFootprints.

(** ** The rollout: what is rendered and what is applied *)

Section MoreRollout.
Context `{Lib : Library} {W : Type} `{Cl : !Cluster W}.

Lemma forallb_elem {X} (P : X -> bool) (l : list X) (x : X) :
  forallb P l = true -> x ∈ l -> P x = true.
Proof.
  intros H Hin. induction Hin as [x l|x y l Hin IH]; cbn in H;
    apply andb_true_iff in H as [Hx Hl]; auto.
Qed.

Lemma rangeAssign_state (labels : list (string * string)) :
  forall m (s : St W), snd (rangeAssign labels m s) = s.
Proof.
  induction labels as [|[k v] rest IH]; intros m s; cbn [rangeAssign].
  - reflexivity.
  - destruct m as [m|]; [|reflexivity].
    unfold assignEntry. run. apply IH.
Qed.

(** The body of the loop calls nothing and changes nothing, and what it
    gives does not depend on the state. *)
Lemma patchObj_state (cfg : DpuClusterConfig) (mcp : MachineConfigPool)
    (obj : Unstructured) (s : St W) :
  snd (patchObj cfg mcp obj s) = s.
Proof.
  unfold patchObj, mergeNodeSelector.
  destruct (decide (GetKind obj = "DaemonSet")); [|reflexivity].
  destruct (Convert_to_DaemonSet obj) as [?|ds]; [reflexivity|].
  destruct (pool_NodeSelector (mcp_Spec mcp)) as [sel|]; [|reflexivity].
  run.
  pose proof (rangeAssign_state (map_to_list (MatchLabels sel))
                (ds_NodeSelector ds) s) as Hst.
  destruct (rangeAssign (map_to_list (MatchLabels sel)) (ds_NodeSelector ds) s)
    as [[m|k] s1]; cbn in *; subst s1; [|reflexivity].
  now destruct (Convert_from_DaemonSet _ obj).
Qed.

Lemma rangeAssign_any_state (labels : list (string * string)) :
  forall m (s s0 : St W),
    fst (rangeAssign labels m s) = fst (rangeAssign labels m s0).
Proof.
  induction labels as [|[k v] rest IH]; intros m s s0; cbn [rangeAssign].
  - reflexivity.
  - destruct m as [m|]; [|reflexivity].
    unfold assignEntry. run. apply IH.
Qed.

Lemma patchObj_any_state (cfg : DpuClusterConfig) (mcp : MachineConfigPool)
    (obj : Unstructured) (s s0 : St W) :
  fst (patchObj cfg mcp obj s) = fst (patchObj cfg mcp obj s0).
Proof.
  unfold patchObj, mergeNodeSelector.
  destruct (decide (GetKind obj = "DaemonSet")); [|reflexivity].
  destruct (Convert_to_DaemonSet obj) as [?|ds]; [reflexivity|].
  destruct (pool_NodeSelector (mcp_Spec mcp)) as [sel|]; [|reflexivity].
  run.
  pose proof (rangeAssign_any_state (map_to_list (MatchLabels sel))
                (ds_NodeSelector ds) s s0) as Hfst.
  pose proof (rangeAssign_state (map_to_list (MatchLabels sel))
                (ds_NodeSelector ds) s) as Hs.
  pose proof (rangeAssign_state (map_to_list (MatchLabels sel))
                (ds_NodeSelector ds) s0) as Hs0.
  destruct (rangeAssign (map_to_list (MatchLabels sel)) (ds_NodeSelector ds) s)
    as [[m|k] s1];
    destruct (rangeAssign (map_to_list (MatchLabels sel)) (ds_NodeSelector ds) s0)
      as [[m0|k0] s2]; cbn in *; simplify_eq; try reflexivity.
  now destruct (Convert_from_DaemonSet _ obj).
Qed.

(** The loop over the rendered objects, call by call. *)
Lemma syncObjs_log (cfg : DpuClusterConfig) (mcp : MachineConfigPool)
    (s0 : St W) (objs : list Unstructured) :
  forall s : St W,
    exists (n : nat) (evs : list Event),
      trace (snd (syncObjs cfg mcp objs s)) = (trace s ++ evs)%list
      /\ n <= length objs
      /\ Forall2 (fun e obj =>
                    exists obj' err,
                      e = EApplyObject obj' err
                      /\ fst (patchObj cfg mcp obj s0) = Done (inr obj'))
           evs (take n objs)
      /\ (fst (syncObjs cfg mcp objs s) = Done None ->
          n = length objs
          /\ Forall (fun e => exists obj', e = EApplyObject obj' None) evs)
      /\ (forall obj' err,
            EApplyObject obj' (Some err) ∈ evs ->
            last evs = Some (EApplyObject obj' (Some err))
            /\ fst (syncObjs cfg mcp objs s)
               = Done (Some (Errorf ("failed to apply object " ++ Sprint obj'
                                     ++ " with err: " ++ Error err)))).
Proof.
  induction objs as [|obj rest IH]; intros s; cbn [syncObjs].
  - exists 0, []. cbn. rewrite app_nil_r.
    split; [reflexivity|]. split; [lia|]. split; [constructor|].
    split; [intros _; split; [reflexivity | constructor]|].
    intros ? ? Hin; split_log Hin.
  - pose proof (patchObj_state cfg mcp obj s) as Hst.
    pose proof (patchObj_any_state cfg mcp obj s s0) as Hfst.
    unfold mbind, M_bind, bind.
    destruct (patchObj cfg mcp obj s) as [[[e|obj']|k] s1]; cbn in Hst, Hfst;
      subst s1.
    + exists 0, []. cbn. rewrite app_nil_r.
      split; [reflexivity|]. split; [lia|]. split; [constructor|].
      split; [discriminate|].
      intros ? ? Hin; split_log Hin.
    + unfold ApplyObject. run.
      destruct (apply_ApplyObject obj' (world s)) as [[err|] w1] eqn:Happly; cbn.
      * exists 1, [EApplyObject obj' (Some err)]. cbn.
        split; [reflexivity|]. split; [lia|]. split.
        { constructor; [|constructor]. eauto. }
        split; [discriminate|].
        intros o e Hin. split_log Hin. now inversion Hin.
      * match goal with
        | |- context [syncObjs cfg mcp rest ?st] =>
            destruct (IH st) as (n & evs & Htr & Hn & Hall & Hok & Hbad)
        end.
        exists (S n), (EApplyObject obj' None :: evs). cbn in Htr |- *.
        rewrite Htr, <- app_assoc. split; [reflexivity|]. split; [lia|]. split.
        { constructor; [eauto | exact Hall]. }
        split.
        { intros Hdone. destruct (Hok Hdone) as [-> Hnone].
          split; [reflexivity|]. constructor; eauto. }
        intros o e Hin. apply elem_of_cons in Hin as [Hin|Hin]; [discriminate|].
        destruct (Hbad o e Hin) as [Hlast Hres]. split; [|exact Hres].
        destruct evs; [apply elem_of_nil in Hin; contradiction | exact Hlast].
    + exists 0, []. cbn. rewrite app_nil_r.
      split; [reflexivity|]. split; [lia|]. split; [constructor|].
      split; [discriminate|].
      intros ? ? Hin; split_log Hin.
Qed.


End MoreRollout.

Section RenderData.
Context `{Lib : Library} {W : Type} `{Cl : !Cluster W}.

Lemma syncObjs_applies_only (cfg : DpuClusterConfig) (mcp : MachineConfigPool)
    (objs : list Unstructured) (s : St W) :
  exists evs,
    trace (snd (syncObjs cfg mcp objs s)) = (trace s ++ evs)%list
    /\ forallb isApply evs = true.
Proof.
  destruct (syncObjs_log cfg mcp s objs s) as (n & evs & Htr & _ & H2 & _).
  exists evs. split; [exact Htr|].
  clear Htr. induction H2 as [|e obj evs l (o & err & -> & _) _ IH]; cbn; auto.
Qed.

(** X12: what the rollout hands to the templates.  Whenever
    [syncOvnkubeDaemonSet] renders the manifests, it renders the directory of
    the ovnkube-node manifests with five entries: the image, the namespace of
    the configuration object, the name of its kubeconfig secret, and the
    northbound and southbound endpoint lists made by [dbList] from the pod IPs
    of the master pods it has just listed, with the ports 9641 and 9642.  The
    image is the value of OVNKUBE_IMAGE when that is not empty, and the local
    daemon set is then not read; otherwise it is the image of the first
    container of the local ovnkube daemon set. *)
Theorem syncOvnkubeDaemonSet_render_data (cfg : DpuClusterConfig) (s : St W)
    (path : string) (data : RenderData) (r : error + list Unstructured) :
  ERenderDir path data r ∈ emitted (syncOvnkubeDaemonSet cfg) s ->
  path = utils_OvnkubeNodeManifestPath
  /\ (exists image c pods,
        data = rolloutData cfg image (map PodIP pods)
        /\ EListPods c {[ "app" := "ovnkube-master" ]} (inr pods)
           ∈ emitted (syncOvnkubeDaemonSet cfg) s
        /\ ((image ≠ ""
             /\ EGetenv "OVNKUBE_IMAGE" image ∈ emitted (syncOvnkubeDaemonSet cfg) s
             /\ forall ns name a,
                  EGetDaemonSet ns name a ∉ emitted (syncOvnkubeDaemonSet cfg) s)
            \/ (EGetenv "OVNKUBE_IMAGE" "" ∈ emitted (syncOvnkubeDaemonSet cfg) s
                /\ exists ds cont rest,
                     EGetDaemonSet utils_LocalOvnkbueNamespace
                       utils_LocalOvnkbueNodeDsName (inr ds)
                     ∈ emitted (syncOvnkubeDaemonSet cfg) s
                     /\ ds_Containers ds = cont :: rest /\ image = Image cont))).
Proof.
  pose proof (syncObjs_applies_only cfg) as Hobjs.
  unfold emitted, syncOvnkubeDaemonSet, getTenantClusterMasterIPs,
    getLocalOvnkubeImage.
  run. unfold err_of, val_of.
  answers.
  all: try match goal with
           | |- context [syncObjs _ ?m ?l ?st] =>
               destruct (Hobjs m l st) as (evs' & Htr & Happ); rewrite Htr; clear Htr
           end.
  all: cbn; rewrite <- ?app_assoc, ?drop_app_length, ?drop_all; cbn.
  all: intros Hin; split_log Hin.
  all: try (apply (forallb_elem _ _ _ Happ) in Hin; discriminate Hin).
  all: inversion Hin; subst; clear Hin.
  all: split; [reflexivity|].
  all: eexists _, _, _.
  all: (split; [unfold rolloutData; rewrite fold_left_snoc_map; reflexivity|]).
  all: (split; [in_log|]).
  all: first
         [ right; split;
           [ match goal with H : _ = "" |- _ => rewrite H end; in_log
           | eexists _, _, _; split; [in_log | split; [eassumption | reflexivity]] ]
         | left; split; [assumption|]; split; [in_log|];
           intros ns name a Hin; split_log Hin;
           apply (forallb_elem _ _ _ Happ) in Hin; discriminate Hin ].
Qed.

End RenderData.

(** ** The merge of the node selectors, wherever the loop meets a daemon set *)

Section MergeConditions.
Context `{Lib : Library} {W : Type} `{Cl : !Cluster W}.

(** A list splits in one way around its only element with [P]. *)
Lemma split_at_only {X} (P : X -> bool) (l1 : list X) :
  forall (x : X) (l2 m1 : list X) (y : X) (m2 : list X),
    forallb (fun e => negb (P e)) l1 = true ->
    forallb (fun e => negb (P e)) l2 = true ->
    P x = true -> P y = true ->
    (l1 ++ x :: l2 = m1 ++ y :: m2)%list ->
    l1 = m1 /\ x = y /\ l2 = m2.
Proof.
  induction l1 as [|a l1 IH]; intros x l2 m1 y m2 H1 H2 Hx Hy Heq.
  - destruct m1 as [|z m1]; cbn in Heq.
    + now inversion Heq.
    + exfalso. inversion Heq; subst.
      rewrite forallb_app in H2. cbn in H2. rewrite Hy in H2. cbn in H2.
      now rewrite andb_false_r in H2.
  - cbn in H1. apply andb_true_iff in H1 as [Ha H1].
    destruct m1 as [|z m1]; cbn in Heq.
    + exfalso. inversion Heq; subst. rewrite Hy in Ha. discriminate Ha.
    + inversion Heq; subst.
      destruct (IH x l2 m1 y m2 H1 H2 Hx Hy) as (-> & -> & ->); auto.
Qed.

(** When the first calls of the loop are the [ApplyObject] of the objects of
    [pre], each answered without error, the loop goes on with the object
    after them. *)
Lemma syncObjs_reaches (cfg : DpuClusterConfig) (mcp : MachineConfigPool)
    (obj : Unstructured) (rest pre : list Unstructured) :
  forall (s : St W) (applies k : list Event),
    trace (snd (syncObjs cfg mcp (pre ++ obj :: rest) s))
    = (trace s ++ applies ++ k)%list ->
    Forall2 (fun e (o : Unstructured) => exists o', e = EApplyObject o' None)
      applies pre ->
    exists s1,
      syncObjs cfg mcp (pre ++ obj :: rest) s = syncObjs cfg mcp (obj :: rest) s1
      /\ trace s1 = (trace s ++ applies)%list.
Proof.
  induction pre as [|p pre IH]; intros s applies k Htr Hall.
  - inversion Hall; subst. exists s. cbn. now rewrite app_nil_r.
  - inversion Hall as [|a p0 applies' pre0 (o' & ->) Hall']; subst.
    revert Htr. cbn [app syncObjs].
    pose proof (patchObj_state cfg mcp p s) as Hst.
    unfold mbind, M_bind, bind.
    destruct (patchObj cfg mcp p s) as [[[e|p']|ab] s1]; cbn in Hst; subst s1.
    + cbn. intros Htr. exfalso. apply (f_equal length) in Htr.
      rewrite length_app in Htr. cbn in Htr. lia.
    + unfold ApplyObject. run.
      destruct (apply_ApplyObject p' (world s)) as [[err|] w1] eqn:Happly; cbn.
      * rewrite <- ?app_assoc. intros Htr. apply app_inv_head in Htr.
        cbn in Htr. inversion Htr.
      * match goal with
        | |- context [syncObjs cfg mcp (pre ++ obj :: rest) ?st] =>
            destruct (syncObjs_applies_only cfg mcp (pre ++ obj :: rest) st)
              as (evs & Hlog & _);
            intros Htr;
            destruct (IH st applies' k) as (s1 & Heq & Htr1);
              [|exact Hall'|]
        end.
        { rewrite Hlog in Htr |- *. cbn in Htr |- *.
          rewrite <- ?app_assoc in Htr. apply app_inv_head in Htr.
          cbn in Htr. inversion Htr; subst. now rewrite <- app_assoc. }
        exists s1. split; [exact Heq|]. rewrite Htr1. cbn.
        rewrite Hlog in Htr. cbn in Htr.
        rewrite <- ?app_assoc in Htr. apply app_inv_head in Htr. cbn in Htr.
        inversion Htr; subst. now rewrite <- app_assoc.
    + cbn. intros Htr. exfalso. apply (f_equal length) in Htr.
      rewrite length_app in Htr. cbn in Htr. lia.
Qed.

(** A rollout whose log begins with the [Get] of the pool answered [r], then
    the rendering of [pre ++ obj :: rest], then the [ApplyObject] of the
    objects of [pre] without error, goes on as the loop does from [obj], with
    the pool as the [Get] left it; and [r] is no "not found". *)
Lemma syncOvnkubeDaemonSet_reaches (cfg : DpuClusterConfig) (s : St W)
    (r : error + MachineConfigPool) (evs0 : list Event) (data : RenderData)
    (pre : list Unstructured) (obj : Unstructured) (rest : list Unstructured)
    (applies : list Event) :
  (EGetPool (PoolName (cfg_Spec cfg)) r :: evs0
   ++ ERenderDir utils_OvnkubeNodeManifestPath data (inr (pre ++ obj :: rest)%list)
      :: applies)%list
    `prefix_of` emitted (syncOvnkubeDaemonSet cfg) s ->
  Forall2 (fun e (o : Unstructured) => exists o', e = EApplyObject o' None)
    applies pre ->
  exists s1,
    syncOvnkubeDaemonSet cfg s
    = syncObjs cfg (val_of zeroPool r) (obj :: rest) s1
    /\ trace s1
       = (trace s
          ++ EGetPool (PoolName (cfg_Spec cfg)) r :: evs0
          ++ ERenderDir utils_OvnkubeNodeManifestPath data
               (inr (pre ++ obj :: rest)%list) :: applies)%list
    /\ forall e, r = inl e -> IsNotFound e = false.
Proof.
  intros [k Hem] Hall. revert Hem.
  pose proof (syncObjs_applies_only cfg) as Hlog.
  unfold emitted, syncOvnkubeDaemonSet, getTenantClusterMasterIPs,
    getLocalOvnkubeImage.
  run. unfold err_of.
  answers.
  all: intros Hem.
  all: try match goal with
           | |- context [syncObjs _ ?m ?l ?st] =>
               destruct (Hlog m l st) as (evs' & Htr & Happ); rewrite Htr in Hem
           end.
  all: cbn in Hem; rewrite <- ?app_assoc, ?drop_app_length, ?drop_all in Hem;
    cbn in Hem.
  all: try solve
         [ exfalso;
           assert (Hin : ERenderDir utils_OvnkubeNodeManifestPath data
                           (inr (pre ++ obj :: rest)%list)
                         ∈ (EGetPool (PoolName (cfg_Spec cfg)) r :: evs0
                            ++ ERenderDir utils_OvnkubeNodeManifestPath data
                                 (inr (pre ++ obj :: rest)%list)
                               :: applies ++ k)%list)
             by (rewrite elem_of_cons, elem_of_app, elem_of_cons; auto);
           rewrite <- Hem in Hin; split_log Hin ].
  all: first
         [ apply (split_at_only isRender [_; _; _; _] _ _
                    (EGetPool (PoolName (cfg_Spec cfg)) r :: evs0)) in Hem;
           [ | reflexivity
             | solve [apply (forallb_weaken isApply); [now intros []|exact Happ]]
             | reflexivity | reflexivity ]
         | apply (split_at_only isRender [_; _; _; _; _] _ _
                    (EGetPool (PoolName (cfg_Spec cfg)) r :: evs0)) in Hem;
           [ | reflexivity
             | solve [apply (forallb_weaken isApply); [now intros []|exact Happ]]
             | reflexivity | reflexivity ] ].
  all: destruct Hem as (Hpre & Hrender & Hrest).
  all: injection Hpre as Hr Hevs0; injection Hrender as Hdata Hobjs; subst.
  all: match goal with
       | Htr : trace (snd (syncObjs ?c ?m _ ?st)) = _ |- _ =>
           destruct (syncObjs_reaches c m obj rest pre st applies k)
             as (s1 & Heq & Htr1); [exact Htr | exact Hall |]
       end.
  all: exists s1; split; [exact Heq|]; split;
    [rewrite Htr1; cbn; rewrite <- ?app_assoc; reflexivity|].
  all: intros ? He'; first [discriminate He' | injection He' as <-; assumption].
Qed.

(** C10: the merge of the pool's node selector into a rendered daemon set
    rests on two conditions the code does not check.  Take any rollout that
    gets as far as a daemon set among the rendered objects, wherever it stands
    in the manifests and wherever the image came from: the [Get] of the pool
    was answered [r], the manifests were rendered, and the objects before the
    daemon set were applied without error.  A [Get] of the pool that failed
    was no "not found": it was dropped, and left the pool at its zero value,
    whose node selector is nil.  A nil node selector of the pool makes the
    rollout panic on the dereference, and a daemon set with no node-selector
    map makes it panic on the assignment as soon as the pool has a label to
    merge; either way nothing more is called.  In every other case the merge
    goes through. *)
Theorem syncOvnkubeDaemonSet_merge_preconditions (cfg : DpuClusterConfig)
    (s : St W) (r : error + MachineConfigPool) (evs0 : list Event)
    (data : RenderData) (pre : list Unstructured) (obj : Unstructured)
    (rest : list Unstructured) (applies : list Event) (ds : DaemonSet) :
  (EGetPool (PoolName (cfg_Spec cfg)) r :: evs0
   ++ ERenderDir utils_OvnkubeNodeManifestPath data (inr (pre ++ obj :: rest)%list)
      :: applies)%list
    `prefix_of` emitted (syncOvnkubeDaemonSet cfg) s ->
  Forall2 (fun e (o : Unstructured) => exists o', e = EApplyObject o' None)
    applies pre ->
  GetKind obj = "DaemonSet" ->
  Convert_to_DaemonSet obj = inr ds ->
  let mcp := val_of zeroPool r in
  let reached :=
    (EGetPool (PoolName (cfg_Spec cfg)) r :: evs0
     ++ ERenderDir utils_OvnkubeNodeManifestPath data (inr (pre ++ obj :: rest)%list)
        :: applies)%list in
  (forall e, r = inl e ->
     IsNotFound e = false /\ pool_NodeSelector (mcp_Spec mcp) = None)
  /\ (pool_NodeSelector (mcp_Spec mcp) = None ->
      fst (syncOvnkubeDaemonSet cfg s)
      = Aborted (Panic "invalid memory address or nil pointer dereference")
      /\ emitted (syncOvnkubeDaemonSet cfg) s = reached)
  /\ (forall sel,
        pool_NodeSelector (mcp_Spec mcp) = Some sel ->
        MatchLabels sel ≠ ∅ ->
        ds_NodeSelector ds = None ->
        fst (syncOvnkubeDaemonSet cfg s)
        = Aborted (Panic "assignment to entry in nil map")
        /\ emitted (syncOvnkubeDaemonSet cfg) s = reached)
  /\ (forall sel (s' : St W),
        pool_NodeSelector (mcp_Spec mcp) = Some sel ->
        MatchLabels sel = ∅ \/ is_Some (ds_NodeSelector ds) ->
        exists ds', mergeNodeSelector mcp ds s' = (Done ds', s')).
Proof.
  intros Hpre Hall Hk Hc mcp reached.
  destruct (syncOvnkubeDaemonSet_reaches cfg s r evs0 data pre obj rest applies
              Hpre Hall) as (s1 & Heq & Htr & Hnf).
  assert (Hrun : forall k,
             mergeNodeSelector mcp ds s1 = (Aborted k, s1) ->
             fst (syncOvnkubeDaemonSet cfg s) = Aborted k
             /\ emitted (syncOvnkubeDaemonSet cfg) s = reached).
  { intros k Hm. unfold emitted. rewrite Heq.
    rewrite (syncObjs_merge_aborts cfg mcp obj rest ds k s1 Hk Hc Hm).
    cbn [fst snd]. split; [reflexivity|]. now rewrite Htr, drop_app_length. }
  split; [|split; [|split]].
  - intros e ->. split; [now apply Hnf | reflexivity].
  - intros Hnil. apply Hrun. now apply mergeNodeSelector_nil_selector.
  - intros sel Hsel Hne Hds. apply Hrun.
    apply mergeNodeSelector_nil_map with sel; assumption.
  - intros sel s' Hsel [He|[m Hm]].
    + eexists. apply mergeNodeSelector_no_labels with sel; assumption.
    + eexists. apply mergeNodeSelector_union; eassumption.
Qed.

End MergeConditions.

(** ** A pass as a whole *)

Section Pass.
Context `{Lib : Library} {W : Type} `{Cl : !Cluster W}.

Lemma grows_weaken (P Q : Event -> bool) (s s' : St W) :
  (forall e, P e = true -> Q e = true) -> grows P s s' -> grows Q s s'.
Proof.
  intros H (evs & Htr & Hevs). exists evs. split; [exact Htr|].
  now apply (forallb_weaken P Q).
Qed.

Lemma startTenantSyncerIfNeeded_calls (cfg : DpuClusterConfig) :
  always (grows isStartCall) (startTenantSyncerIfNeeded (W := W) cfg).
Proof.
  intros s. unfold startTenantSyncerIfNeeded. run.
  answers; rewrite <- ?app_assoc; cbn;
    first [ apply grows_intro; reflexivity | apply reflexivity ].
Qed.

Lemma statusFlush_run (s : St W) : statusFlush s = (Done tt, flushed s).
Proof. reflexivity. Qed.

(** The pass is its body, then the status flush unless the process exits. *)
Lemma ReconcileDpuClusterConfig_flush (req : Request) (cfg : DpuClusterConfig)
    (s : St W) :
  ReconcileDpuClusterConfig req cfg s
  = (fst (passBody req (snd (set_config cfg s))),
     match fst (passBody req (snd (set_config cfg s))) with
     | Aborted Exit => snd (passBody req (snd (set_config cfg s)))
     | _ => flushed (snd (passBody req (snd (set_config cfg s))))
     end).
Proof.
  rewrite ReconcileDpuClusterConfig_passBody.
  unfold mbind at 1. unfold M_bind, bind. cbn [set_config snd]. unfold defer.
  destruct (passBody req _) as [[a|[msg|]] s1]; reflexivity.
Qed.

Lemma passBody_grows (P : Event -> bool) (req : Request) :
  (forall e, isBodyCall e = true -> P e = true) ->
  (forall e, isStartCall e = true -> P e = true) ->
  always (grows P) (passBody (W := W) req).
Proof.
  intros Hb Hs.
  apply (body_passBody anyhow).
  - apply (Tolerates_weaken P); [exact Hb | apply grows_tolerates].
  - apply anyhow_reads.
  - apply anyhow_writes.
  - intros cfg s. apply (grows_weaken isStartCall); [exact Hs|].
    apply startTenantSyncerIfNeeded_calls.
Qed.

(** X13: the status of the configuration object is written once, at the very
    end of a pass.  Unless the process exits, the last call of a pass is the
    [Status().Update] of the configuration object as the phases left it, and
    it is the only one: this is so when the pass returns an error and when it
    panics.  What the update answers is not returned: the pass ends as its
    phases ended.  When the process exits the status is not written. *)
Theorem ReconcileDpuClusterConfig_flushes_status_last (req : Request)
    (cfg : DpuClusterConfig) (s : St W) :
  fst (ReconcileDpuClusterConfig req cfg s)
  = fst (passBody req (snd (set_config cfg s)))
  /\ match fst (ReconcileDpuClusterConfig req cfg s) with
     | Aborted Exit =>
         forallb (fun e => negb (isStatusUpdate e))
           (emitted (ReconcileDpuClusterConfig req cfg) s) = true
     | _ =>
         exists evs r,
           emitted (ReconcileDpuClusterConfig req cfg) s
           = (evs ++ [EStatusUpdate
                        (config (snd (ReconcileDpuClusterConfig req cfg s))) r])%list
           /\ forallb (fun e => negb (isStatusUpdate e)) evs = true
     end.
Proof.
  unfold emitted. rewrite ReconcileDpuClusterConfig_flush. cbn [fst snd].
  split; [reflexivity|].
  destruct (passBody_grows (fun e => negb (isStatusUpdate e)) req
              ltac:(now intros []) ltac:(now intros [])
              (snd (set_config cfg s))) as (evs & Htr & Hevs).
  cbn [set_config snd trace] in Htr.
  destruct (passBody req _) as [[a|[msg|]] s1]; cbn [fst snd] in *.
  1, 2: unfold flushed, logged; cbn [trace config]; rewrite Htr, <- app_assoc,
    drop_app_length; eexists _, _; split; [reflexivity | exact Hevs].
  now rewrite Htr, drop_app_length.
Qed.

End Pass.

Section HeldHandle.
Context `{Lib : Library} {W : Type} `{Cl : !Cluster W}.

#[export] Instance keeps_held_preorder : PreOrder (keeps_held (W := W)).
Proof.
  split.
  - intros s h Hh. split; [exact Hh | reflexivity].
  - intros s1 s2 s3 H12 H23 h Hh.
    destruct (H12 h Hh) as [Hh2 Hg12]. destruct (H23 h Hh2) as [Hh3 Hg23].
    split; [exact Hh3 | etransitivity; eassumption].
Qed.

Lemma keeps_held_tolerates :
  Tolerates (fun e => negb (isSyncerCall e)) anyhow (keeps_held (W := W)).
Proof.
  split.
  - apply _.
  - intros s w' e He _ h Hh. split; [exact Hh|].
    exists [e]. split; [reflexivity|]. cbn. now rewrite He.
  - intros s c h Hh. split; [exact Hh|]. exists []. cbn. now rewrite app_nil_r.
  - intros s rc h Hh. split; [exact Hh|]. exists []. cbn. now rewrite app_nil_r.
Qed.

Lemma ReconcileDpuClusterConfig_keeps_held (req : Request) (cfg : DpuClusterConfig) :
  always keeps_held (ReconcileDpuClusterConfig (W := W) req cfg).
Proof.
  apply (pass_ReconcileDpuClusterConfig anyhow).
  - apply (Tolerates_weaken (fun e => negb (isSyncerCall e)));
      [now intros [] | apply keeps_held_tolerates].
  - apply anyhow_reads.
  - apply anyhow_writes.
  - intros cfg' s h Hh.
    rewrite (startTenantSyncerIfNeeded_held cfg' s h Hh).
    split; [exact Hh | reflexivity].
Qed.

(** X14: a handle that is held survives every pass but the one that finds no
    configuration object.  When a handle is held and the listing does not
    answer the empty list (it fails, or it gives one object or more), the pass
    leaves the handle as it is and constructs, launches and stops no syncer,
    however the pass ends. *)
Theorem Reconcile_keeps_held_handle (req : Request) (s : St W) (h : OvnkubeSyncer) :
  syncer s = Some h ->
  fst (client_List (req_Namespace req) (world s)) ≠ inr [] ->
  syncer (snd (Reconcile req s)) = Some h
  /\ forallb (fun e => negb (isSyncerCall e)) (emitted (Reconcile req) s) = true.
Proof.
  intros Hh Hlist. unfold emitted, Reconcile. run.
  destruct (client_List (req_Namespace req) (world s)) as [[e|l] w1]; cbn in *.
  { split; [exact Hh|]. now rewrite drop_app_length. }
  destruct (decide (1 < length l)) as [Hlong|Hlong]; cbn.
  { split; [exact Hh|]. now rewrite drop_app_length. }
  destruct l as [|item rest]; [congruence|].
  destruct (decide _) as [Hone|Hone]; cbn.
  - match goal with
    | |- context [ReconcileDpuClusterConfig req item ?st] =>
        destruct (ReconcileDpuClusterConfig_keeps_held req item st h Hh)
          as (Hkept & evs & Htr & Hevs)
    end.
    split; [exact Hkept|]. cbn in Htr. rewrite Htr, <- app_assoc, drop_app_length.
    exact Hevs.
  - cbn in Hlong, Hone. lia.
Qed.

Lemma ReconcileDpuClusterConfig_never_stops (req : Request) (cfg : DpuClusterConfig) :
  always (grows (fun e => negb (isStop e)))
    (ReconcileDpuClusterConfig (W := W) req cfg).
Proof.
  apply (pass_ReconcileDpuClusterConfig anyhow).
  - apply (Tolerates_weaken (fun e => negb (isStop e)));
      [now intros [] | apply grows_tolerates].
  - apply anyhow_reads.
  - apply anyhow_writes.
  - intros cfg' s. apply (grows_weaken isStartCall); [now intros []|].
    apply startTenantSyncerIfNeeded_calls.
Qed.

(** X15: the syncer is stopped only by a pass that finds no configuration
    object.  If a pass stops a syncer, the listing succeeded and gave no
    object, the syncer stopped is the one whose handle was held, the listing
    and the stop are the two calls of the pass, and the pass returns success
    with the handle cleared. *)
Theorem Reconcile_stops_only_without_config (req : Request) (s : St W)
    (h : OvnkubeSyncer) :
  ESyncerStop h ∈ emitted (Reconcile req) s ->
  fst (client_List (req_Namespace req) (world s)) = inr []
  /\ syncer s = Some h
  /\ emitted (Reconcile req) s = [EList (req_Namespace req) (inr []); ESyncerStop h]
  /\ fst (Reconcile req s) = Done (Result0, None)
  /\ syncer (snd (Reconcile req s)) = None.
Proof.
  unfold emitted, Reconcile. run.
  destruct (client_List (req_Namespace req) (world s)) as [[e|l] w1]; cbn in *.
  { rewrite drop_app_length. intros Hin. split_log Hin. }
  destruct (decide (1 < length l)) as [Hlong|Hlong]; cbn.
  { rewrite drop_app_length. intros Hin. split_log Hin. }
  destruct l as [|item rest].
  - repeat (destruct (decide _); try (cbn in *; lia)). cbn.
    destruct (syncer s) as [h0|] eqn:Hh; cbn.
    + rewrite <- app_assoc, drop_app_length. cbn. intros Hin. split_log Hin.
      inversion Hin; subst. auto.
    + rewrite drop_app_length. intros Hin. split_log Hin.
  - destruct (decide _) as [Hone|Hone]; cbn.
    + match goal with
      | |- context [ReconcileDpuClusterConfig req item ?st] =>
          destruct (ReconcileDpuClusterConfig_never_stops req item st)
            as (evs & Htr & Hevs)
      end.
      cbn in Htr. rewrite Htr, <- app_assoc, drop_app_length. cbn.
      intros Hin. split_log Hin.
      apply (forallb_elem _ _ _ Hevs) in Hin. discriminate Hin.
    + cbn in Hlong, Hone. lia.
Qed.

End HeldHandle.

Section Order.
Context `{Lib : Library} {W : Type} `{Cl : !Cluster W}.

Lemma passBody_unfold (req : Request) (s0 : St W) :
  passBody req s0
  = match validateDPUHostBootstrap (config s0) with
    | Some err => (Done (Result0, Some err), s0)
    | None =>
        match ensureMcpReady s0 with
        | (Done err, s1) => afterMcpReady req err s1
        | (Aborted k, s1) => (Aborted k, s1)
        end
    end.
Proof.
  unfold passBody. unfold mbind at 1. unfold M_bind, bind, get_config.
  destruct (validateDPUHostBootstrap (config s0)); reflexivity.
Qed.

Lemma afterMcpReady_unfold (req : Request) (s1 : St W) :
  afterMcpReady req None s1
  = match validateTenantKubeConfig (config s1) with
    | Some err => (Done (Result0, Some err), s1)
    | None =>
        match ensureTenantObjsSynced req s1 with
        | (Done (Some err), s2) => (Done (Result0, Some err), s2)
        | (Done None, s2) =>
            (err ← ensureDeamonSetRunning req;
             match err with
             | Some err => mret (Result0, Some err)
             | None => mret (Result0, None)
             end) s2
        | (Aborted k, s2) => (Aborted k, s2)
        end
    end.
Proof.
  unfold afterMcpReady. unfold mbind at 1. unfold M_bind, bind, get_config.
  destruct (validateTenantKubeConfig (config s1)); [reflexivity|].
  unfold mbind at 1. unfold M_bind, bind.
  destruct (ensureTenantObjsSynced req s1) as [[[err|]|k] s2]; reflexivity.
Qed.

(** The remote-sync phase makes no call of the rollout, and when it returns
    nil the three mirrored objects were found. *)
Lemma ensureTenantObjsSynced_log (req : Request) (s : St W) :
  exists evs,
    trace (snd (ensureTenantObjsSynced req s)) = (trace s ++ evs)%list
    /\ forallb (fun e => negb (isRolloutCall e)) evs = true
    /\ (fst (ensureTenantObjsSynced req s) = Done None ->
        mirrored_found (req_Namespace req) evs).
Proof.
  unfold ensureTenantObjsSynced, startTenantSyncerIfNeeded, isTenantObjsSynced,
    mirrored_found.
  run. answers.
  all: rewrite <- ?app_assoc; cbn.
  all: first [ eexists; split; [reflexivity|]
             | exists []; split; [now rewrite app_nil_r|] ].
  all: split; [reflexivity|].
  all: intros Hdone; try discriminate Hdone.
  all: eexists _, _, _; repeat split; in_log.
Qed.

Lemma ensureDeamonSetRunning_log (req : Request) (s : St W) :
  exists evs, trace (snd (ensureDeamonSetRunning req s)) = (trace s ++ evs)%list.
Proof.
  destruct (rollout_ensureDeamonSetRunning anyhow (grows isRolloutPhase) req
              (grows_tolerates _) anyhow_reads s) as (evs & Htr & _).
  now exists evs.
Qed.

(** The stages of a pass: either it ends before the rollout, with an error
    or aborted, having made no call of the rollout; or the object passed the
    checks, node-pool convergence and the remote-sync phase returned nil with
    the mirrored objects found, and the pass ends as the rollout phase ends,
    followed by the status flush. *)
Lemma ReconcileDpuClusterConfig_stages (req : Request) (cfg : DpuClusterConfig)
    (s : St W) :
  (fst (ReconcileDpuClusterConfig req cfg s) ≠ Done (Result0, None)
   /\ forallb (fun e => negb (isRolloutCall e))
        (emitted (ReconcileDpuClusterConfig req cfg) s) = true)
  \/ (validateDPUHostBootstrap cfg = None
      /\ validateTenantKubeConfig cfg = None
      /\ exists s1 s2 evs,
           ensureMcpReady (snd (set_config cfg s)) = (Done None, s1)
           /\ ensureTenantObjsSynced req s1 = (Done None, s2)
           /\ trace s2 = (trace s ++ evs)%list
           /\ mirrored_found (req_Namespace req) evs
           /\ fst (ReconcileDpuClusterConfig req cfg s)
              = match fst (ensureDeamonSetRunning req s2) with
                | Done err => Done (Result0, err)
                | Aborted k => Aborted k
                end
           /\ snd (ReconcileDpuClusterConfig req cfg s)
              = match fst (ensureDeamonSetRunning req s2) with
                | Aborted Exit => snd (ensureDeamonSetRunning req s2)
                | _ => flushed (snd (ensureDeamonSetRunning req s2))
                end).
Proof.
  unfold emitted. rewrite ReconcileDpuClusterConfig_flush. cbn [fst snd].
  rewrite passBody_unfold. cbn [set_config snd config].
  assert (Hflush : forall (o : Outcome (Result * option error)) (s' : St W) evs,
             trace s' = (trace s ++ evs)%list ->
             forallb (fun e => negb (isRolloutCall e)) evs = true ->
             forallb (fun e => negb (isRolloutCall e))
               (drop (length (trace s))
                  (trace match o with
                         | Aborted Exit => s'
                         | _ => flushed s'
                         end)) = true).
  { intros o s' evs Htr Hq.
    destruct o as [a|[msg|]]; unfold flushed, logged; cbn [trace];
      rewrite Htr, <- ?app_assoc, drop_app_length, ?forallb_app, ?Hq;
      reflexivity. }
  destruct (validateDPUHostBootstrap cfg) as [ev|] eqn:Hv.
  { left. cbn [fst snd]. split; [discriminate|].
    apply (Hflush (Done (Result0, Some ev)) _ []); [|reflexivity].
    cbn. now rewrite app_nil_r. }
  destruct (ensureMcpReady_footprint (snd (set_config cfg s)))
    as (err & s1 & Hrun & _ & _ & Hspec & (evs1 & Htr1 & Hq1)).
  cbn [set_config snd config trace] in Hrun, Hspec, Htr1. rewrite Hrun.
  assert (Hq1' : forallb (fun e => negb (isRolloutCall e)) evs1 = true).
  { apply (forallb_weaken isPoolPhase); [now intros []|exact Hq1]. }
  destruct err as [err|].
  { left. cbn [afterMcpReady fst snd]. split; [discriminate|].
    now apply (Hflush (Done (Result0, Some err)) s1 evs1). }
  rewrite afterMcpReady_unfold.
  assert (Hk : validateTenantKubeConfig (config s1) = validateTenantKubeConfig cfg).
  { unfold validateTenantKubeConfig. now rewrite Hspec. }
  rewrite Hk.
  destruct (validateTenantKubeConfig cfg) as [err|] eqn:Hkube.
  { left. cbn [fst snd]. split; [discriminate|].
    now apply (Hflush (Done (Result0, Some err)) s1 evs1). }
  destruct (ensureTenantObjsSynced_log req s1) as (evs2 & Htr2 & Hq2 & Hfound).
  destruct (ensureTenantObjsSynced req s1) as [[[err|]|k] s2] eqn:Htenant;
    cbn [fst snd] in *.
  { left. split; [discriminate|].
    apply (Hflush (Done (Result0, Some err)) s2 (evs1 ++ evs2)%list).
    - now rewrite Htr2, Htr1, <- app_assoc.
    - now rewrite forallb_app, Hq1', Hq2. }
  2: { left. split; [discriminate|].
       apply (Hflush (Aborted k) s2 (evs1 ++ evs2)%list).
       - now rewrite Htr2, Htr1, <- app_assoc.
       - now rewrite forallb_app, Hq1', Hq2. }
  right. split; [reflexivity|]. split; [reflexivity|].
  exists s1, s2, (evs1 ++ evs2)%list.
  split; [reflexivity|]. split; [exact Htenant|].
  split; [now rewrite Htr2, Htr1, <- app_assoc|].
  split.
  { destruct (Hfound eq_refl) as (ca & cm & cert & H1 & H2 & H3).
    exists ca, cm, cert. rewrite !elem_of_app. auto. }
  unfold mbind, M_bind, bind.
  destruct (ensureDeamonSetRunning req s2) as [[[err|]|[msg|]] s3]; cbn [fst snd];
    split; reflexivity.
Qed.

(** X16: the rollout begins only after everything before it went through.
    If a pass makes any call of the rollout (it builds the client of the
    tenant cluster, lists its pods, reads OVNKUBE_IMAGE, renders or applies a
    manifest, or reads a daemon set), then the configuration object passed the
    three checks, node-pool convergence returned nil, the remote-sync phase
    returned nil, and the CA config map, the ovnkube config map and the
    certificate secret were found in the namespace of the request earlier in
    the same pass. *)
Theorem rollout_follows_mirrored_objects (req : Request) (cfg : DpuClusterConfig)
    (s : St W) (e : Event) :
  e ∈ emitted (ReconcileDpuClusterConfig req cfg) s ->
  isRolloutCall e = true ->
  validateDPUHostBootstrap cfg = None
  /\ validateTenantKubeConfig cfg = None
  /\ (exists s1,
        ensureMcpReady (snd (set_config cfg s)) = (Done None, s1)
        /\ fst (ensureTenantObjsSynced req s1) = Done None)
  /\ mirrored_found (req_Namespace req)
       (emitted (ReconcileDpuClusterConfig req cfg) s).
Proof.
  intros Hin Hroll.
  destruct (ReconcileDpuClusterConfig_stages req cfg s)
    as [[_ Hq]|(Hv & Hk & s1 & s2 & evs & Hrun & Htenant & Htr & Hfound & _ & Hsnd)].
  { apply (forallb_elem _ _ _ Hq) in Hin. rewrite Hroll in Hin. discriminate Hin. }
  split; [exact Hv|]. split; [exact Hk|].
  split; [exists s1; split; [exact Hrun | now rewrite Htenant]|].
  unfold emitted. rewrite Hsnd.
  destruct (ensureDeamonSetRunning_log req s2) as (evs3 & Htr3).
  destruct Hfound as (ca & cm & cert & H1 & H2 & H3).
  exists ca, cm, cert.
  destruct (fst (ensureDeamonSetRunning req s2)) as [a|[msg|]];
    unfold flushed, logged; cbn [trace];
    rewrite Htr3, Htr, <- ?app_assoc, drop_app_length, !elem_of_app; auto.
Qed.

(** The rollout phase returns nil only after it has read the daemon set
    "ovnkube-node" and found as many pods ready as desired; that read is then
    its last call. *)
Lemma ensureDeamonSetRunning_ready (req : Request) (s : St W) :
  fst (ensureDeamonSetRunning req s) = Done None ->
  exists evs ds,
    trace (snd (ensureDeamonSetRunning req s))
    = (trace s ++ evs ++ [EGetDaemonSet (req_Namespace req) "ovnkube-node" (inr ds)])%list
    /\ DesiredNumberScheduled ds = NumberReady ds.
Proof.
  destruct (rollout_syncOvnkubeDaemonSet anyhow (grows isRolloutPhase) (config s)
              (grows_tolerates _) anyhow_reads s) as (evs & Htr & _).
  unfold ensureDeamonSetRunning, checkDeamonSetState. run.
  destruct (syncOvnkubeDaemonSet (config s) s) as [[[err|]|k] s1]; cbn in *;
    try discriminate.
  destruct (client_Get_DaemonSet (req_Namespace req) "ovnkube-node" (world s1))
    as [[err|ds] w2]; cbn; [discriminate|].
  destruct (decide _) as [Hne|Heq]; cbn; [discriminate|].
  intros _. exists evs, ds. rewrite Htr, <- app_assoc.
  split; [reflexivity|]. now apply dec_stable.
Qed.

(** X17: what a pass that returns nil has seen.  When a pass returns no
    error, the configuration object passed the three checks, the three
    mirrored objects were found in the namespace of the request, and the last
    call before the status flush was the read of the daemon set
    "ovnkube-node" in that namespace, which reported as many pods ready as
    desired. *)
Theorem ReconcileDpuClusterConfig_success_means_ready (req : Request)
    (cfg : DpuClusterConfig) (s : St W) :
  fst (ReconcileDpuClusterConfig req cfg s) = Done (Result0, None) ->
  validateDPUHostBootstrap cfg = None
  /\ validateTenantKubeConfig cfg = None
  /\ exists evs ds r,
       emitted (ReconcileDpuClusterConfig req cfg) s
       = (evs ++ [EGetDaemonSet (req_Namespace req) "ovnkube-node" (inr ds);
                  EStatusUpdate
                    (config (snd (ReconcileDpuClusterConfig req cfg s))) r])%list
       /\ mirrored_found (req_Namespace req) evs
       /\ DesiredNumberScheduled ds = NumberReady ds.
Proof.
  intros Hdone.
  destruct (ReconcileDpuClusterConfig_stages req cfg s)
    as [[Hne _]|(Hv & Hk & s1 & s2 & evs & Hrun & Htenant & Htr & Hfound & Hfst
                 & Hsnd)]; [contradiction|].
  split; [exact Hv|]. split; [exact Hk|].
  rewrite Hdone in Hfst.
  destruct (fst (ensureDeamonSetRunning req s2)) as [[err|]|k] eqn:Hroll;
    try discriminate Hfst.
  destruct (ensureDeamonSetRunning_ready req s2 Hroll) as (evs3 & ds & Htr3 & Hready).
  unfold emitted. rewrite Hsnd. unfold flushed, logged. cbn [trace config].
  rewrite Htr3, Htr, <- !app_assoc, drop_app_length.
  exists (evs ++ evs3)%list, ds. eexists. rewrite <- !app_assoc.
  split; [reflexivity|]. split; [|exact Hready].
  destruct Hfound as (ca & cm & cert & H1 & H2 & H3).
  exists ca, cm, cert. rewrite !elem_of_app. auto.
Qed.

End Order.

Section WritesOnlyWhenValid.
Context `{Lib : Library} {W : Type} `{Cl : !Cluster W}.

Lemma ensureMcpReady_reserved (s : St W) :
  PoolName (cfg_Spec (config s)) = "master"
  \/ PoolName (cfg_Spec (config s)) = "worker" ->
  exists err s1,
    ensureMcpReady s = (Done (Some err), s1) /\ trace s1 = trace s.
Proof.
  intros H. unfold ensureMcpReady. run.
  rewrite (syncMachineConfigObjs_reserved _ s H). cbn.
  eexists _, _. split; reflexivity.
Qed.

(** X18: a pool or a machine config is written only for a configuration
    object that is alone in its namespace and asks for a pool of its own.  If
    a pass creates or updates a pool or a machine config, then the listing
    gave exactly one object, that object passed the checks of the pool name
    and of the node selector, and its pool name is neither "master" nor
    "worker". *)
Theorem Reconcile_writes_only_for_valid_object (req : Request) (s : St W)
    (e : Event) :
  e ∈ emitted (Reconcile req) s ->
  isWrite e = true ->
  exists item,
    fst (client_List (req_Namespace req) (world s)) = inr [item]
    /\ validateDPUHostBootstrap item = None
    /\ PoolName (cfg_Spec item) ≠ "master"
    /\ PoolName (cfg_Spec item) ≠ "worker".
Proof.
  unfold emitted, Reconcile. run.
  destruct (client_List (req_Namespace req) (world s)) as [[err|l] w1]; cbn in *.
  { rewrite drop_app_length. intros Hin Hw. split_log Hin. now subst e. }
  destruct (decide (1 < length l)) as [Hlong|Hlong]; cbn.
  { rewrite drop_app_length. intros Hin Hw. split_log Hin. now subst e. }
  destruct l as [|item rest].
  { repeat (destruct (decide _); try (cbn in *; lia)). cbn.
    destruct (syncer s) as [h0|]; cbn; rewrite <- ?app_assoc, drop_app_length;
      intros Hin Hw; split_log Hin; now subst e. }
  destruct rest as [|item2 rest]; [|cbn in Hlong; lia].
  destruct (decide _) as [_|Hone]; [|now cbn in Hone]. cbn.
  set (s0 := {| world := w1;
                trace := (trace s ++ [EList (req_Namespace req) (inr [item])])%list;
                syncer := syncer s; TenantRestConfig := TenantRestConfig s;
                config := config s |}).
  assert (Hnone : forall s' : St W,
             grows (fun e => negb (isWrite e)) s0 s' ->
             e ∈ drop (length (trace s)) (trace s') -> isWrite e = true -> False).
  { intros s' (evs & Htr & Hevs) Hin Hw. subst s0. cbn in Htr.
    rewrite Htr, <- app_assoc, drop_app_length in Hin. cbn in Hin.
    apply elem_of_cons in Hin as [->|Hin]; [discriminate Hw|].
    apply (forallb_elem _ _ _ Hevs) in Hin. rewrite Hw in Hin. discriminate Hin. }
  intros Hin Hw.
  destruct (validateDPUHostBootstrap item) as [ev|] eqn:Hv.
  { exfalso. refine (Hnone _ _ Hin Hw).
    rewrite (ReconcileDpuClusterConfig_invalid req item s0 ev Hv). cbn.
    exists [EStatusUpdate item (fst (client_Status_Update item w1))].
    split; reflexivity. }
  destruct (decide (PoolName (cfg_Spec item) = "master"
                    \/ PoolName (cfg_Spec item) = "worker")) as [Hres|Hres].
  { exfalso. refine (Hnone _ _ Hin Hw).
    destruct (ensureMcpReady_reserved (snd (set_config item s0)) Hres)
      as (err & s1 & Hrun & Htr).
    transitivity s1.
    - exists []. split; [now rewrite app_nil_r, Htr | reflexivity].
    - apply (ReconcileDpuClusterConfig_after_pool _ req item s0 s1 (Some err) Hv Hrun).
      + apply (always_afterMcpReady anyhow _ req (Some err) grows_not_write_calm
                 anyhow_reads).
        apply startTenantSyncerIfNeeded_writes_nothing.
      + apply (always_statusFlush anyhow _ grows_not_write_calm anyhow_reads). }
  exists item. split; [reflexivity|]. split; [exact Hv|].
  split; intros Heq; apply Hres; [now left | now right].
Qed.

End WritesOnlyWhenValid.

Section MoreMerge.
Context `{Lib : Library} {W : Type} `{Cl : !Cluster W}.

(** X19: what the merge of the node selectors gives.  With a node selector
    on the pool and a node-selector map on the daemon set, the merge returns
    the daemon set with nothing changed but that map, and calls nothing; in
    the new map every label of the pool has the value the pool gives it, also
    when the manifest gave the same key another value, and every other key has
    the value the manifest gave it, if any.  The result does not depend on the
    order in which the labels of the pool are walked. *)
Theorem mergeNodeSelector_pool_labels_win (mcp : MachineConfigPool)
    (ds : DaemonSet) (sel : LabelSelector) (m : gmap string string) (s : St W) :
  pool_NodeSelector (mcp_Spec mcp) = Some sel ->
  ds_NodeSelector ds = Some m ->
  exists m' : gmap string string,
    mergeNodeSelector mcp ds s = (Done (set_ds_NodeSelector (Some m') ds), s)
    /\ (forall k v, MatchLabels sel !! k = Some v -> m' !! k = Some v)
    /\ (forall k, MatchLabels sel !! k = None -> m' !! k = m !! k).
Proof.
  intros Hsel Hm. exists (MatchLabels sel ∪ m).
  split; [now apply mergeNodeSelector_union|]. split.
  - intros k v Hk. now apply lookup_union_Some_l.
  - intros k Hk. now apply lookup_union_r.
Qed.

End MoreMerge.

Section PassResult.
Context `{Lib : Library} {W : Type} `{Cl : !Cluster W}.

Lemma afterMcpReady_Result0 (req : Request) (err0 : option error) (s : St W) :
  match fst (afterMcpReady req err0 s) with
  | Done (r, _) => r = Result0
  | Aborted _ => True
  end.
Proof.
  destruct err0 as [e|]; [reflexivity|].
  rewrite afterMcpReady_unfold.
  destruct (validateTenantKubeConfig (config s)); [reflexivity|].
  destruct (ensureTenantObjsSynced req s) as [[[err|]|k] s2]; try exact I;
    [reflexivity|].
  unfold mbind, M_bind, bind.
  now destruct (ensureDeamonSetRunning req s2) as [[[err|]|k] s3].
Qed.

(** X20: [Reconcile] never asks for a requeue of its own.  Whenever it
    returns, with or without an error, the result is the zero [ctrl.Result]
    (no requeue flag, no delay): a retry comes from the error it returns or
    from a new event only. *)
Theorem Reconcile_returns_zero_result (req : Request) (s : St W) :
  match fst (Reconcile req s) with
  | Done (r, _) => r = Result0
  | Aborted _ => True
  end.
Proof.
  unfold Reconcile. run.
  destruct (client_List (req_Namespace req) (world s)) as [[err|l] w1]; cbn;
    [reflexivity|].
  destruct (decide (1 < length l)); [reflexivity|].
  destruct (decide (length l = 1)).
  - destruct l as [|item rest]; [exact I|].
    rewrite ReconcileDpuClusterConfig_flush. cbn [fst].
    rewrite passBody_unfold.
    destruct (validateDPUHostBootstrap _); [reflexivity|].
    destruct (ensureMcpReady _) as [[err|k] s1]; [|exact I].
    apply afterMcpReady_Result0.
  - destruct (decide (length l = 0)); cbn; [|reflexivity].
    now destruct (syncer s).
Qed.

End PassResult.

Section RequestName.
Context `{Lib : Library} {W : Type} `{Cl : !Cluster W}.

(** X21: the name in the request is not used.  Apart from the line written
    to the log, which is left out here, two requests for the same namespace
    run the same pass from the same state, whatever names they carry: the
    object a pass works on is the one the listing of the namespace gives, not
    the one the request names. *)
Theorem Reconcile_ignores_request_name (req req' : Request) (s : St W) :
  req_Namespace req = req_Namespace req' ->
  Reconcile req s = Reconcile req' s.
Proof.
  destruct req as [ns n], req' as [ns' n']. cbn. intros <-. reflexivity.
Qed.

End RequestName.

(** ** The connection to the tenant cluster *)

Section TenantConnection.
Context `{Lib : Library} {W : Type} `{Cl : !Cluster W}.

Lemma syncObjs_same_vars (cfg : DpuClusterConfig) (mcp : MachineConfigPool)
    (objs : list Unstructured) :
  forall s : St W, same_vars s (snd (syncObjs cfg mcp objs s)).
Proof.
  induction objs as [|obj rest IH]; intros s; cbn [syncObjs].
  - reflexivity.
  - pose proof (patchObj_state cfg mcp obj s) as Hst.
    unfold mbind, M_bind, bind.
    destruct (patchObj cfg mcp obj s) as [[[e|obj']|k] s1]; cbn in Hst; subst s1;
      try reflexivity.
    unfold ApplyObject. run.
    destruct (apply_ApplyObject obj' (world s)) as [[err|] w1]; cbn.
    + now repeat split.
    + match goal with
      | |- context [syncObjs cfg mcp rest ?st] =>
          destruct (IH st) as (H1 & H2 & H3)
      end.
      now repeat split.
Qed.

(** The rollout phase leaves the handle and the connection alone, and builds
    the client of the tenant cluster from the connection it finds. *)
Lemma ensureDeamonSetRunning_connection (req : Request) (s : St W) :
  syncer (snd (ensureDeamonSetRunning req s)) = syncer s
  /\ TenantRestConfig (snd (ensureDeamonSetRunning req s)) = TenantRestConfig s
  /\ forall rc r,
       EClientNew rc r ∈ emitted (ensureDeamonSetRunning req) s ->
       rc = TenantRestConfig s.
Proof.
  pose proof (syncObjs_applies_only (config s)) as Hobjs.
  pose proof (syncObjs_same_vars (config s)) as Hvars.
  unfold emitted, ensureDeamonSetRunning, checkDeamonSetState,
    syncOvnkubeDaemonSet, getTenantClusterMasterIPs, getLocalOvnkubeImage.
  run. unfold err_of, val_of.
  answers.
  all: try match goal with
           | H : syncObjs _ ?m ?l ?st = (_, _) |- _ =>
               destruct (Hobjs m l st) as (evs' & Htr & Happ);
               destruct (Hvars m l st) as (Hv1 & Hv2 & _);
               rewrite H in Htr, Hv1, Hv2; cbn in Htr, Hv1, Hv2
           end.
  all: (split; [first [assumption | reflexivity]|]).
  all: (split; [first [assumption | reflexivity]|]).
  all: intros rc r Hin.
  all: rewrite ?Htr in Hin; rewrite <- ?app_assoc in Hin;
    rewrite ?drop_app_length, ?drop_all in Hin; cbn in Hin.
  all: split_log Hin.
  all: try (inversion Hin; subst; reflexivity).
  all: try (apply elem_of_app in Hin as [Hin|Hin]; [|split_log Hin]).
  all: apply (forallb_elem _ _ _ Happ) in Hin; discriminate Hin.
Qed.

(** The remote-sync phase: a held handle keeps its decoded connection, no
    client of the tenant cluster is built, and when the phase returns nil the
    connection is a decoded one. *)
Lemma ensureTenantObjsSynced_connection (req : Request) (s : St W) :
  held_decoded s ->
  held_decoded (snd (ensureTenantObjsSynced req s))
  /\ (fst (ensureTenantObjsSynced req s) = Done None ->
      decoded (TenantRestConfig (snd (ensureTenantObjsSynced req s)))).
Proof.
  unfold held_decoded, decoded, ensureTenantObjsSynced, startTenantSyncerIfNeeded,
    isTenantObjsSynced.
  run. intros Hheld.
  destruct (syncer s) as [h|] eqn:Hh; cbn.
  - answers; (split; [rewrite ?Hh; exact Hheld|]); intros Hdone;
      try discriminate Hdone; rewrite ?Hh in Hheld; now apply Hheld.
  - answers; cbn; rewrite ?Hh.
    all: split; [try (intros Hne; now contradiction Hne)|].
    all: try (intros Hdone; discriminate Hdone).
    all: try (intros _; eexists; eassumption).
    all: try (intros _; exfalso; congruence).
Qed.

Lemma clients_decoded_quiet (evs : list Event) :
  forallb (fun e => negb (isRolloutCall e)) evs = true -> clients_decoded evs.
Proof.
  intros Hq rc r Hin. apply (forallb_elem _ _ _ Hq) in Hin. discriminate Hin.
Qed.

Lemma clients_decoded_app (evs evs' : list Event) :
  clients_decoded evs -> clients_decoded evs' -> clients_decoded (evs ++ evs').
Proof.
  intros H1 H2 rc r Hin. apply elem_of_app in Hin as [Hin|Hin]; eauto.
Qed.

(** A pass on one object keeps the two facts. *)
Lemma ReconcileDpuClusterConfig_connection (req : Request) (cfg : DpuClusterConfig)
    (s : St W) :
  held_decoded s ->
  exists evs,
    trace (snd (ReconcileDpuClusterConfig req cfg s)) = (trace s ++ evs)%list
    /\ clients_decoded evs
    /\ held_decoded (snd (ReconcileDpuClusterConfig req cfg s)).
Proof.
  intros Hheld.
  rewrite ReconcileDpuClusterConfig_flush. cbn [fst snd].
  rewrite passBody_unfold. cbn [set_config snd config].
  assert (Hfin : forall (o : Outcome (Result * option error)) (s' : St W) evs,
             trace s' = (trace s ++ evs)%list ->
             clients_decoded evs -> held_decoded s' ->
             exists evs',
               trace match o with
                     | Aborted Exit => s'
                     | _ => flushed s'
                     end = (trace s ++ evs')%list
               /\ clients_decoded evs'
               /\ held_decoded match o with
                               | Aborted Exit => s'
                               | _ => flushed s'
                               end).
  { intros o s' evs Htr Hc Hh.
    assert (Hf : exists evs',
               trace (flushed s') = (trace s ++ evs')%list
               /\ clients_decoded evs' /\ held_decoded (flushed s')).
    { eexists. unfold flushed, logged. cbn [trace]. rewrite Htr, <- app_assoc.
      split; [reflexivity|]. split; [|exact Hh].
      apply clients_decoded_app; [exact Hc|].
      intros rc r Hin. split_log Hin. }
    destruct o as [a|[msg|]]; [exact Hf | exact Hf | now exists evs]. }
  destruct (validateDPUHostBootstrap cfg) as [ev|] eqn:Hv.
  { apply (Hfin (Done (Result0, Some ev)) _ []).
    - cbn. now rewrite app_nil_r.
    - intros rc r Hin. split_log Hin.
    - exact Hheld. }
  destruct (ensureMcpReady_footprint (snd (set_config cfg s)))
    as (err & s1 & Hrun & Hsy & Hrc & _ & (evs1 & Htr1 & Hq1)).
  cbn [set_config snd config trace syncer TenantRestConfig] in Hrun, Hsy, Hrc, Htr1.
  rewrite Hrun.
  assert (Hc1 : clients_decoded evs1).
  { apply clients_decoded_quiet.
    apply (forallb_weaken isPoolPhase); [now intros []|exact Hq1]. }
  assert (Hh1 : held_decoded s1).
  { unfold held_decoded. rewrite Hsy, Hrc. exact Hheld. }
  destruct err as [err|].
  { cbn [afterMcpReady]. now apply (Hfin (Done (Result0, Some err)) s1 evs1). }
  rewrite afterMcpReady_unfold.
  destruct (validateTenantKubeConfig (config s1)) as [err|].
  { now apply (Hfin (Done (Result0, Some err)) s1 evs1). }
  destruct (ensureTenantObjsSynced_log req s1) as (evs2 & Htr2 & Hq2 & _).
  destruct (ensureTenantObjsSynced_connection req s1 Hh1) as [Hh2 Hdec].
  assert (Hc2 : clients_decoded (evs1 ++ evs2)).
  { apply clients_decoded_app; [exact Hc1 | now apply clients_decoded_quiet]. }
  destruct (ensureTenantObjsSynced req s1) as [[[err|]|k] s2]; cbn [fst snd] in *.
  { apply (Hfin (Done (Result0, Some err)) s2 (evs1 ++ evs2)%list); auto.
    now rewrite Htr2, Htr1, <- app_assoc. }
  2: { apply (Hfin (Aborted k) s2 (evs1 ++ evs2)%list); auto.
       now rewrite Htr2, Htr1, <- app_assoc. }
  destruct (ensureDeamonSetRunning_log req s2) as (evs3 & Htr3).
  destruct (ensureDeamonSetRunning_connection req s2) as (Hsy3 & Hrc3 & Hnew).
  unfold emitted in Hnew. rewrite Htr3, drop_app_length in Hnew.
  assert (Hc3 : clients_decoded ((evs1 ++ evs2) ++ evs3)).
  { apply clients_decoded_app; [exact Hc2|].
    intros rc r Hin. rewrite (Hnew rc r Hin). now apply Hdec. }
  assert (Hh3 : held_decoded (snd (ensureDeamonSetRunning req s2))).
  { unfold held_decoded. rewrite Hsy3, Hrc3. exact Hh2. }
  assert (Htr : trace (snd (ensureDeamonSetRunning req s2))
                = (trace s ++ (evs1 ++ evs2) ++ evs3)%list).
  { now rewrite Htr3, Htr2, Htr1, <- !app_assoc. }
  unfold mbind, M_bind, bind.
  destruct (ensureDeamonSetRunning req s2) as [[[err|]|k] s3]; cbn [fst snd] in *.
  - now apply (Hfin (Done (Result0, Some err)) s3 ((evs1 ++ evs2) ++ evs3)%list).
  - now apply (Hfin (Done (Result0, None)) s3 ((evs1 ++ evs2) ++ evs3)%list).
  - now apply (Hfin (Aborted k) s3 ((evs1 ++ evs2) ++ evs3)%list).
Qed.

Lemma Reconcile_connection (req : Request) (s : St W) :
  held_decoded s -> clients_decoded (trace s) ->
  held_decoded (snd (Reconcile req s))
  /\ clients_decoded (trace (snd (Reconcile req s))).
Proof.
  intros Hheld Hcl.
  assert (Hlist : forall r : error + list DpuClusterConfig,
             clients_decoded (trace s ++ [EList (req_Namespace req) r])).
  { intros r. apply clients_decoded_app; [exact Hcl|].
    intros rc a Hin. split_log Hin. }
  unfold Reconcile. run.
  destruct (client_List (req_Namespace req) (world s)) as [[err|l] w1]; cbn in *.
  { split; [exact Hheld | apply Hlist]. }
  destruct (decide (1 < length l)) as [Hlong|Hlong]; cbn.
  { split; [exact Hheld | apply Hlist]. }
  destruct (decide (length l = 1)) as [Hone|Hone]; cbn.
  - destruct l as [|item rest]; [discriminate Hone|].
    match goal with
    | |- context [ReconcileDpuClusterConfig req item ?st] =>
        destruct (ReconcileDpuClusterConfig_connection req item st Hheld)
          as (evs & Htr & Hc & Hh)
    end.
    split; [exact Hh|]. rewrite Htr. cbn.
    apply clients_decoded_app; [apply Hlist | exact Hc].
  - destruct (decide (length l = 0)) as [Hzero|Hzero]; cbn.
    + destruct (syncer s) as [h|] eqn:Hsy; cbn.
      * split; [intros Hne; now contradiction Hne|].
        rewrite <- app_assoc. apply clients_decoded_app; [exact Hcl|].
        intros rc a Hin. split_log Hin.
      * split; [intros Hne; now contradiction Hne | apply Hlist].
    + split; [exact Hheld | apply Hlist].
Qed.

(** X22: the client of the tenant cluster is only ever built from a
    connection that decoded without error.  In every state the reconciler can
    reach, over any number of passes: each [client.New] in the log was given a
    connection that [RESTConfigFromKubeConfig] returned with no error; and
    while a handle is held, [utils.TenantRestConfig] is such a connection.  A
    kubeconfig that fails to decode does overwrite the variable, but only in
    a pass that holds no handle and that stops before the rollout. *)
Theorem tenant_client_built_from_decoded_connection (s : St W) :
  reachable s ->
  (forall rc r,
     EClientNew rc r ∈ trace s ->
     exists raw, RESTConfigFromKubeConfig raw = (rc, None))
  /\ (syncer s ≠ None ->
      exists raw, RESTConfigFromKubeConfig raw = (TenantRestConfig s, None)).
Proof.
  intros Hreach.
  assert (H : held_decoded s /\ clients_decoded (trace s)).
  { induction Hreach as [w rc cfg|s req _ [Hh Hc]|s w' _ [Hh Hc]].
    - split; [intros Hne; now contradiction Hne|].
      intros rc' r Hin. split_log Hin.
    - now apply Reconcile_connection.
    - split; [exact Hh|]. cbn. now rewrite app_nil_r. }
  destruct H as [Hh Hc]. split; [exact Hc | exact Hh].
Qed.

End TenantConnection.

(** ** What a rollout that returns nil has done *)

Section RolloutDone.
Context `{Lib : Library} {W : Type} `{Cl : !Cluster W}.

Lemma syncObjs_nil (cfg : DpuClusterConfig) (mcp : MachineConfigPool)
    (s0 : St W) (objs : list Unstructured) :
  forall s : St W,
    fst (syncObjs cfg mcp objs s) = Done None ->
    exists evs,
      trace (snd (syncObjs cfg mcp objs s)) = (trace s ++ evs)%list
      /\ Forall2 (fun e obj =>
                    exists obj',
                      e = EApplyObject obj' None
                      /\ fst (patchObj cfg mcp obj s0) = Done (inr obj'))
           evs objs.
Proof.
  induction objs as [|obj rest IH]; intros s; cbn [syncObjs].
  - intros _. exists []. cbn. rewrite app_nil_r. split; [reflexivity | constructor].
  - pose proof (patchObj_state cfg mcp obj s) as Hst.
    pose proof (patchObj_any_state cfg mcp obj s s0) as Hfst.
    unfold mbind, M_bind, bind.
    destruct (patchObj cfg mcp obj s) as [[[e|obj']|k] s1]; cbn in Hst, Hfst;
      subst s1; try discriminate.
    unfold ApplyObject. run.
    destruct (apply_ApplyObject obj' (world s)) as [[err|] w1]; cbn;
      [discriminate|].
    intros Hdone.
    match goal with
    | |- context [syncObjs cfg mcp rest ?st] =>
        destruct (IH st Hdone) as (evs & Htr & Hall)
    end.
    exists (EApplyObject obj' None :: evs). cbn in Htr |- *.
    rewrite Htr, <- app_assoc. split; [reflexivity|].
    constructor; [eauto | exact Hall].
Qed.

(** X23: what a rollout that returns nil has done.  When
    [syncOvnkubeDaemonSet] returns nil, one of two things happened.  Either
    the master pods of the tenant cluster could not be looked up (the client
    could not be built, or the listing failed), and that failed call is the
    last one: nothing was rendered and nothing applied.  Or the manifests were
    rendered, and the calls that follow the rendering are the [ApplyObject] of
    every rendered object, in the order of the manifests, each as the body of
    the loop made it from the pool that was read, and each answered without
    error. *)
Theorem syncOvnkubeDaemonSet_nil_means_applied (cfg : DpuClusterConfig) (s : St W) :
  fst (syncOvnkubeDaemonSet cfg s) = Done None ->
  (exists e,
     last (emitted (syncOvnkubeDaemonSet cfg) s)
     = Some (EClientNew (TenantRestConfig s) (inl e))
     \/ exists c,
          last (emitted (syncOvnkubeDaemonSet cfg) s)
          = Some (EListPods c {[ "app" := "ovnkube-master" ]} (inl e)))
  \/ (exists r pre data objs applies,
        emitted (syncOvnkubeDaemonSet cfg) s
        = (EGetPool (PoolName (cfg_Spec cfg)) r :: pre
           ++ ERenderDir utils_OvnkubeNodeManifestPath data (inr objs) :: applies)%list
        /\ forallb (fun e => negb (isApply e)) pre = true
        /\ Forall2 (fun e obj =>
                      exists obj',
                        e = EApplyObject obj' None
                        /\ fst (patchObj cfg (val_of zeroPool r) obj s)
                           = Done (inr obj'))
             applies objs).
Proof.
  pose proof (fun mcp objs st => syncObjs_nil cfg mcp s objs st) as Hobjs.
  unfold emitted, syncOvnkubeDaemonSet, getTenantClusterMasterIPs,
    getLocalOvnkubeImage.
  run. unfold err_of.
  answers.
  all: intros Hdone; try discriminate Hdone.
  all: try match goal with
           | Hd : fst (syncObjs _ ?m ?l ?st) = Done None |- _ =>
               destruct (Hobjs m l st Hd) as (evs' & Htr & Hall);
               cbn in Htr; rewrite Htr
           end.
  all: rewrite <- ?app_assoc, ?drop_app_length; cbn.
  all: first
         [ left; eexists; left; reflexivity
         | left; eexists; right; eexists; reflexivity
         | right; eexists _, [_; _; _], _, _, _; split; [reflexivity|];
           split; [reflexivity | eassumption]
         | right; eexists _, [_; _; _; _], _, _, _; split; [reflexivity|];
           split; [reflexivity | eassumption] ].
Qed.

End RolloutDone.

(** ** The scenarios *)

Module Cases.

Import Scenario MoreScenario.
#[local] Existing Instance test_library.

(** No configuration object and a task held: the task is stopped and the
    handle cleared. *)
Lemma no_config_stops_the_task :
  Reconcile req1 (start world0 (Some 7) None)
  = (Done (Result0, None),
     {| world := world0; trace := [EList "dpu" (inr []); ESyncerStop 7];
        syncer := None; TenantRestConfig := None; config := zeroConfig |}).
Proof.
  exact (Reconcile_no_config_stops_syncer req1 (start world0 (Some 7) None) world0
           eq_refl).
Defined.

(** Two configuration objects in the namespace: the pass stops after the
    listing and returns no error. *)
Lemma two_configs_return_nil :
  1 < length [cfg1; cfg2]
  /\ Reconcile req1 (start worldTwo None None)
     = (Done (Result0, None),
        logged (start worldTwo None None) worldTwo [EList "dpu" (inr [cfg1; cfg2])]).
Proof.
  split; [cbn; lia|].
  apply (Reconcile_many_configs_returns_nil req1 (start worldTwo None None)
           [cfg1; cfg2] worldTwo); [reflexivity | cbn; lia].
Defined.

Lemma master_pool_is_rejected :
  syncMachineConfigObjs (cfg_Spec cfgMaster) (start world0 None None)
  = (Done (Some (Errorf "master pools is not allowed")), start world0 None None)
  /\ emitted (syncMachineConfigObjs (cfg_Spec cfgMaster)) (start world0 None None)
     = []
  /\ world (snd (syncMachineConfigObjs (cfg_Spec cfgMaster) (start world0 None None)))
     = world0.
Proof.
  apply (syncMachineConfigObjs_rejects_reserved (cfg_Spec cfgMaster)
           (start world0 None None)).
  left. reflexivity.
Defined.

(** The stored payload lists its members in another order than the rendered
    one and decodes alike: convergence issues no write. *)
Lemma reordered_payload_is_not_updated :
  stored <> rendered
  /\ syncMachineConfigObjs (cfg_Spec cfg1) (start worldConverged None None)
     = (Done None,
        logged (start worldConverged None None) worldConverged
          [EGetPool "dpu"
             (inr {| mcp_Name := "dpu"; mcp_ResourceVersion := "7";
                     mcp_Spec := desiredPool |});
           EGenerateMachineConfig "bindata/machine-config"
             "00-dpu-bluefield-switchdev" dpuMcRole true MakeRenderData
             (inr {| mc_Name := "00-dpu-bluefield-switchdev";
                     mc_ResourceVersion := ""; mc_Raw := rendered |});
           EGetMachineConfig "00-dpu-bluefield-switchdev"
             (inr {| mc_Name := "00-dpu-bluefield-switchdev";
                     mc_ResourceVersion := "3"; mc_Raw := stored |})]).
Proof.
  split; [discriminate|].
  apply (proj1 node_pool_convergence_writes_on_mismatch_only Fake fake_cluster
           (cfg_Spec cfg1) (start worldConverged None None)
           {| mcp_Name := "dpu"; mcp_ResourceVersion := "7"; mcp_Spec := desiredPool |}
           {| mc_Name := "00-dpu-bluefield-switchdev"; mc_ResourceVersion := "";
              mc_Raw := rendered |}
           {| mc_Name := "00-dpu-bluefield-switchdev"; mc_ResourceVersion := "3";
              mc_Raw := stored |}
           worldConverged worldConverged worldConverged).
  - intros [H|H]; discriminate H.
  - reflexivity.
  - reflexivity.
  - reflexivity.
  - reflexivity.
  - reflexivity.
  - vm_compute. reflexivity.
Defined.

(** C5 (as stated, on an input): with no kubeconfig and the other two checks
    passed, node-pool convergence has run, and has created the pool and the
    machine config, by the time the pass fails on the kubeconfig check. *)
Lemma kubeconfig_is_checked_after_convergence :
  KubeConfigFile (cfg_Spec cfgNoKubeconfig) = ""
  /\ fst (ReconcileDpuClusterConfig req1 cfgNoKubeconfig (start world0 None None))
     = Done (Result0, Some (Errorf "No Kubeconfig provided for Tenant cluster"))
  /\ map verb
       (emitted (ReconcileDpuClusterConfig req1 cfgNoKubeconfig)
          (start world0 None None))
     = ["Get MachineConfigPool"; "Create MachineConfigPool";
        "GenerateMachineConfig"; "Get MachineConfig"; "Create MachineConfig";
        "Status Update"].
Proof. vm_compute. repeat split. Qed.

Lemma validation_order_on_cases :
  (exists err,
     validateDPUHostBootstrap cfgNoPool = Some err
     /\ ReconcileDpuClusterConfig req1 cfgNoPool (start world0 None None)
        = (Done (Result0, Some err),
           flushed (snd (set_config cfgNoPool (start world0 None None)))))
  /\ (validateDPUHostBootstrap cfgNoSelector = None
      <-> PoolName (cfg_Spec cfgNoSelector) ≠ "")
  /\ (exists err1 s1,
        ensureMcpReady (snd (set_config cfgNoKubeconfig (start world0 None None)))
        = (Done err1, s1)
        /\ ReconcileDpuClusterConfig req1 cfgNoKubeconfig (start world0 None None)
           = (Done (Result0,
                    Some (default
                            (Errorf "No Kubeconfig provided for Tenant cluster")
                            err1)),
              flushed s1)
        /\ (PoolName (cfg_Spec cfgNoKubeconfig) ≠ "master" ->
            PoolName (cfg_Spec cfgNoKubeconfig) ≠ "worker" ->
            exists r evs,
              emitted (ReconcileDpuClusterConfig req1 cfgNoKubeconfig)
                (start world0 None None)
              = EGetPool "dpu" r :: evs)).
Proof.
  split; [|split].
  - apply (proj1 (validation_order req1 cfgNoPool (start world0 None None))).
    left. reflexivity.
  - apply (proj1 (proj2 (validation_order req1 cfgNoSelector
                           (start world0 None None)))).
    intros [sel|]; discriminate.
  - apply (proj2 (proj2 (validation_order req1 cfgNoKubeconfig
                           (start world0 None None)))).
    + discriminate.
    + discriminate.
    + reflexivity.
Defined.

(** A reserved pool name and no kubeconfig: the pass reports the pool name,
    which node-pool convergence rejects, and not the kubeconfig. *)
Lemma reserved_pool_is_reported_before_the_kubeconfig :
  KubeConfigFile (cfg_Spec cfgMasterNoKubeconfig) = ""
  /\ fst (ReconcileDpuClusterConfig req1 cfgMasterNoKubeconfig
            (start world0 None None))
     = Done (Result0, Some (Errorf "master pools is not allowed")).
Proof. vm_compute. split; reflexivity. Qed.

Lemma held_handle_is_kept :
  startTenantSyncerIfNeeded cfg1 (start world0 (Some 7) None)
  = (Done None, start world0 (Some 7) None).
Proof.
  apply (proj1 (syncer_started_at_most_once (W := Fake)) cfg1
           (start world0 (Some 7) None) 7).
  reflexivity.
Defined.

(** The tenant cluster does not answer: the rollout phase returns nil. *)
Lemma tenant_down_returns_nil :
  syncOvnkubeDaemonSet cfg1 (start worldTenantDown None (Some "kubeconfig"))
  = (Done None,
     logged (start worldTenantDown None (Some "kubeconfig")) worldTenantDown
       [EGetPool "dpu"
          (inr {| mcp_Name := "dpu"; mcp_ResourceVersion := "7";
                  mcp_Spec := desiredPool |});
        EClientNew (Some "kubeconfig") (inr "tenant");
        EListPods "tenant" {[ "app" := "ovnkube-master" ]}
          (inl (Errorf "connection refused"))]).
Proof.
  apply (syncOvnkubeDaemonSet_drops_lookup_failure cfg1
           (start worldTenantDown None (Some "kubeconfig"))
           (inr {| mcp_Name := "dpu"; mcp_ResourceVersion := "7";
                   mcp_Spec := desiredPool |})
           "tenant" (Errorf "connection refused")
           worldTenantDown worldTenantDown worldTenantDown).
  - reflexivity.
  - intros e H. discriminate H.
  - reflexivity.
  - reflexivity.
Defined.

(** The same pass as a whole: with the daemon set of an earlier rollout
    ready, the pass succeeds and reports the rollout ready although nothing was
    rendered or applied. *)
Lemma tenant_down_reported_ready :
  let run := Reconcile req1 (start (with_configs [cfg1] worldTenantDown) (Some 7)
                               (Some "kubeconfig")) in
  fst run = Done (Result0, None)
  /\ f_applied (world (snd run)) = []
  /\ In {| cond_Type := OvnKubeReady; cond_Status := true;
           cond_Reason := ReasonCreated; cond_Message := "" |}
        (cfg_Conditions (config (snd run))).
Proof. vm_compute. repeat split. right. right. now left. Qed.

(** The daemon set comes second among the manifests.  With every [Get] of
    the pool timing out, the rollout applies the service account and panics on
    the nil selector of the pool it never got; with the image taken from the
    local daemon set and no node-selector map in the manifest, it panics on
    the assignment. *)
Lemma pool_timeout_panics :
  (fst (syncOvnkubeDaemonSet cfg1
          (start worldPoolTimeoutSecond None (Some "kubeconfig")))
   = Aborted (Panic "invalid memory address or nil pointer dereference")
   /\ emitted (syncOvnkubeDaemonSet cfg1)
        (start worldPoolTimeoutSecond None (Some "kubeconfig"))
      = EGetPool "dpu" (inl (Errorf "etcdserver: request timed out"))
        :: ([EClientNew (Some "kubeconfig") (inr "tenant");
             EListPods "tenant" {[ "app" := "ovnkube-master" ]}
               (inr [ {| PodIP := "10.0.0.1" |}; {| PodIP := "10.0.0.2" |} ]);
             EGetenv "OVNKUBE_IMAGE" "quay.io/ovnkube:latest"]
            ++ ERenderDir "./bindata/manifests/ovnkube-node"
                 (rolloutData cfg1 "quay.io/ovnkube:latest"
                    ["10.0.0.1"; "10.0.0.2"])
                 (inr ([saManifest] ++ dsManifest :: []))
               :: [EApplyObject
                     {| u_Kind := "ServiceAccount"; u_Name := "ovnkube-node";
                        u_NodeSelector := None; u_Owner := Some "one" |}
                     None])%list)
  /\ fst (syncOvnkubeDaemonSet cfg1
            (start worldLocalImage None (Some "kubeconfig")))
     = Aborted (Panic "assignment to entry in nil map").
Proof.
  split.
  - refine (proj1 (proj2 (syncOvnkubeDaemonSet_merge_preconditions cfg1
              (start worldPoolTimeoutSecond None (Some "kubeconfig"))
              (inl (Errorf "etcdserver: request timed out"))
              [EClientNew (Some "kubeconfig") (inr "tenant");
               EListPods "tenant" {[ "app" := "ovnkube-master" ]}
                 (inr [ {| PodIP := "10.0.0.1" |}; {| PodIP := "10.0.0.2" |} ]);
               EGetenv "OVNKUBE_IMAGE" "quay.io/ovnkube:latest"]
              (rolloutData cfg1 "quay.io/ovnkube:latest" ["10.0.0.1"; "10.0.0.2"])
              [saManifest] dsManifest []
              [EApplyObject
                 {| u_Kind := "ServiceAccount"; u_Name := "ovnkube-node";
                    u_NodeSelector := None; u_Owner := Some "one" |}
                 None]
              {| ds_Containers := []; ds_NodeSelector := u_NodeSelector dsManifest;
                 DesiredNumberScheduled := 0; NumberReady := 0 |}
              _ _ eq_refl eq_refl)) _).
    + exists []. reflexivity.
    + constructor; [eexists; reflexivity | constructor].
    + reflexivity.
  - refine (proj1 (proj1 (proj2 (proj2 (syncOvnkubeDaemonSet_merge_preconditions
              cfg1 (start worldLocalImage None (Some "kubeconfig"))
              (inr {| mcp_Name := "dpu"; mcp_ResourceVersion := "7";
                      mcp_Spec := desiredPool |})
              [EClientNew (Some "kubeconfig") (inr "tenant");
               EListPods "tenant" {[ "app" := "ovnkube-master" ]}
                 (inr [ {| PodIP := "10.0.0.1" |}; {| PodIP := "10.0.0.2" |} ]);
               EGetenv "OVNKUBE_IMAGE" "";
               EGetDaemonSet "openshift-ovn-kubernetes" "ovnkube-node"
                 (inr readyDaemonSet)]
              (rolloutData cfg1 "quay.io/ovnkube:latest" ["10.0.0.1"; "10.0.0.2"])
              [saManifest] dsManifestNoSelector []
              [EApplyObject
                 {| u_Kind := "ServiceAccount"; u_Name := "ovnkube-node";
                    u_NodeSelector := None; u_Owner := Some "one" |}
                 None]
              {| ds_Containers := []; ds_NodeSelector := None;
                 DesiredNumberScheduled := 0; NumberReady := 0 |}
              _ _ eq_refl eq_refl)))
            {| MatchLabels := {[ "node-role.kubernetes.io/dpu-worker" := "" ]};
               MatchExpressions := [] |} _ _ _)).
    + exists []. reflexivity.
    + constructor; [eexists; reflexivity | constructor].
    + reflexivity.
    + discriminate.
    + reflexivity.
Defined.

(** The pass as a whole on that cluster, and on the one whose manifest gives
    no node selector. *)
Lemma pass_panics_on_merge :
  fst (Reconcile req1 (start (with_configs [cfg1] worldPoolTimeout) (Some 7)
                         (Some "kubeconfig")))
  = Aborted (Panic "invalid memory address or nil pointer dereference")
  /\ fst (Reconcile req1 (start (with_configs [cfg1] worldNoSelector) (Some 7)
                            (Some "kubeconfig")))
     = Aborted (Panic "assignment to entry in nil map").
Proof. vm_compute. split; reflexivity. Qed.

(** Desired 3 and ready 2: rolling out; desired 3 and ready 3: success. *)
Lemma rolling_out_and_ready :
  fst (checkDeamonSetState req1 cfg1 (start worldRolling None None))
  = Done (Some (Errorf "DaemonSet 'ovnkube-node' is rolling out"))
  /\ fst (checkDeamonSetState req1 cfg1 (start worldReady None None)) = Done None.
Proof.
  split.
  - refine (proj2 (checkDeamonSetState_ready_iff req1 cfg1
                     (start worldRolling None None) rollingDaemonSet worldRolling
                     _) _).
    + reflexivity.
    + discriminate.
  - refine (proj2 (proj1 (checkDeamonSetState_ready_iff req1 cfg1
                            (start worldReady None None) readyDaemonSet worldReady
                            _)) _).
    + reflexivity.
    + reflexivity.
Defined.


(** The listing fails while a handle is held: the error comes back and the
    handle stays. *)
Lemma failed_listing_is_returned :
  Reconcile req1 (startFaulty worldListDown (Some 7) None)
  = (Done (Result0, Some (Errorf "connection refused")),
     logged (startFaulty worldListDown (Some 7) None) worldListDown
       [EList "dpu" (inl (Errorf "connection refused"))]).
Proof.
  refine (Reconcile_list_error req1 (startFaulty worldListDown (Some 7) None)
            (Errorf "connection refused") worldListDown _).
  reflexivity.
Defined.

(** The first start of the syncer on the empty cluster. *)
Lemma first_start_of_the_syncer :
  exists sec raw loc,
    Data sec !! "config" = Some raw
    /\ RESTConfigFromKubeConfig raw = (Some "kubeconfig", None)
    /\ emitted (startTenantSyncerIfNeeded cfg1) (start world0 None None)
       = [EGetSecret "dpu" "tenant-kubeconfig" (inr sec);
          EGetConfigOrDie (Some loc);
          ESyncerNew {| LocalRestConfig := Some loc; LocalNamespace := "dpu";
                        sc_TenantRestConfig := Some "kubeconfig";
                        TenantNamespace := "openshift-ovn-kubernetes" |}
            cfg1 (Some 7, None);
          ESyncerStart (Some 7) None]
    /\ config (snd (startTenantSyncerIfNeeded cfg1 (start world0 None None)))
       = zeroConfig.
Proof.
  refine (startTenantSyncerIfNeeded_started cfg1 (start world0 None None) _ _).
  - reflexivity.
  - reflexivity.
Defined.

(** A secret with no key "config". *)
Lemma secret_without_config_key :
  startTenantSyncerIfNeeded cfg1 (start worldNoKey None None)
  = (Done (Some (Errorf "key 'config' cannot be found in secret tenant-kubeconfig")),
     logged (start worldNoKey None None) worldNoKey
       [EGetSecret "dpu" "tenant-kubeconfig" (inr zeroSecret)]).
Proof.
  refine (proj1 (startTenantSyncerIfNeeded_unusable_secret cfg1
                   (start worldNoKey None None) zeroSecret worldNoKey _ _) _).
  - reflexivity.
  - reflexivity.
  - reflexivity.
Defined.

(** The pool is reported missing and is there: its [Create] fails, and
    nothing is rendered. *)
Lemma failed_create_ends_convergence :
  fst (syncMachineConfigObjs (cfg_Spec cfg1) (start worldStaleCache None None))
  = Done (Some (Errorf ("couldn't create MachineConfigPool: "
                        ++ "machineconfigpool already exists")))
  /\ last (emitted (syncMachineConfigObjs (cfg_Spec cfg1))
             (start worldStaleCache None None))
     = Some (ECreatePool {| mcp_Name := "dpu"; mcp_ResourceVersion := "";
                            mcp_Spec := desiredPool |}
               (Some (Errorf "machineconfigpool already exists"))).
Proof.
  apply (syncMachineConfigObjs_failed_write_is_last (cfg_Spec cfg1)
           (start worldStaleCache None None)
           (ECreatePool {| mcp_Name := "dpu"; mcp_ResourceVersion := "";
                           mcp_Spec := desiredPool |}
              (Some (Errorf "machineconfigpool already exists")))).
  - apply (list_elem_of_lookup_2 _ 1). reflexivity.
  - reflexivity.
Defined.

(** What the templates get on the converged cluster. *)
Lemma rendered_with_the_endpoints_of_the_tenant :
  exists image c pods,
    rolloutData cfg1 "quay.io/ovnkube:latest" ["10.0.0.1"; "10.0.0.2"]
    = rolloutData cfg1 image (map PodIP pods)
    /\ EListPods c {[ "app" := "ovnkube-master" ]} (inr pods)
       ∈ emitted (syncOvnkubeDaemonSet cfg1)
           (start worldDone None (Some "kubeconfig"))
    /\ ((image ≠ ""
         /\ EGetenv "OVNKUBE_IMAGE" image
            ∈ emitted (syncOvnkubeDaemonSet cfg1)
                (start worldDone None (Some "kubeconfig"))
         /\ forall ns name a,
              EGetDaemonSet ns name a
              ∉ emitted (syncOvnkubeDaemonSet cfg1)
                  (start worldDone None (Some "kubeconfig")))
        \/ (EGetenv "OVNKUBE_IMAGE" ""
            ∈ emitted (syncOvnkubeDaemonSet cfg1)
                (start worldDone None (Some "kubeconfig"))
            /\ exists ds cont rest,
                 EGetDaemonSet utils_LocalOvnkbueNamespace
                   utils_LocalOvnkbueNodeDsName (inr ds)
                 ∈ emitted (syncOvnkubeDaemonSet cfg1)
                     (start worldDone None (Some "kubeconfig"))
                 /\ ds_Containers ds = cont :: rest /\ image = Image cont)).
Proof.
  refine (proj2 (syncOvnkubeDaemonSet_render_data cfg1
                   (start worldDone None (Some "kubeconfig"))
                   "./bindata/manifests/ovnkube-node"
                   (rolloutData cfg1 "quay.io/ovnkube:latest"
                      ["10.0.0.1"; "10.0.0.2"])
                   (inr [saManifest; dsManifest]) _)).
  apply (list_elem_of_lookup_2 _ 4). reflexivity.
Defined.

(** A pass on the one object with a handle held. *)
Lemma held_handle_survives_the_pass :
  syncer (snd (Reconcile req1 (start worldDone (Some 7) (Some "kubeconfig"))))
  = Some 7
  /\ forallb (fun e => negb (isSyncerCall e))
       (emitted (Reconcile req1) (start worldDone (Some 7) (Some "kubeconfig")))
     = true.
Proof.
  apply (Reconcile_keeps_held_handle req1
           (start worldDone (Some 7) (Some "kubeconfig")) 7).
  - reflexivity.
  - discriminate.
Defined.

(** The stop of the task is the mark of the empty namespace. *)
Lemma stop_means_no_config :
  fst (client_List "dpu" world0) = inr []
  /\ syncer (start world0 (Some 7) None) = Some 7
  /\ emitted (Reconcile req1) (start world0 (Some 7) None)
     = [EList "dpu" (inr []); ESyncerStop 7]
  /\ fst (Reconcile req1 (start world0 (Some 7) None)) = Done (Result0, None)
  /\ syncer (snd (Reconcile req1 (start world0 (Some 7) None))) = None.
Proof.
  apply (Reconcile_stops_only_without_config req1 (start world0 (Some 7) None) 7).
  apply (list_elem_of_lookup_2 _ 1). reflexivity.
Defined.

(** The pass that reads OVNKUBE_IMAGE has found the mirrored objects. *)
Lemma image_is_read_after_the_mirrored_objects :
  validateDPUHostBootstrap cfg1 = None
  /\ validateTenantKubeConfig cfg1 = None
  /\ (exists s1,
        ensureMcpReady
          (snd (set_config cfg1 (start worldDone (Some 7) (Some "kubeconfig"))))
        = (Done None, s1)
        /\ fst (ensureTenantObjsSynced req1 s1) = Done None)
  /\ mirrored_found "dpu"
       (emitted (ReconcileDpuClusterConfig req1 cfg1)
          (start worldDone (Some 7) (Some "kubeconfig"))).
Proof.
  apply (rollout_follows_mirrored_objects req1 cfg1
           (start worldDone (Some 7) (Some "kubeconfig"))
           (EGetenv "OVNKUBE_IMAGE" "quay.io/ovnkube:latest")).
  - apply (list_elem_of_lookup_2 _ 9). reflexivity.
  - reflexivity.
Defined.

(** The first pass on a fresh cluster creates the pool of the one object. *)
Lemma pool_is_created_for_the_one_object :
  exists item,
    fst (client_List "dpu" worldFresh) = inr [item]
    /\ validateDPUHostBootstrap item = None
    /\ PoolName (cfg_Spec item) ≠ "master"
    /\ PoolName (cfg_Spec item) ≠ "worker".
Proof.
  apply (Reconcile_writes_only_for_valid_object req1 (start worldFresh None None)
           (ECreatePool {| mcp_Name := "dpu"; mcp_ResourceVersion := "";
                           mcp_Spec := desiredPool |} None)).
  - apply (list_elem_of_lookup_2 _ 2). reflexivity.
  - reflexivity.
Defined.

(** The label of the pool is added to the selector of the manifest. *)
Lemma pool_label_is_merged :
  exists m' : gmap string string,
    mergeNodeSelector
      {| mcp_Name := "dpu"; mcp_ResourceVersion := "7"; mcp_Spec := desiredPool |}
      {| ds_Containers := [];
         ds_NodeSelector := Some {[ "beta.kubernetes.io/os" := "linux" ]};
         DesiredNumberScheduled := 0; NumberReady := 0 |}
      (start world0 None None)
    = (Done {| ds_Containers := []; ds_NodeSelector := Some m';
               DesiredNumberScheduled := 0; NumberReady := 0 |},
       start world0 None None)
    /\ (forall k v,
          ({[ "node-role.kubernetes.io/dpu-worker" := "" ]} : gmap string string)
            !! k = Some v ->
          m' !! k = Some v)
    /\ (forall k,
          ({[ "node-role.kubernetes.io/dpu-worker" := "" ]} : gmap string string)
            !! k = None ->
          m' !! k
          = ({[ "beta.kubernetes.io/os" := "linux" ]} : gmap string string) !! k).
Proof.
  exact (mergeNodeSelector_pool_labels_win
           {| mcp_Name := "dpu"; mcp_ResourceVersion := "7"; mcp_Spec := desiredPool |}
           {| ds_Containers := [];
              ds_NodeSelector := Some {[ "beta.kubernetes.io/os" := "linux" ]};
              DesiredNumberScheduled := 0; NumberReady := 0 |}
           {| MatchLabels := {[ "node-role.kubernetes.io/dpu-worker" := "" ]};
              MatchExpressions := [] |}
           {[ "beta.kubernetes.io/os" := "linux" ]}
           (start world0 None None) eq_refl eq_refl).
Defined.

(** Another name in the request, the same pass. *)
Lemma other_name_same_pass :
  Reconcile req1 (start worldDone None None)
  = Reconcile reqOther (start worldDone None None).
Proof.
  apply (Reconcile_ignores_request_name req1 reqOther (start worldDone None None)).
  reflexivity.
Defined.

(** A pass that returns nil on the cluster where everything is in place. *)
Lemma success_after_ready_daemon_set :
  validateDPUHostBootstrap cfg1 = None
  /\ validateTenantKubeConfig cfg1 = None
  /\ exists evs ds r,
       emitted (ReconcileDpuClusterConfig req1 cfg1)
         (start worldDone (Some 7) (Some "kubeconfig"))
       = (evs ++ [EGetDaemonSet "dpu" "ovnkube-node" (inr ds);
                  EStatusUpdate
                    (config (snd (ReconcileDpuClusterConfig req1 cfg1
                                    (start worldDone (Some 7) (Some "kubeconfig")))))
                    r])%list
       /\ mirrored_found "dpu" evs
       /\ DesiredNumberScheduled ds = NumberReady ds.
Proof.
  apply (ReconcileDpuClusterConfig_success_means_ready req1 cfg1
           (start worldDone (Some 7) (Some "kubeconfig"))).
  reflexivity.
Defined.

(** After the first pass on the cluster where everything is in place. *)
Lemma first_pass_uses_the_decoded_connection :
  (forall rc r,
     EClientNew rc r ∈ trace (snd (Reconcile req1 (start worldDone None None))) ->
     exists raw, RESTConfigFromKubeConfig raw = (rc, None))
  /\ (syncer (snd (Reconcile req1 (start worldDone None None))) ≠ None ->
      exists raw,
        RESTConfigFromKubeConfig raw
        = (TenantRestConfig (snd (Reconcile req1 (start worldDone None None))),
           None)).
Proof.
  apply (tenant_client_built_from_decoded_connection
           (snd (Reconcile req1 (start worldDone None None)))).
  apply reach_pass. exact (reach_init worldDone None zeroConfig).
Defined.

(** A constructor that fails: its error comes back and nothing is launched. *)
Lemma failed_construction_launches_nothing :
  fst (startTenantSyncerIfNeeded cfg1 (startFaulty worldNoSyncer None None))
  = Done (Some (Errorf "no route to the tenant"))
  /\ forall h' r,
       ESyncerStart h' r
       ∉ emitted (startTenantSyncerIfNeeded cfg1) (startFaulty worldNoSyncer None None).
Proof.
  refine (proj2 (proj2 (syncer_launched_after_construction cfg1
                          (startFaulty worldNoSyncer None None)))
            {| LocalRestConfig := Some "in-cluster"; LocalNamespace := "dpu";
               sc_TenantRestConfig := Some "kubeconfig";
               TenantNamespace := "openshift-ovn-kubernetes" |}
            cfg1 None (Errorf "no route to the tenant") _).
  apply (list_elem_of_lookup_2 _ 2). reflexivity.
Defined.

(** A [Get] of the pool that times out is passed over; a [Get] of the
    machine config that times out is returned. *)
Lemma reads_that_time_out :
  (exists r rest,
     emitted (syncMachineConfigObjs (cfg_Spec cfg1)) (start worldPoolTimeout None None)
     = EGetPool "dpu" (inl (Errorf "etcdserver: request timed out"))
       :: EGenerateMachineConfig "bindata/machine-config"
            "00-dpu-bluefield-switchdev" dpuMcRole true MakeRenderData r
       :: rest
     /\ forall p err,
          (ECreatePool p err
           ∉ emitted (syncMachineConfigObjs (cfg_Spec cfg1))
               (start worldPoolTimeout None None))
          /\ (EUpdatePool p err
              ∉ emitted (syncMachineConfigObjs (cfg_Spec cfg1))
                  (start worldPoolTimeout None None)))
  /\ (fst (syncMachineConfigObjs (cfg_Spec cfg1) (startFaulty worldMcDown None None))
      = Done (Some (Errorf ("failed to get MachineConfig: "
                            ++ "etcdserver: request timed out")))
      /\ last (emitted (syncMachineConfigObjs (cfg_Spec cfg1))
                 (startFaulty worldMcDown None None))
         = Some (EGetMachineConfig "00-dpu-bluefield-switchdev"
                   (inl (Errorf "etcdserver: request timed out")))).
Proof.
  split.
  - refine (proj1 (syncMachineConfigObjs_failed_reads (cfg_Spec cfg1)
                     (start worldPoolTimeout None None))
              (Errorf "etcdserver: request timed out") _).
    split; [|reflexivity]. apply (list_elem_of_lookup_2 _ 0). reflexivity.
  - refine (proj1 (proj2 (syncMachineConfigObjs_failed_reads (cfg_Spec cfg1)
                            (startFaulty worldMcDown None None)))
              (Errorf "etcdserver: request timed out") _).
    split; [|reflexivity]. apply (list_elem_of_lookup_2 _ 2). reflexivity.
Defined.


(** The pass that panics in the merge still writes the status, last. *)
Lemma status_is_written_after_a_panic :
  fst (ReconcileDpuClusterConfig req1 cfg1
         (start worldPoolTimeout (Some 7) (Some "kubeconfig")))
  = Aborted (Panic "invalid memory address or nil pointer dereference")
  /\ exists evs r,
       emitted (ReconcileDpuClusterConfig req1 cfg1)
         (start worldPoolTimeout (Some 7) (Some "kubeconfig"))
       = (evs ++ [EStatusUpdate
                    (config (snd (ReconcileDpuClusterConfig req1 cfg1
                                    (start worldPoolTimeout (Some 7)
                                       (Some "kubeconfig")))))
                    r])%list
       /\ forallb (fun e => negb (isStatusUpdate e)) evs = true.
Proof.
  split; [reflexivity|].
  exact (proj2 (ReconcileDpuClusterConfig_flushes_status_last req1 cfg1
                  (start worldPoolTimeout (Some 7) (Some "kubeconfig")))).
Defined.

(** The rollout on the cluster where everything is in place. *)
Lemma rollout_applies_every_manifest :
  (exists e,
     last (emitted (syncOvnkubeDaemonSet cfg1)
             (start worldDone None (Some "kubeconfig")))
     = Some (EClientNew (Some "kubeconfig") (inl e))
     \/ exists c,
          last (emitted (syncOvnkubeDaemonSet cfg1)
                  (start worldDone None (Some "kubeconfig")))
          = Some (EListPods c {[ "app" := "ovnkube-master" ]} (inl e)))
  \/ (exists r pre data objs applies,
        emitted (syncOvnkubeDaemonSet cfg1) (start worldDone None (Some "kubeconfig"))
        = (EGetPool "dpu" r :: pre
           ++ ERenderDir "./bindata/manifests/ovnkube-node" data (inr objs)
              :: applies)%list
        /\ forallb (fun e => negb (isApply e)) pre = true
        /\ Forall2 (fun e obj =>
                      exists obj',
                        e = EApplyObject obj' None
                        /\ fst (patchObj cfg1 (val_of zeroPool r) obj
                                  (start worldDone None (Some "kubeconfig")))
                           = Done (inr obj'))
             applies objs).
Proof.
  apply (syncOvnkubeDaemonSet_nil_means_applied cfg1
           (start worldDone None (Some "kubeconfig"))).
  reflexivity.
Defined.

End Cases.
